(** * sfptpd: the clock-feed service and the SHM servo instance

    A shallow embedding of [src/sfptpd_clockfeed.c] and of the servo part of
    [src/shm/sfptpd_shm_module.c], with the properties the specification
    states about them.

    Conventions.
    - C integers are [Z]; a conversion or an operation that can leave the
      range of its C type is written with its wrap-around ([to_int],
      [to_uint32], ...).  Signed overflow, undefined in C, is given the
      two's-complement result; theorems that depend on an addition say
      that it stays in range.
    - Pointers to heap cells are [positive] (never NULL); a pointer that
      may be NULL is an [option].  The heap is a [gmap]; [free] deletes
      the cell.  A linked list threaded through [next] fields is the Rocq
      list of its cells' addresses.
    - A handler that hits a failed [assert] or dereferences an invalid
      pointer returns [None].
    - [long double] quantities are rationals ([Q]): the servo's decisions
      are comparisons and a saturation, which are modelled exactly; rounding
      and NaN are outside the model.
    - Values read from the environment (the re-read of a shared counter,
      [clock_gettime], a driver call's result) are arguments. *)

From Stdlib Require Import ZArith QArith Qabs Bool List Lia Lqa.
From stdpp Require Import base option list gmap.

Local Open Scope Z_scope.

(** ** Machine integers *)

Definition to_uint32 (x : Z) : Z := x mod 2 ^ 32.
Definition to_uint64 (x : Z) : Z := x mod 2 ^ 64.

(** Conversion to [int] (32 bits, two's complement). *)
Definition to_int (x : Z) : Z := (x + 2 ^ 31) mod 2 ^ 32 - 2 ^ 31.

Definition INT_MAX : Z := 2 ^ 31 - 1.
Definition INT_MIN : Z := - 2 ^ 31.

(** ** errno values (Linux), with the names the specification uses *)

Definition ENOENT : Z := 2.       (* NOT_ACTIVE *)
Definition EAGAIN : Z := 11.      (* NO_DATA *)
Definition ENOMEM : Z := 12.
Definition ENOSPC : Z := 28.      (* NO_SPACE *)
Definition ENODATA : Z := 61.     (* OVERRUN *)
Definition ESTALE : Z := 116.     (* STALE *)
Definition EOWNERDEAD : Z := 130. (* OWNER_DEAD *)

(** * The clock feed *)

Module Clockfeed.

Definition MAX_CLOCK_SAMPLES_LOG2 : Z := 4.
Definition MAX_CLOCK_SAMPLES : Z := Z.shiftl 1 MAX_CLOCK_SAMPLES_LOG2.
Definition MAX_EVENT_SUBSCRIBERS : nat := 4.

(** [struct timespec]. *)
Record timespec := { tv_sec : Z; tv_nsec : Z }.

Definition timespec_zero : timespec := {| tv_sec := 0; tv_nsec := 0 |}.

(** [struct sfptpd_clockfeed_sample]: the fields the feed writes. *)
Record sfptpd_clockfeed_sample := {
  seq : Z;
  mono : timespec;
  system : timespec;
  snapshot : timespec;
  rc : Z;
}.

Definition sample_zero : sfptpd_clockfeed_sample :=
  {| seq := 0; mono := timespec_zero; system := timespec_zero;
     snapshot := timespec_zero; rc := 0 |}.

(** [struct clockfeed_shm]: [samples] has [MAX_CLOCK_SAMPLES] cells. *)
Record clockfeed_shm := {
  samples : list sfptpd_clockfeed_sample;
  write_counter : Z;
}.

Definition shm_zero : clockfeed_shm :=
  {| samples := replicate (Z.to_nat MAX_CLOCK_SAMPLES) sample_zero;
     write_counter := 0 |}.

(** [shm->samples[i]]. *)
Definition sample_at (shm : clockfeed_shm) (i : Z) : sfptpd_clockfeed_sample :=
  default sample_zero (samples shm !! Z.to_nat i).

(** Clock and thread handles are opaque, non-NULL addresses. *)
Abbreviation clock_t := positive (only parsing).
Abbreviation thread_t := positive (only parsing).

(** [struct sfptpd_clockfeed_sub]; [next] is the position in the owning
    source's subscriber list. *)
Record sfptpd_clockfeed_sub := {
  source : positive;
  read_counter : Z;
  min_counter : Z;
  have_max_age : bool;
  have_max_age_diff : bool;
  max_age : timespec;
  max_age_diff : timespec;
}.

(** [struct clockfeed_source]; [next] is the position in the module's
    active or inactive list. *)
Record clockfeed_source := {
  s_clock : clock_t;
  s_poll_period_log2 : Z;
  s_cycles : Z;
  s_shm : clockfeed_shm;
  s_subscribers : list positive;
  s_inactive : bool;
}.

(** ** Reading a source's ring: [clockfeed_compare_to_sys] *)

(** The helpers of [sfptpd_time.h] the feed calls; the header and its
    implementation are not among the sources, so the model is parametric
    in them. *)
Class TimeOps := {
  sfptpd_time_add : timespec -> timespec -> timespec;
  sfptpd_time_subtract : timespec -> timespec -> timespec;
  sfptpd_time_cmp : timespec -> timespec -> Z;
  sfptpd_time_is_greater_or_equal : timespec -> timespec -> bool;
}.

Section Compare.

Context {time_ops : TimeOps}.

(** What one call leaves behind: the return code, [*diff], the three
    optional out-parameters ([None] for a NULL pointer) and the
    subscription, whose [read_counter] a successful read advances. *)
Record compare_out := {
  out_rc : Z;
  out_diff : timespec;
  out_t1 : option timespec;
  out_t2 : option timespec;
  out_mono : option timespec;
  out_sub : sfptpd_clockfeed_sub;
}.

Definition index_mask : Z := Z.shiftl 1 MAX_CLOCK_SAMPLES_LOG2 - 1.

(** The writer runs concurrently: [counter_reread] is what the second load
    of [shm->write_counter] sees, [src] what the first load and the reads
    of the sample saw.  [clock_active] is [sfptpd_clock_is_active(clock)];
    [now_mono] is the result of [clock_gettime(CLOCK_MONOTONIC)], [None]
    when it fails.  [t1], [t2], [mono_time] hold the current contents of
    the caller's buffers. *)
Definition clockfeed_compare_to_sys
    (src : clockfeed_source) (sub : sfptpd_clockfeed_sub)
    (clock_active : bool) (counter_reread : Z) (now_mono : option timespec)
    (t1 t2 mono_time : option timespec) : compare_out :=
  let shm := s_shm src in
  let ret rc diff :=
    {| out_rc := rc; out_diff := diff; out_t1 := t1; out_t2 := t2;
       out_mono := mono_time; out_sub := sub |} in
  let diff := timespec_zero in
  let writer1 := to_int (write_counter shm) in
  if s_inactive src then ret EOWNERDEAD diff
  else if negb clock_active then ret ENOENT diff
  else if writer1 =? 0 then ret EAGAIN diff
  else
    let sample :=
      sample_at shm (Z.land (to_uint32 (to_int (writer1 - 1))) index_mask) in
    if negb (rc sample =? 0) then ret 0 diff
    else
      let diff := sfptpd_time_subtract (snapshot sample) (system sample) in
      (* Check for overrun *)
      let writer2 := to_int counter_reread in
      if writer2 >=? to_int (to_int (writer1 + MAX_CLOCK_SAMPLES) - 1)
      then ret ENODATA diff
      (* Check for old sample when new one requested *)
      else if writer1 <? min_counter sub then ret ESTALE diff
      else
        let aged :=
          if have_max_age sub then
            match now_mono with
            | None => Some EAGAIN
            | Some now =>
                let age := sfptpd_time_subtract now (mono sample) in
                if sfptpd_time_cmp age (max_age sub) >? 0
                then Some ESTALE else None
            end
          else None in
        match aged with
        | Some e => ret e diff
        | None =>
            {| out_rc := 0;
               out_diff := diff;
               out_t1 := (fun _ => snapshot sample) <$> t1;
               out_t2 := (fun _ => system sample) <$> t2;
               out_mono := (fun _ => mono sample) <$> mono_time;
               out_sub :=
                 {| source := source sub;
                    read_counter := writer1;
                    min_counter := min_counter sub;
                    have_max_age := have_max_age sub;
                    have_max_age_diff := have_max_age_diff sub;
                    max_age := max_age sub;
                    max_age_diff := max_age_diff sub |} |}
        end.

(** The sample a read of [src] takes: the slot [clockfeed_compare_to_sys]
    indexes, named for the statements about it. *)
Definition newest_sample (src : clockfeed_source) : sfptpd_clockfeed_sample :=
  let writer1 := to_int (write_counter (s_shm src)) in
  sample_at (s_shm src) (Z.land (to_uint32 (to_int (writer1 - 1))) index_mask).

(** One leg of a comparison: the subscription with what its read will
    observe. *)
Record reading := {
  r_sub : sfptpd_clockfeed_sub;
  r_src : clockfeed_source;
  r_clock_active : bool;
  r_reread : Z;
  r_now : option timespec;
}.

Definition read_leg (r : reading) (t1 t2 mono_time : option timespec)
  : compare_out :=
  clockfeed_compare_to_sys (r_src r) (r_sub r) (r_clock_active r)
    (r_reread r) (r_now r) t1 t2 mono_time.

Record compare_result := {
  cr_rc : Z;
  cr_diff : timespec;
  cr_t1 : option timespec;
  cr_t2 : option timespec;
  cr_mono : option timespec;
  cr_sub1 : option sfptpd_clockfeed_sub;
  cr_sub2 : option sfptpd_clockfeed_sub;
}.

(** The choice of [max_age_diff] at the head of [sfptpd_clockfeed_compare]. *)
Definition choose_max_age_diff (leg1 leg2 : option reading) : option timespec :=
  match leg1, leg2 with
  | Some r1, Some r2 =>
      let m :=
        if have_max_age_diff (r_sub r1)
        then Some (max_age_diff (r_sub r1)) else None in
      if have_max_age_diff (r_sub r2) &&
         match m with
         | None => true
         | Some m1 =>
             sfptpd_time_is_greater_or_equal m1 (max_age_diff (r_sub r2))
         end
      then Some (max_age_diff (r_sub r2))
      else m
  | _, _ => None
  end.

(** [p != NULL]. *)
Definition non_null {A} (p : option A) : bool :=
  match p with Some _ => true | None => false end.

(** [sfptpd_clockfeed_compare].  A NULL subscription (the system clock) is
    [None].  [stack_mono1] and [stack_mono2] are the indeterminate
    initial contents of the locals [mono1] and [mono2]. *)
Definition sfptpd_clockfeed_compare
    (leg1 leg2 : option reading) (t1 t2 mono : option timespec)
    (stack_mono1 stack_mono2 : timespec) : compare_result :=
  let mad := choose_max_age_diff leg1 leg2 in
  (* if (!mono && max_age_diff) mono = &mono1; *)
  let mono_p :=
    match mono, mad with
    | None, Some _ => Some stack_mono1
    | _, _ => mono
    end in
  (* if (sub1) rc = clockfeed_compare_to_sys(sub1, diff, t1, sub2 ? NULL : t2, mono); *)
  let '(rc1, diff1, t1a, t2a, mono_a, sub1') :=
    match leg1 with
    | Some r1 =>
        let o := read_leg r1 t1 (if non_null leg2 then None else t2) mono_p in
        (out_rc o, out_diff o, out_t1 o,
         (if non_null leg2 then t2 else out_t2 o), out_mono o,
         Some (out_sub o))
    | None => (0, timespec_zero, t1, t2, mono_p, None)
    end in
  (* if (rc == 0 && sub2) { rc = clockfeed_compare_to_sys(sub2, &diff2, t2,
                                   sub1 ? NULL : t1, mono ? &mono2 : NULL); ... } *)
  let '(rc2, diff, t1b, t2b, mono_b, mono2, sub2') :=
    match leg2 with
    | Some r2 =>
        if rc1 =? 0 then
          let o :=
            read_leg r2 t2a (if non_null leg1 then None else t1a)
              ((fun _ => stack_mono2) <$> mono_a) in
          let mono2 := default stack_mono2 (out_mono o) in
          let t1b := if non_null leg1 then t1a else out_t2 o in
          let t2b := out_t1 o in
          if out_rc o =? 0 then
            let mono_b :=
              match mono_a with
              | Some m =>
                  if (tv_sec mono2 <? tv_sec m) ||
                     ((tv_sec mono2 =? tv_nsec m) &&
                      (tv_nsec mono2 <? tv_nsec m))
                  then Some mono2 else Some m
              | None => None
              end in
            (0, sfptpd_time_subtract diff1 (out_diff o), t1b, t2b, mono_b,
             mono2, Some (out_sub o))
          else
            (out_rc o, diff1, t1b, t2b, mono_a, mono2, Some (out_sub o))
        else (rc1, diff1, t1a, t2a, mono_a, stack_mono2, Some (r_sub r2))
    | None => (rc1, diff1, t1a, t2a, mono_a, stack_mono2, None)
    end in
  (* if (rc == 0 && max_age_diff) { ... return ESTALE; } *)
  let rc :=
    match mad with
    | Some m =>
        if rc2 =? 0 then
          let cur := default stack_mono1 mono_b in
          let age_diff :=
            if sfptpd_time_is_greater_or_equal mono2 cur
            then sfptpd_time_subtract mono2 cur
            else sfptpd_time_subtract cur mono2 in
          if sfptpd_time_is_greater_or_equal age_diff m then ESTALE else rc2
        else rc2
    | None => rc2
    end in
  {| cr_rc := rc; cr_diff := diff; cr_t1 := t1b; cr_t2 := t2b;
     cr_mono := if non_null mono then mono_b else None;
     cr_sub1 := sub1'; cr_sub2 := sub2' |}.

End Compare.

(** [sfptpd_clockfeed_require_fresh], [sfptpd_clockfeed_set_max_age] and
    [sfptpd_clockfeed_set_max_age_diff] on a non-NULL subscription. *)
Definition sfptpd_clockfeed_require_fresh (sub : sfptpd_clockfeed_sub)
  : sfptpd_clockfeed_sub :=
  {| source := source sub; read_counter := read_counter sub;
     min_counter := read_counter sub + 1;
     have_max_age := have_max_age sub;
     have_max_age_diff := have_max_age_diff sub;
     max_age := max_age sub; max_age_diff := max_age_diff sub |}.

Definition sfptpd_clockfeed_set_max_age (sub : sfptpd_clockfeed_sub)
    (age : timespec) : sfptpd_clockfeed_sub :=
  {| source := source sub; read_counter := read_counter sub;
     min_counter := min_counter sub;
     have_max_age := true;
     have_max_age_diff := have_max_age_diff sub;
     max_age := age; max_age_diff := max_age_diff sub |}.

Definition sfptpd_clockfeed_set_max_age_diff (sub : sfptpd_clockfeed_sub)
    (age_diff : timespec) : sfptpd_clockfeed_sub :=
  {| source := source sub; read_counter := read_counter sub;
     min_counter := min_counter sub;
     have_max_age := have_max_age sub;
     have_max_age_diff := true;
     max_age := max_age sub; max_age_diff := age_diff |}.

(** ** The service's state and its message handlers *)

(** [struct sfptpd_clockfeed]: [m_active] and [m_inactive] are the two
    linked lists of sources, [m_event_subscribers] the table of
    [MAX_EVENT_SUBSCRIBERS] thread pointers ([None] for NULL). *)
Record sfptpd_clockfeed := {
  m_poll_period_log2 : Z;
  m_running_phase : bool;
  m_active : list positive;
  m_inactive : list positive;
  m_event_subscribers : list (option thread_t);
}.

(** The module with the heap cells of its sources and subscriptions. *)
Record feed_state := {
  module : sfptpd_clockfeed;
  sources : gmap positive clockfeed_source;
  subs : gmap positive sfptpd_clockfeed_sub;
}.

Definition set_lists (m : sfptpd_clockfeed) (act inact : list positive)
  : sfptpd_clockfeed :=
  {| m_poll_period_log2 := m_poll_period_log2 m;
     m_running_phase := m_running_phase m;
     m_active := act;
     m_inactive := inact;
     m_event_subscribers := m_event_subscribers m |}.

Definition set_event_subscribers (m : sfptpd_clockfeed)
    (tbl : list (option thread_t)) : sfptpd_clockfeed :=
  {| m_poll_period_log2 := m_poll_period_log2 m;
     m_running_phase := m_running_phase m;
     m_active := m_active m;
     m_inactive := m_inactive m;
     m_event_subscribers := tbl |}.

Definition set_subscribers (s : clockfeed_source) (l : list positive)
  : clockfeed_source :=
  {| s_clock := s_clock s; s_poll_period_log2 := s_poll_period_log2 s;
     s_cycles := s_cycles s; s_shm := s_shm s; s_subscribers := l;
     s_inactive := s_inactive s |}.

Definition set_inactive (s : clockfeed_source) (b : bool) : clockfeed_source :=
  {| s_clock := s_clock s; s_poll_period_log2 := s_poll_period_log2 s;
     s_cycles := s_cycles s; s_shm := s_shm s;
     s_subscribers := s_subscribers s; s_inactive := b |}.

(** The walk [for (nextp = &head; ...; nextp = &cell->next)], [cell] being
    the cell [nextp] points to, over a linked list: [stop q] says whether the walk stops at cell [q]
    ([None]: deciding it, or stepping past [q], dereferences an invalid
    pointer).  The result is the cells passed and the rest of the list,
    which is empty when the walk reached the terminating NULL. *)
Fixpoint walk (stop : positive -> option bool) (l : list positive)
  : option (list positive * list positive) :=
  match l with
  | [] => Some ([], [])
  | q :: l' =>
      b ← stop q;
      if b : bool then Some ([], q :: l')
      else '(pre, post) ← walk stop l'; Some (q :: pre, post)
  end.

(** Stop at the cell [p]; stepping past another cell reads its [next]. *)
Definition stop_at {A} (heap : gmap positive A) (p : positive) (q : positive)
  : option bool :=
  if decide (q = p) then Some true else _ ← heap !! q; Some false.

(** Stop at the first cell whose [clock] is [c]; deciding reads the cell. *)
Definition stop_at_clock (heap : gmap positive clockfeed_source)
    (c : clock_t) (q : positive) : option bool :=
  s ← heap !! q; Some (bool_decide (s_clock s = c)).

(** [clockfeed_reap_zombies]: the only place a source is freed. *)
Definition clockfeed_reap_zombies (st : feed_state) (p : positive)
  : option feed_state :=
  s ← sources st !! p;
  if s_inactive s && bool_decide (s_subscribers s = []) then
    '(pre, post) ← walk (stop_at (sources st) p) (m_inactive (module st));
    match post with
    | _ :: post' =>
        (* unlink the cell; free(source); *)
        Some {| module := set_lists (module st) (m_active (module st))
                            (pre ++ post');
                sources := delete p (sources st);
                subs := subs st |}
    | [] => None (* the assert that the cell was found fails *)
    end
  else Some st.

(** [clockfeed_on_add_clock]; [p] is the cell [calloc] returns. *)
Definition clockfeed_on_add_clock (st : feed_state) (clock : clock_t)
    (poll_period_log2 : Z) (p : positive) : feed_state :=
  let m := module st in
  let src :=
    {| s_clock := clock;
       s_poll_period_log2 :=
         if poll_period_log2 <? m_poll_period_log2 m
         then m_poll_period_log2 m else poll_period_log2;
       s_cycles := 0;
       s_shm := shm_zero;
       s_subscribers := [];
       s_inactive := false |} in
  {| module := set_lists m (p :: m_active m) (m_inactive m);
     sources := <[p := src]> (sources st);
     subs := subs st |}.

(** [clockfeed_on_remove_clock]. *)
Definition clockfeed_on_remove_clock (st : feed_state) (clock : clock_t)
  : option feed_state :=
  let m := module st in
  '(pre, post) ← walk (stop_at_clock (sources st) clock) (m_active m);
  match post with
  | [] => Some st (* "cannot remove inactive clock" *)
  | p :: post' =>
      s ← sources st !! p;
      clockfeed_reap_zombies
        {| module := set_lists m (pre ++ post') (p :: m_inactive m);
           sources := <[p := set_inactive s true]> (sources st);
           subs := subs st |}
        p
  end.

(** The subscription cell [clockfeed_on_subscribe] fills in. *)
Definition new_sub (p : positive) : sfptpd_clockfeed_sub :=
  {| source := p; read_counter := -1; min_counter := -1;
     have_max_age := false; have_max_age_diff := false;
     max_age := timespec_zero; max_age_diff := timespec_zero |}.

(** [clockfeed_on_subscribe]; [q] is the cell [calloc] returns when a
    subscription is created.  The second component is
    [msg->u.subscribe_resp.sub]. *)
Definition clockfeed_on_subscribe (st : feed_state) (clock : clock_t)
    (q : positive) : option (feed_state * option positive) :=
  let m := module st in
  '(_, post) ← walk (stop_at_clock (sources st) clock) (m_active m);
  found ←
    match post with
    | p :: _ => Some (Some p)
    | [] =>
        '(_, post') ← walk (stop_at_clock (sources st) clock) (m_inactive m);
        Some (head post')
    end;
  match found with
  | None => Some (st, None)
  | Some p =>
      s ← sources st !! p;
      Some ({| module := m;
               sources :=
                 <[p := set_subscribers s (q :: s_subscribers s)]> (sources st);
               subs := <[q := new_sub p]> (subs st) |},
            Some q)
  end.

(** [clockfeed_on_unsubscribe].  The walk over the subscriber list has no
    NULL test: running off its end dereferences NULL. *)
Definition clockfeed_on_unsubscribe (st : feed_state) (q : positive)
  : option feed_state :=
  sub ← subs st !! q;
  s ← sources st !! source sub;
  '(pre, post) ← walk (stop_at (subs st) q) (s_subscribers s);
  match post with
  | [] => None
  | _ :: post' =>
      st' ← clockfeed_reap_zombies
              {| module := module st;
                 sources :=
                   <[source sub := set_subscribers s (pre ++ post')]>
                     (sources st);
                 subs := subs st |}
              (source sub);
      (* free(sub) *)
      Some {| module := module st'; sources := sources st';
              subs := delete q (subs st') |}
  end.

(** What the feed reads when it samples a clock: the result of
    [sfptpd_clock_compare] against the system clock and the two
    [clock_gettime] readings. *)
Record clock_reading := {
  cmp_rc : Z;
  cmp_diff : timespec;
  now_monotonic : timespec;
  now_realtime : timespec;
}.

Section Timer.

Context {time_ops : TimeOps}.

(** The body of the loop of [clockfeed_on_timer] for one source. *)
Definition poll_source (m : sfptpd_clockfeed) (s : clockfeed_source)
    (rd : clock_reading) : clockfeed_source :=
  let cadence := to_int (s_poll_period_log2 s - m_poll_period_log2 m) in
  let cadence_mask := to_uint64 (to_int (to_int (Z.shiftl 1 cadence) - 1)) in
  let shm := s_shm s in
  let shm' :=
    if Z.land (s_cycles s) cadence_mask =? 0 then
      let index := to_uint32 (Z.land (write_counter shm) index_mask) in
      let record :=
        {| seq := write_counter shm;
           mono := now_monotonic rd;
           system := now_realtime rd;
           snapshot :=
             if cmp_rc rd =? 0
             then sfptpd_time_add (now_realtime rd) (cmp_diff rd)
             else timespec_zero;
           rc := cmp_rc rd |} in
      {| samples := <[Z.to_nat index := record]> (samples shm);
         write_counter := to_uint64 (write_counter shm + 1) |}
    else shm in
  {| s_clock := s_clock s; s_poll_period_log2 := s_poll_period_log2 s;
     s_cycles := to_uint64 (s_cycles s + 1); s_shm := shm';
     s_subscribers := s_subscribers s; s_inactive := s_inactive s |}.

(** The record a poll of [s] stores: the body of the [record] written by
    [poll_source], named for the statements about it. *)
Definition polled_sample (s : clockfeed_source) (rd : clock_reading)
  : sfptpd_clockfeed_sample :=
  {| seq := write_counter (s_shm s);
     mono := now_monotonic rd;
     system := now_realtime rd;
     snapshot :=
       if cmp_rc rd =? 0
       then sfptpd_time_add (now_realtime rd) (cmp_diff rd)
       else timespec_zero;
     rc := cmp_rc rd |}.

(** The loop over the active list; [env] gives each clock's reading. *)
Fixpoint poll_sources (m : sfptpd_clockfeed) (env : clock_t -> clock_reading)
    (l : list positive) (heap : gmap positive clockfeed_source)
  : option (gmap positive clockfeed_source) :=
  match l with
  | [] => Some heap
  | p :: l' =>
      s ← heap !! p;
      poll_sources m env l' (<[p := poll_source m s (env (s_clock s))]> heap)
  end.

(** [clockfeed_on_timer] with [clockfeed_send_sync_event]: the second
    component lists the threads sent [SYNC_EVENT]; [alloc_ok i] says
    whether the message for slot [i] could be allocated. *)
Definition clockfeed_on_timer (st : feed_state)
    (env : clock_t -> clock_reading) (alloc_ok : nat -> bool)
  : option (feed_state * list thread_t) :=
  heap ← poll_sources (module st) env (m_active (module st)) (sources st);
  Some ({| module := module st; sources := heap; subs := subs st |},
        omap (fun '(i, slot) => if alloc_ok i : bool then slot else None)
          (imap (fun i slot => (i, slot))
             (take MAX_EVENT_SUBSCRIBERS
                (m_event_subscribers (module st))))).

End Timer.

(** How a handler ends: it replies to the request, or it calls
    [sfptpd_thread_exit] on the thread it runs on, which is the clock
    feed's, and sends no reply. *)
Inductive handler_end :=
  | MSG_REPLY
  | THREAD_EXIT (code : Z).

(** [clockfeed_on_subscribe_events]. *)
Definition clockfeed_on_subscribe_events (st : feed_state) (thread : thread_t)
  : feed_state * handler_end :=
  let tbl := take MAX_EVENT_SUBSCRIBERS (m_event_subscribers (module st)) in
  match list_find (fun slot => slot = None) tbl with
  | Some (i, _) =>
      ({| module :=
            set_event_subscribers (module st)
              (<[i := Some thread]> (m_event_subscribers (module st)));
          sources := sources st; subs := subs st |},
       MSG_REPLY)
  | None => (st, THREAD_EXIT ENOSPC)
  end.

(** [clockfeed_on_unsubscribe_events]. *)
Definition clockfeed_on_unsubscribe_events (st : feed_state)
    (thread : thread_t) : feed_state * handler_end :=
  let tbl := m_event_subscribers (module st) in
  ({| module :=
        set_event_subscribers (module st)
          (((fun slot => if decide (slot = Some thread) then None else slot)
              <$> take MAX_EVENT_SUBSCRIBERS tbl)
           ++ drop MAX_EVENT_SUBSCRIBERS tbl);
      sources := sources st; subs := subs st |},
   MSG_REPLY).

(** The requests that create and destroy sources and subscriptions, as
    [clockfeed_on_message] dispatches them. *)
Inductive request :=
  | ADD_CLOCK (clock : clock_t) (poll_period_log2 : Z) (cell : positive)
  | REMOVE_CLOCK (clock : clock_t)
  | SUBSCRIBE (clock : clock_t) (cell : positive)
  | UNSUBSCRIBE (sub : positive).

Definition clockfeed_on_message (st : feed_state) (r : request)
  : option feed_state :=
  match r with
  | ADD_CLOCK c l p => Some (clockfeed_on_add_clock st c l p)
  | REMOVE_CLOCK c => clockfeed_on_remove_clock st c
  | SUBSCRIBE c q => fst <$> clockfeed_on_subscribe st c q
  | UNSUBSCRIBE q => clockfeed_on_unsubscribe st q
  end.

(** What a reader leaves in a subscription's cell: [compare] and
    [require_fresh] change its counters, the [set_max_age] calls its
    constraints; none changes the source it points to. *)
Definition touch_sub (st : feed_state) (q : positive)
    (sub' : sfptpd_clockfeed_sub) : option feed_state :=
  sub ← subs st !! q;
  if decide (source sub' = source sub)
  then Some {| module := module st; sources := sources st;
               subs := <[q := sub']> (subs st) |}
  else None.

(** ** Well-formed states

    What the handlers keep true of the lists and the heap: the two source
    lists share no cell and hold exactly the allocated sources; a source is
    flagged inactive exactly when it is on the inactive list; a
    subscription is allocated exactly when it is on the subscriber list of
    the source it points to. *)
Record well_formed (st : feed_state) : Prop := {
  wf_nodup : NoDup (m_active (module st) ++ m_inactive (module st));
  wf_listed : forall p,
    is_Some (sources st !! p) <->
    p ∈ m_active (module st) ++ m_inactive (module st);
  wf_flag : forall p s,
    sources st !! p = Some s ->
    (s_inactive s = true <-> p ∈ m_inactive (module st));
  wf_subs_nodup : forall p s,
    sources st !! p = Some s -> NoDup (s_subscribers s);
  wf_sub_source : forall q sub,
    subs st !! q = Some sub ->
    exists s, sources st !! source sub = Some s /\ q ∈ s_subscribers s;
  wf_subscriber : forall p s q,
    sources st !! p = Some s -> q ∈ s_subscribers s ->
    exists sub, subs st !! q = Some sub /\ source sub = p;
}.

(** The service as [sfptpd_clockfeed_create] leaves it: no source, no
    subscription, an empty event table. *)
Definition initial_state (min_poll_period_log2 : Z) : feed_state :=
  {| module :=
       {| m_poll_period_log2 := min_poll_period_log2;
          m_running_phase := false;
          m_active := [];
          m_inactive := [];
          m_event_subscribers := replicate MAX_EVENT_SUBSCRIBERS None |};
     sources := ∅;
     subs := ∅ |}.

(** A request the service can be sent: the cell of a creation is fresh,
    and an unsubscribe names a live subscription. *)
Definition valid_request (st : feed_state) (r : request) : Prop :=
  match r with
  | ADD_CLOCK _ _ p => sources st !! p = None
  | SUBSCRIBE _ q => subs st !! q = None
  | UNSUBSCRIBE q => is_Some (subs st !! q)
  | REMOVE_CLOCK _ => True
  end.

(** The states the service reaches from its creation. *)
Inductive reachable {time_ops : TimeOps} : feed_state -> Prop :=
  | reachable_initial l : reachable (initial_state l)
  | reachable_step st r st' :
      reachable st -> valid_request st r ->
      clockfeed_on_message st r = Some st' -> reachable st'
  | reachable_tick st env alloc_ok st' sent :
      reachable st ->
      clockfeed_on_timer st env alloc_ok = Some (st', sent) -> reachable st'
  | reachable_read st q sub' st' :
      reachable st -> touch_sub st q sub' = Some st' -> reachable st'.

(** ** Start-up and shut-down *)

(** [clockfeed_on_startup]: the interval it gives the poll timer, from the
    32.32 fixed-point number of seconds [2^63 >> (31 - poll_period_log2)]. *)
Definition poll_interval (poll_period_log2 : Z) : timespec :=
  let secs_fp32 := Z.shiftr (2 ^ 63) (to_int (31 - poll_period_log2)) in
  {| tv_sec := Z.shiftr secs_fp32 32;
     tv_nsec :=
       Z.shiftr (to_uint64 (Z.land secs_fp32 (2 ^ 32 - 1) * 1000000000)) 32 |}.

(** The first loop of [clockfeed_on_shutdown]: every active source is
    asserted not to be inactive, and marked inactive. *)
Fixpoint mark_all_inactive (l : list positive)
    (heap : gmap positive clockfeed_source)
  : option (gmap positive clockfeed_source) :=
  match l with
  | [] => Some heap
  | p :: l' =>
      s ← heap !! p;
      if s_inactive s then None
      else mark_all_inactive l' (<[p := set_inactive s true]> heap)
  end.

(** Its last loop, [for (s = module->inactive; s; s = s->next)
    clockfeed_reap_zombies(module, s)]: after the call the loop reads
    [s->next] in the cell of [s], which the call may have freed. *)
Fixpoint reap_walk (st : feed_state) (l : list positive) : option feed_state :=
  match l with
  | [] => Some st
  | p :: l' =>
      st' ← clockfeed_reap_zombies st p;
      _ ← sources st' !! p;
      reap_walk st' l'
  end.

(** [clockfeed_on_shutdown], up to the point where it frees the module:
    the active list is spliced in front of the inactive one. *)
Definition clockfeed_on_shutdown (st : feed_state) : option feed_state :=
  let m := module st in
  heap ← mark_all_inactive (m_active m) (sources st);
  let l := m_active m ++ m_inactive m in
  reap_walk {| module := set_lists m [] l; sources := heap; subs := subs st |}
    l.

(** ** Two more facts the handlers keep true *)

(** No source is polled faster than the service polls. *)
Definition cadence_ok (st : feed_state) : Prop :=
  forall p s,
    sources st !! p = Some s ->
    m_poll_period_log2 (module st) <= s_poll_period_log2 s.

(** A removed source is kept only while it has a subscriber. *)
Definition no_zombies (st : feed_state) : Prop :=
  forall p s,
    sources st !! p = Some s -> s_inactive s = true -> s_subscribers s <> [].

(** ** The caller's side of a subscription *)

(** [sfptpd_clockfeed_subscribe].  [is_system] is
    [sfptpd_clock_is_system(clock)], [msg_ok] says whether the message
    could be allocated, and [send_rc] is what [SFPTPD_MSG_SEND_WAIT]
    returns: 0 when the feed thread has handled the request and replied
    (a send that fails is taken to leave the feed as it is).  [q] is the
    cell the handler would allocate and [sub_before] the value the
    caller's variable holds.  The result is the state, the return code
    and the caller's variable. *)
Definition sfptpd_clockfeed_subscribe (is_system msg_ok : bool) (send_rc : Z)
    (st : feed_state) (clock : clock_t) (q : positive)
    (sub_before : option positive)
  : option (feed_state * Z * option positive) :=
  (* The calling code has an easier life if it can treat a system clock,
     i.e. NULL feed, the same as a real one. *)
  if is_system then Some (st, 0, None)
  else if negb msg_ok then Some (st, ENOMEM, sub_before)
  else if send_rc =? 0 then
    '(st', reply) ← clockfeed_on_subscribe st clock q;
    match reply with
    | Some sub => Some (st', 0, Some sub)
    | None => None (* assert(msg->u.subscribe_resp.sub) *)
    end
  else Some (st, send_rc, sub_before).

(** ** Values to run the model on *)

(** A plain implementation of the time helpers: normalised arithmetic on
    (seconds, nanoseconds). *)
Definition timespec_normalise (s ns : Z) : timespec :=
  {| tv_sec := s + ns / 1000000000; tv_nsec := ns mod 1000000000 |}.

Definition timespec_ns (a : timespec) : Z := tv_sec a * 1000000000 + tv_nsec a.

Definition plain_time_ops : TimeOps :=
  {| sfptpd_time_add a b :=
       timespec_normalise (tv_sec a + tv_sec b) (tv_nsec a + tv_nsec b);
     sfptpd_time_subtract a b :=
       timespec_normalise (tv_sec a - tv_sec b) (tv_nsec a - tv_nsec b);
     sfptpd_time_cmp a b :=
       match timespec_ns a ?= timespec_ns b with
       | Lt => -1 | Eq => 0 | Gt => 1
       end;
     sfptpd_time_is_greater_or_equal a b := timespec_ns b <=? timespec_ns a |}.

(** A sample taken at system time 100 s whose clock is 250 ns ahead. *)
Definition good_sample (n : Z) : sfptpd_clockfeed_sample :=
  {| seq := n;
     mono := {| tv_sec := 50; tv_nsec := 0 |};
     system := {| tv_sec := 100; tv_nsec := 0 |};
     snapshot := {| tv_sec := 100; tv_nsec := 250 |};
     rc := 0 |}.

(** A sample whose clock comparison failed with [EIO]. *)
Definition failed_sample (n : Z) : sfptpd_clockfeed_sample :=
  {| seq := n;
     mono := {| tv_sec := 50; tv_nsec := 0 |};
     system := {| tv_sec := 100; tv_nsec := 0 |};
     snapshot := timespec_zero;
     rc := 5 |}.

(** A source after [n] writes whose newest sample is [newest]. *)
Definition source_with (newest : sfptpd_clockfeed_sample) (n : Z)
    (inactive : bool) : clockfeed_source :=
  {| s_clock := 7%positive;
     s_poll_period_log2 := 0;
     s_cycles := n;
     s_shm :=
       {| samples :=
            <[Z.to_nat ((n - 1) mod MAX_CLOCK_SAMPLES) := newest]>
              (samples shm_zero);
          write_counter := n |};
     s_subscribers := [20%positive];
     s_inactive := inactive |}.

Definition module_with (act inact : list positive)
    (tbl : list (option thread_t)) : sfptpd_clockfeed :=
  {| m_poll_period_log2 := 0; m_running_phase := true;
     m_active := act; m_inactive := inact; m_event_subscribers := tbl |}.

(** A service with one active source (cell 10, clock 7, subscription 20)
    and one removed source that still has a subscriber (cell 11, clock 8,
    subscription 21); every event slot is taken. *)
Definition busy_state : feed_state :=
  {| module := module_with [10%positive] [11%positive]
                 [Some 1%positive; Some 2%positive; Some 3%positive;
                  Some 4%positive];
     sources :=
       <[10%positive := source_with (good_sample 2) 3 false]>
         (<[11%positive :=
              {| s_clock := 8%positive; s_poll_period_log2 := 0;
                 s_cycles := 0; s_shm := shm_zero;
                 s_subscribers := [21%positive]; s_inactive := true |}]> ∅);
     subs :=
       <[20%positive := new_sub 10%positive]>
         (<[21%positive := new_sub 11%positive]> ∅) |}.

End Clockfeed.

(** * The SHM servo instance *)

Module Shm.

Definition SHM_REQUIRED_GOOD_PERIODS : Z := 3.
Definition SHM_CLOCK_STEP_THRESHOLD : Q := inject_Z 500000000.
Definition UINT32_MAX : Z := 2 ^ 32 - 1.

(** [struct sfptpd_timespec]. *)
Record sfptpd_timespec := { sec : Z; nsec : Z; nsec_frac : Z }.

(** [sfptpd_time_null()], the value [sfptpd_time_zero] stores. *)
Definition sfptpd_time_null : sfptpd_timespec :=
  {| sec := 0; nsec := 0; nsec_frac := 0 |}.

Definition shm_timeout_interval : sfptpd_timespec :=
  {| sec := 60; nsec := 0; nsec_frac := 0 |}.
Definition shm_alarm_interval : sfptpd_timespec :=
  {| sec := 1; nsec := 100000000; nsec_frac := 0 |}.

(** [sfptpd_sync_module_state_t], in the order [shm_state_text] lists its
    members. *)
Inductive sfptpd_sync_module_state_t :=
  | SYNC_MODULE_STATE_LISTENING
  | SYNC_MODULE_STATE_SLAVE
  | SYNC_MODULE_STATE_MASTER
  | SYNC_MODULE_STATE_PASSIVE
  | SYNC_MODULE_STATE_DISABLED
  | SYNC_MODULE_STATE_FAULTY
  | SYNC_MODULE_STATE_SELECTION.

#[export] Instance sfptpd_sync_module_state_eq_dec :
  EqDecision sfptpd_sync_module_state_t.
Proof. solve_decision. Defined.

(** [enum sfptpd_clock_ctrl]: the servo tests three of its members. *)
Inductive sfptpd_clock_ctrl :=
  | SFPTPD_CLOCK_CTRL_SLEW_AND_STEP
  | SFPTPD_CLOCK_CTRL_STEP_AT_STARTUP
  | SFPTPD_CLOCK_CTRL_NO_STEP
  | SFPTPD_CLOCK_CTRL_NO_ADJUST
  | SFPTPD_CLOCK_CTRL_STEP_FORWARD
  | SFPTPD_CLOCK_CTRL_STEP_ON_FIRST_LOCK.

#[export] Instance sfptpd_clock_ctrl_eq_dec : EqDecision sfptpd_clock_ctrl.
Proof. solve_decision. Defined.

(** The bits of [sfptpd_sync_module_ctrl_flags_t] and of
    [sfptpd_sync_module_alarms_t].  [sfptpd_sync_module.h] is not among the
    sources: the model is parametric in the values. *)
Class SyncModuleBits := {
  SYNC_MODULE_SELECTED : Z;
  SYNC_MODULE_TIMESTAMP_PROCESSING : Z;
  SYNC_MODULE_CLOCK_CTRL : Z;
  SYNC_MODULE_CLUSTERING_DETERMINANT : Z;
  SYNC_MODULE_ALARM_SHM_NO_SIGNAL : Z;
  SYNC_MODULE_ALARM_SHM_SEQ_NUM_ERROR : Z;
  SYNC_MODULE_ALARM_SHM_BAD_SIGNAL : Z;
  SYNC_MODULE_ALARM_NO_TIME_OF_DAY : Z;
}.

(** [SYNC_MODULE_ALARM_SET], [_CLEAR] and [_TEST]. *)
Definition SYNC_MODULE_ALARM_SET (alarms bit : Z) : Z := Z.lor alarms bit.
Definition SYNC_MODULE_ALARM_CLEAR (alarms bit : Z) : Z := Z.ldiff alarms bit.
Definition SYNC_MODULE_ALARM_TEST (alarms bit : Z) : bool :=
  negb (Z.land alarms bit =? 0).

(** [(flags & bit) != 0]. *)
Definition flag_set (flags bit : Z) : bool := negb (Z.land flags bit =? 0).

(** The filters, the convergence measure and the time helpers the servo
    calls ([sfptpd_filter.h], [sfptpd_statistics.h], [sfptpd_time.h], the
    engine's clustering evaluator): none is among the sources.  A filter
    is a state and its operations; an update returns the new state with
    its result. *)
Class Collaborators := {
  sfptpd_notch_filter_t : Type;
  sfptpd_peirce_filter : Type;
  sfptpd_fir_filter_t : Type;
  sfptpd_pid_filter_t : Type;
  sfptpd_stats_convergence : Type;
  sfptpd_notch_filter_update : sfptpd_notch_filter_t -> Q -> Z;
  sfptpd_peirce_filter_reset : sfptpd_peirce_filter -> sfptpd_peirce_filter;
  sfptpd_peirce_filter_update :
    sfptpd_peirce_filter -> Q -> sfptpd_peirce_filter * Z;
  sfptpd_fir_filter_reset : sfptpd_fir_filter_t -> sfptpd_fir_filter_t;
  sfptpd_fir_filter_update :
    sfptpd_fir_filter_t -> Q -> sfptpd_fir_filter_t * Q;
  sfptpd_pid_filter_reset : sfptpd_pid_filter_t -> sfptpd_pid_filter_t;
  sfptpd_pid_filter_update :
    sfptpd_pid_filter_t -> Q -> sfptpd_pid_filter_t * Q;
  sfptpd_stats_convergence_reset :
    sfptpd_stats_convergence -> sfptpd_stats_convergence;
  sfptpd_stats_convergence_update :
    sfptpd_stats_convergence -> Z -> Q -> sfptpd_stats_convergence * bool;
  sfptpd_time_subtract : sfptpd_timespec -> sfptpd_timespec -> sfptpd_timespec;
  sfptpd_time_is_greater_or_equal : sfptpd_timespec -> sfptpd_timespec -> bool;
  sfptpd_time_timespec_to_float_ns : sfptpd_timespec -> Q;
  calc_fn : Q -> positive -> Z;
}.

(** What the servo asks of the clock driver, the time-of-day module and
    the engine, in the order of the calls. *)
Inductive event :=
  | CLOCK_ADJUST_TIME (clock : positive) (offset : sfptpd_timespec)
  | CLOCK_ADJUST_FREQUENCY (clock : positive) (freq_adjust_ppb : Q)
  | SYNC_MODULE_STEP_CLOCK (offset : sfptpd_timespec)
  | ENGINE_CLUSTERING_INPUT (clock : positive) (offset : Q) (qualified : bool)
  | SEND_RT_STATS_UPDATE.

(** [instance->counters]: four [unsigned int]s. *)
Record shm_counters := {
  clock_steps : Z;
  seq_num_errors : Z;
  bad_signal_errors : Z;
  outliers : Z;
}.

(** The part of [shm_module_t] the servo touches: [time_of_day.status]. *)
Record shm_module_t := {
  tod_state : sfptpd_sync_module_state_t;
  tod_offset_from_master : sfptpd_timespec;
}.

Section Instance.

Context {bits : SyncModuleBits} {ext : Collaborators}.

(** [struct sfptpd_shm_instance], without the handles and buffers that play
    no part in the servo (statistics collection, poll descriptor, test
    mode, pulse-check timer). *)
Record sfptpd_shm_instance := {
  propagation_delay : Q; (* config->propagation_delay *)
  clock : positive;
  ctrl_flags : Z;
  freq_adjust_max : Q;
  state : sfptpd_sync_module_state_t;
  alarms : Z;
  last_shm_time : sfptpd_timespec;
  shm_timestamp : sfptpd_timespec;
  shm_seq_num : Z;
  notch_filter : sfptpd_notch_filter_t;
  outlier_filter : option sfptpd_peirce_filter;
  fir_filter : sfptpd_fir_filter_t;
  pid_filter : sfptpd_pid_filter_t;
  convergence : sfptpd_stats_convergence;
  offset_from_master_ns : Q;
  freq_adjust_base : Q;
  freq_adjust_ppb : Q;
  servo_active : bool;
  shm_period_ns : Q;
  synchronized : bool;
  prev_state : sfptpd_sync_module_state_t;
  prev_alarms : Z;
  consecutive_good_periods : Z;
  clustering_score : Z;
  step_occurred : bool;
  counters : shm_counters;
}.

(** Assignment to one field of the instance. *)
Definition set_ctrl_flags (v : Z) (i : sfptpd_shm_instance)
  : sfptpd_shm_instance :=
  {| propagation_delay := propagation_delay i; clock := clock i;
     ctrl_flags := v; freq_adjust_max := freq_adjust_max i; state := state i;
     alarms := alarms i; last_shm_time := last_shm_time i;
     shm_timestamp := shm_timestamp i; shm_seq_num := shm_seq_num i;
     notch_filter := notch_filter i; outlier_filter := outlier_filter i;
     fir_filter := fir_filter i; pid_filter := pid_filter i;
     convergence := convergence i;
     offset_from_master_ns := offset_from_master_ns i;
     freq_adjust_base := freq_adjust_base i;
     freq_adjust_ppb := freq_adjust_ppb i; servo_active := servo_active i;
     shm_period_ns := shm_period_ns i; synchronized := synchronized i;
     prev_state := prev_state i; prev_alarms := prev_alarms i;
     consecutive_good_periods := consecutive_good_periods i;
     clustering_score := clustering_score i;
     step_occurred := step_occurred i; counters := counters i |}.

Definition set_state (v : sfptpd_sync_module_state_t) (i : sfptpd_shm_instance)
  : sfptpd_shm_instance :=
  {| propagation_delay := propagation_delay i; clock := clock i;
     ctrl_flags := ctrl_flags i; freq_adjust_max := freq_adjust_max i;
     state := v; alarms := alarms i; last_shm_time := last_shm_time i;
     shm_timestamp := shm_timestamp i; shm_seq_num := shm_seq_num i;
     notch_filter := notch_filter i; outlier_filter := outlier_filter i;
     fir_filter := fir_filter i; pid_filter := pid_filter i;
     convergence := convergence i;
     offset_from_master_ns := offset_from_master_ns i;
     freq_adjust_base := freq_adjust_base i;
     freq_adjust_ppb := freq_adjust_ppb i; servo_active := servo_active i;
     shm_period_ns := shm_period_ns i; synchronized := synchronized i;
     prev_state := prev_state i; prev_alarms := prev_alarms i;
     consecutive_good_periods := consecutive_good_periods i;
     clustering_score := clustering_score i;
     step_occurred := step_occurred i; counters := counters i |}.

Definition set_alarms (v : Z) (i : sfptpd_shm_instance)
  : sfptpd_shm_instance :=
  {| propagation_delay := propagation_delay i; clock := clock i;
     ctrl_flags := ctrl_flags i; freq_adjust_max := freq_adjust_max i;
     state := state i; alarms := v; last_shm_time := last_shm_time i;
     shm_timestamp := shm_timestamp i; shm_seq_num := shm_seq_num i;
     notch_filter := notch_filter i; outlier_filter := outlier_filter i;
     fir_filter := fir_filter i; pid_filter := pid_filter i;
     convergence := convergence i;
     offset_from_master_ns := offset_from_master_ns i;
     freq_adjust_base := freq_adjust_base i;
     freq_adjust_ppb := freq_adjust_ppb i; servo_active := servo_active i;
     shm_period_ns := shm_period_ns i; synchronized := synchronized i;
     prev_state := prev_state i; prev_alarms := prev_alarms i;
     consecutive_good_periods := consecutive_good_periods i;
     clustering_score := clustering_score i;
     step_occurred := step_occurred i; counters := counters i |}.

Definition set_last_shm_time (v : sfptpd_timespec) (i : sfptpd_shm_instance)
  : sfptpd_shm_instance :=
  {| propagation_delay := propagation_delay i; clock := clock i;
     ctrl_flags := ctrl_flags i; freq_adjust_max := freq_adjust_max i;
     state := state i; alarms := alarms i; last_shm_time := v;
     shm_timestamp := shm_timestamp i; shm_seq_num := shm_seq_num i;
     notch_filter := notch_filter i; outlier_filter := outlier_filter i;
     fir_filter := fir_filter i; pid_filter := pid_filter i;
     convergence := convergence i;
     offset_from_master_ns := offset_from_master_ns i;
     freq_adjust_base := freq_adjust_base i;
     freq_adjust_ppb := freq_adjust_ppb i; servo_active := servo_active i;
     shm_period_ns := shm_period_ns i; synchronized := synchronized i;
     prev_state := prev_state i; prev_alarms := prev_alarms i;
     consecutive_good_periods := consecutive_good_periods i;
     clustering_score := clustering_score i;
     step_occurred := step_occurred i; counters := counters i |}.

Definition set_shm_timestamp (v : sfptpd_timespec) (i : sfptpd_shm_instance)
  : sfptpd_shm_instance :=
  {| propagation_delay := propagation_delay i; clock := clock i;
     ctrl_flags := ctrl_flags i; freq_adjust_max := freq_adjust_max i;
     state := state i; alarms := alarms i; last_shm_time := last_shm_time i;
     shm_timestamp := v; shm_seq_num := shm_seq_num i;
     notch_filter := notch_filter i; outlier_filter := outlier_filter i;
     fir_filter := fir_filter i; pid_filter := pid_filter i;
     convergence := convergence i;
     offset_from_master_ns := offset_from_master_ns i;
     freq_adjust_base := freq_adjust_base i;
     freq_adjust_ppb := freq_adjust_ppb i; servo_active := servo_active i;
     shm_period_ns := shm_period_ns i; synchronized := synchronized i;
     prev_state := prev_state i; prev_alarms := prev_alarms i;
     consecutive_good_periods := consecutive_good_periods i;
     clustering_score := clustering_score i;
     step_occurred := step_occurred i; counters := counters i |}.

Definition set_shm_seq_num (v : Z) (i : sfptpd_shm_instance)
  : sfptpd_shm_instance :=
  {| propagation_delay := propagation_delay i; clock := clock i;
     ctrl_flags := ctrl_flags i; freq_adjust_max := freq_adjust_max i;
     state := state i; alarms := alarms i; last_shm_time := last_shm_time i;
     shm_timestamp := shm_timestamp i; shm_seq_num := v;
     notch_filter := notch_filter i; outlier_filter := outlier_filter i;
     fir_filter := fir_filter i; pid_filter := pid_filter i;
     convergence := convergence i;
     offset_from_master_ns := offset_from_master_ns i;
     freq_adjust_base := freq_adjust_base i;
     freq_adjust_ppb := freq_adjust_ppb i; servo_active := servo_active i;
     shm_period_ns := shm_period_ns i; synchronized := synchronized i;
     prev_state := prev_state i; prev_alarms := prev_alarms i;
     consecutive_good_periods := consecutive_good_periods i;
     clustering_score := clustering_score i;
     step_occurred := step_occurred i; counters := counters i |}.

Definition set_outlier_filter (v : option sfptpd_peirce_filter) (i : sfptpd_shm_instance)
  : sfptpd_shm_instance :=
  {| propagation_delay := propagation_delay i; clock := clock i;
     ctrl_flags := ctrl_flags i; freq_adjust_max := freq_adjust_max i;
     state := state i; alarms := alarms i; last_shm_time := last_shm_time i;
     shm_timestamp := shm_timestamp i; shm_seq_num := shm_seq_num i;
     notch_filter := notch_filter i; outlier_filter := v;
     fir_filter := fir_filter i; pid_filter := pid_filter i;
     convergence := convergence i;
     offset_from_master_ns := offset_from_master_ns i;
     freq_adjust_base := freq_adjust_base i;
     freq_adjust_ppb := freq_adjust_ppb i; servo_active := servo_active i;
     shm_period_ns := shm_period_ns i; synchronized := synchronized i;
     prev_state := prev_state i; prev_alarms := prev_alarms i;
     consecutive_good_periods := consecutive_good_periods i;
     clustering_score := clustering_score i;
     step_occurred := step_occurred i; counters := counters i |}.

Definition set_fir_filter (v : sfptpd_fir_filter_t) (i : sfptpd_shm_instance)
  : sfptpd_shm_instance :=
  {| propagation_delay := propagation_delay i; clock := clock i;
     ctrl_flags := ctrl_flags i; freq_adjust_max := freq_adjust_max i;
     state := state i; alarms := alarms i; last_shm_time := last_shm_time i;
     shm_timestamp := shm_timestamp i; shm_seq_num := shm_seq_num i;
     notch_filter := notch_filter i; outlier_filter := outlier_filter i;
     fir_filter := v; pid_filter := pid_filter i;
     convergence := convergence i;
     offset_from_master_ns := offset_from_master_ns i;
     freq_adjust_base := freq_adjust_base i;
     freq_adjust_ppb := freq_adjust_ppb i; servo_active := servo_active i;
     shm_period_ns := shm_period_ns i; synchronized := synchronized i;
     prev_state := prev_state i; prev_alarms := prev_alarms i;
     consecutive_good_periods := consecutive_good_periods i;
     clustering_score := clustering_score i;
     step_occurred := step_occurred i; counters := counters i |}.

Definition set_pid_filter (v : sfptpd_pid_filter_t) (i : sfptpd_shm_instance)
  : sfptpd_shm_instance :=
  {| propagation_delay := propagation_delay i; clock := clock i;
     ctrl_flags := ctrl_flags i; freq_adjust_max := freq_adjust_max i;
     state := state i; alarms := alarms i; last_shm_time := last_shm_time i;
     shm_timestamp := shm_timestamp i; shm_seq_num := shm_seq_num i;
     notch_filter := notch_filter i; outlier_filter := outlier_filter i;
     fir_filter := fir_filter i; pid_filter := v;
     convergence := convergence i;
     offset_from_master_ns := offset_from_master_ns i;
     freq_adjust_base := freq_adjust_base i;
     freq_adjust_ppb := freq_adjust_ppb i; servo_active := servo_active i;
     shm_period_ns := shm_period_ns i; synchronized := synchronized i;
     prev_state := prev_state i; prev_alarms := prev_alarms i;
     consecutive_good_periods := consecutive_good_periods i;
     clustering_score := clustering_score i;
     step_occurred := step_occurred i; counters := counters i |}.

Definition set_convergence (v : sfptpd_stats_convergence) (i : sfptpd_shm_instance)
  : sfptpd_shm_instance :=
  {| propagation_delay := propagation_delay i; clock := clock i;
     ctrl_flags := ctrl_flags i; freq_adjust_max := freq_adjust_max i;
     state := state i; alarms := alarms i; last_shm_time := last_shm_time i;
     shm_timestamp := shm_timestamp i; shm_seq_num := shm_seq_num i;
     notch_filter := notch_filter i; outlier_filter := outlier_filter i;
     fir_filter := fir_filter i; pid_filter := pid_filter i;
     convergence := v; offset_from_master_ns := offset_from_master_ns i;
     freq_adjust_base := freq_adjust_base i;
     freq_adjust_ppb := freq_adjust_ppb i; servo_active := servo_active i;
     shm_period_ns := shm_period_ns i; synchronized := synchronized i;
     prev_state := prev_state i; prev_alarms := prev_alarms i;
     consecutive_good_periods := consecutive_good_periods i;
     clustering_score := clustering_score i;
     step_occurred := step_occurred i; counters := counters i |}.

Definition set_offset_from_master_ns (v : Q) (i : sfptpd_shm_instance)
  : sfptpd_shm_instance :=
  {| propagation_delay := propagation_delay i; clock := clock i;
     ctrl_flags := ctrl_flags i; freq_adjust_max := freq_adjust_max i;
     state := state i; alarms := alarms i; last_shm_time := last_shm_time i;
     shm_timestamp := shm_timestamp i; shm_seq_num := shm_seq_num i;
     notch_filter := notch_filter i; outlier_filter := outlier_filter i;
     fir_filter := fir_filter i; pid_filter := pid_filter i;
     convergence := convergence i; offset_from_master_ns := v;
     freq_adjust_base := freq_adjust_base i;
     freq_adjust_ppb := freq_adjust_ppb i; servo_active := servo_active i;
     shm_period_ns := shm_period_ns i; synchronized := synchronized i;
     prev_state := prev_state i; prev_alarms := prev_alarms i;
     consecutive_good_periods := consecutive_good_periods i;
     clustering_score := clustering_score i;
     step_occurred := step_occurred i; counters := counters i |}.

Definition set_freq_adjust_base (v : Q) (i : sfptpd_shm_instance)
  : sfptpd_shm_instance :=
  {| propagation_delay := propagation_delay i; clock := clock i;
     ctrl_flags := ctrl_flags i; freq_adjust_max := freq_adjust_max i;
     state := state i; alarms := alarms i; last_shm_time := last_shm_time i;
     shm_timestamp := shm_timestamp i; shm_seq_num := shm_seq_num i;
     notch_filter := notch_filter i; outlier_filter := outlier_filter i;
     fir_filter := fir_filter i; pid_filter := pid_filter i;
     convergence := convergence i;
     offset_from_master_ns := offset_from_master_ns i; freq_adjust_base := v;
     freq_adjust_ppb := freq_adjust_ppb i; servo_active := servo_active i;
     shm_period_ns := shm_period_ns i; synchronized := synchronized i;
     prev_state := prev_state i; prev_alarms := prev_alarms i;
     consecutive_good_periods := consecutive_good_periods i;
     clustering_score := clustering_score i;
     step_occurred := step_occurred i; counters := counters i |}.

Definition set_freq_adjust_ppb (v : Q) (i : sfptpd_shm_instance)
  : sfptpd_shm_instance :=
  {| propagation_delay := propagation_delay i; clock := clock i;
     ctrl_flags := ctrl_flags i; freq_adjust_max := freq_adjust_max i;
     state := state i; alarms := alarms i; last_shm_time := last_shm_time i;
     shm_timestamp := shm_timestamp i; shm_seq_num := shm_seq_num i;
     notch_filter := notch_filter i; outlier_filter := outlier_filter i;
     fir_filter := fir_filter i; pid_filter := pid_filter i;
     convergence := convergence i;
     offset_from_master_ns := offset_from_master_ns i;
     freq_adjust_base := freq_adjust_base i; freq_adjust_ppb := v;
     servo_active := servo_active i; shm_period_ns := shm_period_ns i;
     synchronized := synchronized i; prev_state := prev_state i;
     prev_alarms := prev_alarms i;
     consecutive_good_periods := consecutive_good_periods i;
     clustering_score := clustering_score i;
     step_occurred := step_occurred i; counters := counters i |}.

Definition set_servo_active (v : bool) (i : sfptpd_shm_instance)
  : sfptpd_shm_instance :=
  {| propagation_delay := propagation_delay i; clock := clock i;
     ctrl_flags := ctrl_flags i; freq_adjust_max := freq_adjust_max i;
     state := state i; alarms := alarms i; last_shm_time := last_shm_time i;
     shm_timestamp := shm_timestamp i; shm_seq_num := shm_seq_num i;
     notch_filter := notch_filter i; outlier_filter := outlier_filter i;
     fir_filter := fir_filter i; pid_filter := pid_filter i;
     convergence := convergence i;
     offset_from_master_ns := offset_from_master_ns i;
     freq_adjust_base := freq_adjust_base i;
     freq_adjust_ppb := freq_adjust_ppb i; servo_active := v;
     shm_period_ns := shm_period_ns i; synchronized := synchronized i;
     prev_state := prev_state i; prev_alarms := prev_alarms i;
     consecutive_good_periods := consecutive_good_periods i;
     clustering_score := clustering_score i;
     step_occurred := step_occurred i; counters := counters i |}.

Definition set_shm_period_ns (v : Q) (i : sfptpd_shm_instance)
  : sfptpd_shm_instance :=
  {| propagation_delay := propagation_delay i; clock := clock i;
     ctrl_flags := ctrl_flags i; freq_adjust_max := freq_adjust_max i;
     state := state i; alarms := alarms i; last_shm_time := last_shm_time i;
     shm_timestamp := shm_timestamp i; shm_seq_num := shm_seq_num i;
     notch_filter := notch_filter i; outlier_filter := outlier_filter i;
     fir_filter := fir_filter i; pid_filter := pid_filter i;
     convergence := convergence i;
     offset_from_master_ns := offset_from_master_ns i;
     freq_adjust_base := freq_adjust_base i;
     freq_adjust_ppb := freq_adjust_ppb i; servo_active := servo_active i;
     shm_period_ns := v; synchronized := synchronized i;
     prev_state := prev_state i; prev_alarms := prev_alarms i;
     consecutive_good_periods := consecutive_good_periods i;
     clustering_score := clustering_score i;
     step_occurred := step_occurred i; counters := counters i |}.

Definition set_synchronized (v : bool) (i : sfptpd_shm_instance)
  : sfptpd_shm_instance :=
  {| propagation_delay := propagation_delay i; clock := clock i;
     ctrl_flags := ctrl_flags i; freq_adjust_max := freq_adjust_max i;
     state := state i; alarms := alarms i; last_shm_time := last_shm_time i;
     shm_timestamp := shm_timestamp i; shm_seq_num := shm_seq_num i;
     notch_filter := notch_filter i; outlier_filter := outlier_filter i;
     fir_filter := fir_filter i; pid_filter := pid_filter i;
     convergence := convergence i;
     offset_from_master_ns := offset_from_master_ns i;
     freq_adjust_base := freq_adjust_base i;
     freq_adjust_ppb := freq_adjust_ppb i; servo_active := servo_active i;
     shm_period_ns := shm_period_ns i; synchronized := v;
     prev_state := prev_state i; prev_alarms := prev_alarms i;
     consecutive_good_periods := consecutive_good_periods i;
     clustering_score := clustering_score i;
     step_occurred := step_occurred i; counters := counters i |}.

Definition set_prev_state (v : sfptpd_sync_module_state_t) (i : sfptpd_shm_instance)
  : sfptpd_shm_instance :=
  {| propagation_delay := propagation_delay i; clock := clock i;
     ctrl_flags := ctrl_flags i; freq_adjust_max := freq_adjust_max i;
     state := state i; alarms := alarms i; last_shm_time := last_shm_time i;
     shm_timestamp := shm_timestamp i; shm_seq_num := shm_seq_num i;
     notch_filter := notch_filter i; outlier_filter := outlier_filter i;
     fir_filter := fir_filter i; pid_filter := pid_filter i;
     convergence := convergence i;
     offset_from_master_ns := offset_from_master_ns i;
     freq_adjust_base := freq_adjust_base i;
     freq_adjust_ppb := freq_adjust_ppb i; servo_active := servo_active i;
     shm_period_ns := shm_period_ns i; synchronized := synchronized i;
     prev_state := v; prev_alarms := prev_alarms i;
     consecutive_good_periods := consecutive_good_periods i;
     clustering_score := clustering_score i;
     step_occurred := step_occurred i; counters := counters i |}.

Definition set_prev_alarms (v : Z) (i : sfptpd_shm_instance)
  : sfptpd_shm_instance :=
  {| propagation_delay := propagation_delay i; clock := clock i;
     ctrl_flags := ctrl_flags i; freq_adjust_max := freq_adjust_max i;
     state := state i; alarms := alarms i; last_shm_time := last_shm_time i;
     shm_timestamp := shm_timestamp i; shm_seq_num := shm_seq_num i;
     notch_filter := notch_filter i; outlier_filter := outlier_filter i;
     fir_filter := fir_filter i; pid_filter := pid_filter i;
     convergence := convergence i;
     offset_from_master_ns := offset_from_master_ns i;
     freq_adjust_base := freq_adjust_base i;
     freq_adjust_ppb := freq_adjust_ppb i; servo_active := servo_active i;
     shm_period_ns := shm_period_ns i; synchronized := synchronized i;
     prev_state := prev_state i; prev_alarms := v;
     consecutive_good_periods := consecutive_good_periods i;
     clustering_score := clustering_score i;
     step_occurred := step_occurred i; counters := counters i |}.

Definition set_consecutive_good_periods (v : Z) (i : sfptpd_shm_instance)
  : sfptpd_shm_instance :=
  {| propagation_delay := propagation_delay i; clock := clock i;
     ctrl_flags := ctrl_flags i; freq_adjust_max := freq_adjust_max i;
     state := state i; alarms := alarms i; last_shm_time := last_shm_time i;
     shm_timestamp := shm_timestamp i; shm_seq_num := shm_seq_num i;
     notch_filter := notch_filter i; outlier_filter := outlier_filter i;
     fir_filter := fir_filter i; pid_filter := pid_filter i;
     convergence := convergence i;
     offset_from_master_ns := offset_from_master_ns i;
     freq_adjust_base := freq_adjust_base i;
     freq_adjust_ppb := freq_adjust_ppb i; servo_active := servo_active i;
     shm_period_ns := shm_period_ns i; synchronized := synchronized i;
     prev_state := prev_state i; prev_alarms := prev_alarms i;
     consecutive_good_periods := v; clustering_score := clustering_score i;
     step_occurred := step_occurred i; counters := counters i |}.

Definition set_clustering_score (v : Z) (i : sfptpd_shm_instance)
  : sfptpd_shm_instance :=
  {| propagation_delay := propagation_delay i; clock := clock i;
     ctrl_flags := ctrl_flags i; freq_adjust_max := freq_adjust_max i;
     state := state i; alarms := alarms i; last_shm_time := last_shm_time i;
     shm_timestamp := shm_timestamp i; shm_seq_num := shm_seq_num i;
     notch_filter := notch_filter i; outlier_filter := outlier_filter i;
     fir_filter := fir_filter i; pid_filter := pid_filter i;
     convergence := convergence i;
     offset_from_master_ns := offset_from_master_ns i;
     freq_adjust_base := freq_adjust_base i;
     freq_adjust_ppb := freq_adjust_ppb i; servo_active := servo_active i;
     shm_period_ns := shm_period_ns i; synchronized := synchronized i;
     prev_state := prev_state i; prev_alarms := prev_alarms i;
     consecutive_good_periods := consecutive_good_periods i;
     clustering_score := v; step_occurred := step_occurred i;
     counters := counters i |}.

Definition set_step_occurred (v : bool) (i : sfptpd_shm_instance)
  : sfptpd_shm_instance :=
  {| propagation_delay := propagation_delay i; clock := clock i;
     ctrl_flags := ctrl_flags i; freq_adjust_max := freq_adjust_max i;
     state := state i; alarms := alarms i; last_shm_time := last_shm_time i;
     shm_timestamp := shm_timestamp i; shm_seq_num := shm_seq_num i;
     notch_filter := notch_filter i; outlier_filter := outlier_filter i;
     fir_filter := fir_filter i; pid_filter := pid_filter i;
     convergence := convergence i;
     offset_from_master_ns := offset_from_master_ns i;
     freq_adjust_base := freq_adjust_base i;
     freq_adjust_ppb := freq_adjust_ppb i; servo_active := servo_active i;
     shm_period_ns := shm_period_ns i; synchronized := synchronized i;
     prev_state := prev_state i; prev_alarms := prev_alarms i;
     consecutive_good_periods := consecutive_good_periods i;
     clustering_score := clustering_score i; step_occurred := v;
     counters := counters i |}.

Definition set_counters (v : shm_counters) (i : sfptpd_shm_instance)
  : sfptpd_shm_instance :=
  {| propagation_delay := propagation_delay i; clock := clock i;
     ctrl_flags := ctrl_flags i; freq_adjust_max := freq_adjust_max i;
     state := state i; alarms := alarms i; last_shm_time := last_shm_time i;
     shm_timestamp := shm_timestamp i; shm_seq_num := shm_seq_num i;
     notch_filter := notch_filter i; outlier_filter := outlier_filter i;
     fir_filter := fir_filter i; pid_filter := pid_filter i;
     convergence := convergence i;
     offset_from_master_ns := offset_from_master_ns i;
     freq_adjust_base := freq_adjust_base i;
     freq_adjust_ppb := freq_adjust_ppb i; servo_active := servo_active i;
     shm_period_ns := shm_period_ns i; synchronized := synchronized i;
     prev_state := prev_state i; prev_alarms := prev_alarms i;
     consecutive_good_periods := consecutive_good_periods i;
     clustering_score := clustering_score i;
     step_occurred := step_occurred i; counters := v |}.
Definition Qltb (a b : Q) : bool := negb (Qle_bool b a).

(** [shm_servo_reset]; [freq_correction] is what
    [sfptpd_clock_get_freq_correction(instance->clock)] returns. *)
Definition shm_servo_reset (freq_correction : Q)
    (shm : shm_module_t) (instance : sfptpd_shm_instance)
  : shm_module_t * sfptpd_shm_instance :=
  let i := set_fir_filter (sfptpd_fir_filter_reset (fir_filter instance))
             instance in
  let i := set_pid_filter (sfptpd_pid_filter_reset (pid_filter i)) i in
  let i := set_freq_adjust_base freq_correction i in
  let i := set_freq_adjust_ppb (freq_adjust_base i) i in
  let i := set_offset_from_master_ns (inject_Z 0) i in
  let shm := {| tod_state := tod_state shm;
                tod_offset_from_master := sfptpd_time_null |} in
  let i := set_shm_timestamp sfptpd_time_null i in
  let i := set_shm_period_ns (inject_Z 0) i in
  (shm, i).

(** [shm_servo_step_clock].  The driver's return codes only select a
    warning. *)
Definition shm_servo_step_clock (freq_correction : Q)
    (shm : shm_module_t) (instance : sfptpd_shm_instance)
    (offset : sfptpd_timespec)
  : shm_module_t * sfptpd_shm_instance * list event :=
  let zero := sfptpd_time_null in
  (* We actually need to step the clock backwards by the specified offset *)
  let offset := sfptpd_time_subtract zero offset in
  let '(shm, i) := shm_servo_reset freq_correction shm instance in
  (shm, set_step_occurred true i,
   [CLOCK_ADJUST_TIME (clock instance) offset;
    CLOCK_ADJUST_FREQUENCY (clock instance) freq_correction;
    SYNC_MODULE_STEP_CLOCK zero]).

(** The first test of the step decision: the control policy allows a
    step. *)
Definition step_allowed (clock_ctrl : sfptpd_clock_ctrl)
    (servo_active : bool) (diff_ns : Q) : bool :=
  bool_decide (clock_ctrl = SFPTPD_CLOCK_CTRL_SLEW_AND_STEP) ||
  (bool_decide (clock_ctrl = SFPTPD_CLOCK_CTRL_STEP_AT_STARTUP) &&
   negb servo_active) ||
  (bool_decide (clock_ctrl = SFPTPD_CLOCK_CTRL_STEP_FORWARD) &&
   Qltb diff_ns (inject_Z 0)).

(** The second: the offset is at least the threshold away from zero. *)
Definition beyond_step_threshold (diff_ns : Q) : bool :=
  Qle_bool diff_ns (- SHM_CLOCK_STEP_THRESHOLD) ||
  Qle_bool SHM_CLOCK_STEP_THRESHOLD diff_ns.

(** The offset [shm_servo_update] computes first: seconds from the time of
    day rounded to the nearest second, nanoseconds from the SHM
    timestamp. *)
Definition servo_diff (shm_timestamp time_of_day : sfptpd_timespec)
  : sfptpd_timespec :=
  let s := sec time_of_day in
  let s := if nsec time_of_day >=? 500000000 then s + 1 else s in
  let s := if nsec shm_timestamp >=? 500000000 then s - 1 else s in
  {| sec := s; nsec := nsec shm_timestamp; nsec_frac := 0 |}.

Definition servo_diff_ns (instance : sfptpd_shm_instance)
    (shm_timestamp time_of_day : sfptpd_timespec) : Q :=
  sfptpd_time_timespec_to_float_ns (servo_diff shm_timestamp time_of_day)
  - propagation_delay instance.

Definition incr_clock_steps (c : shm_counters) : shm_counters :=
  {| clock_steps := to_uint32 (clock_steps c + 1);
     seq_num_errors := seq_num_errors c;
     bad_signal_errors := bad_signal_errors c;
     outliers := outliers c |}.

Definition incr_seq_num_errors (c : shm_counters) : shm_counters :=
  {| clock_steps := clock_steps c;
     seq_num_errors := to_uint32 (seq_num_errors c + 1);
     bad_signal_errors := bad_signal_errors c;
     outliers := outliers c |}.

Definition incr_bad_signal_errors (c : shm_counters) : shm_counters :=
  {| clock_steps := clock_steps c;
     seq_num_errors := seq_num_errors c;
     bad_signal_errors := to_uint32 (bad_signal_errors c + 1);
     outliers := outliers c |}.

Definition incr_outliers (c : shm_counters) : shm_counters :=
  {| clock_steps := clock_steps c;
     seq_num_errors := seq_num_errors c;
     bad_signal_errors := bad_signal_errors c;
     outliers := to_uint32 (outliers c + 1) |}.

(** The saturation of the frequency adjustment, on numbers: the two
    comparisons of the source are both false for a NaN, which the
    rationals do not have, so that a NaN adjustment would stay as it is. *)
Definition saturate (freq_adjust_max x : Q) : Q :=
  if Qltb freq_adjust_max x then freq_adjust_max
  else if Qltb x (- freq_adjust_max) then - freq_adjust_max
  else x.

(** [shm_servo_update]; [clock_ctrl] is [general_config->clocks.control]. *)
Definition shm_servo_update (clock_ctrl : sfptpd_clock_ctrl)
    (freq_correction : Q)
    (shm : shm_module_t) (instance : sfptpd_shm_instance)
    (shm_timestamp time_of_day : sfptpd_timespec)
  : shm_module_t * sfptpd_shm_instance * list event :=
  let diff := servo_diff shm_timestamp time_of_day in
  let diff_ns := servo_diff_ns instance shm_timestamp time_of_day in
  if step_allowed clock_ctrl (servo_active instance) diff_ns &&
     beyond_step_threshold diff_ns
  then
    if flag_set (ctrl_flags instance) SYNC_MODULE_CLOCK_CTRL then
      (* Step the clock and return *)
      let '(shm, i, evs) :=
        shm_servo_step_clock freq_correction shm instance diff in
      (* Mark the servo as active *)
      let i := set_counters (incr_clock_steps (counters i)) i in
      (shm, set_servo_active true i, evs)
    else (shm, instance, [])
  else
    (* Add the new sample to the filter and get back the filtered delta *)
    let '(fir, mean) :=
      sfptpd_fir_filter_update (fir_filter instance) diff_ns in
    let i := set_fir_filter fir instance in
    (* Store the filtered offset from master *)
    let i := set_offset_from_master_ns mean i in
    let i := set_freq_adjust_ppb (freq_adjust_base i) i in
    if flag_set (ctrl_flags i) SYNC_MODULE_CLOCK_CTRL then
      let '(pid, out) := sfptpd_pid_filter_update (pid_filter i) mean in
      let i := set_pid_filter pid i in
      let i := set_freq_adjust_ppb (freq_adjust_ppb i + out) i in
      (* Saturate the frequency adjustment *)
      let i := set_freq_adjust_ppb
                 (saturate (freq_adjust_max i) (freq_adjust_ppb i)) i in
      (* Mark the shm servo as active *)
      (shm, set_servo_active true i,
       [CLOCK_ADJUST_FREQUENCY (clock i) (freq_adjust_ppb i)])
    else (shm, i, []).

(** [shm_convergence_update]; [rc] and [time] are what
    [sfclock_gettime(CLOCK_MONOTONIC, &time)] returns. *)
Definition shm_convergence_update (rc : Z) (time : sfptpd_timespec)
    (instance : sfptpd_shm_instance) : sfptpd_shm_instance :=
  if (rc <? 0) ||
     negb (bool_decide (state instance = SYNC_MODULE_STATE_SLAVE))
  then
    let i := set_synchronized false instance in
    set_convergence (sfptpd_stats_convergence_reset (convergence i)) i
  else if negb (alarms instance =? 0) ||
          (Z.land (ctrl_flags instance) SYNC_MODULE_TIMESTAMP_PROCESSING =? 0)
  then
    (* the branch holds a comment and no statement *)
    instance
  else
    let '(c, b) :=
      sfptpd_stats_convergence_update (convergence instance) (sec time)
        (offset_from_master_ns instance) in
    set_synchronized b (set_convergence c instance).

(** [shm_state_machine_reset]. *)
Definition shm_state_machine_reset (instance : sfptpd_shm_instance)
  : sfptpd_shm_instance :=
  let i := set_state SYNC_MODULE_STATE_LISTENING instance in
  let i := set_prev_state SYNC_MODULE_STATE_LISTENING i in
  let i := set_alarms 0 i in
  let i := set_prev_alarms 0 i in
  let i := set_consecutive_good_periods 0 i in
  let i := set_shm_timestamp sfptpd_time_null i in
  let i := set_shm_seq_num 0 i in
  let i := set_shm_period_ns (inject_Z 0) i in
  set_outlier_filter (sfptpd_peirce_filter_reset <$> outlier_filter i) i.

(** [shm_on_no_shm_event]; [time_now] is the monotonic clock.  A state the
    [switch] has no case for fails its [assert(false)]. *)
Definition shm_on_no_shm_event (time_now : sfptpd_timespec)
    (instance : sfptpd_shm_instance) : option sfptpd_shm_instance :=
  match state instance with
  | SYNC_MODULE_STATE_LISTENING => Some instance
  | SYNC_MODULE_STATE_SLAVE =>
      let interval := sfptpd_time_subtract time_now (last_shm_time instance) in
      if sfptpd_time_is_greater_or_equal interval shm_timeout_interval then
        Some (shm_state_machine_reset instance)
      else if sfptpd_time_is_greater_or_equal interval shm_alarm_interval &&
              negb (SYNC_MODULE_ALARM_TEST (alarms instance)
                      SYNC_MODULE_ALARM_SHM_NO_SIGNAL)
      then Some (set_alarms
                   (SYNC_MODULE_ALARM_SET (alarms instance)
                      SYNC_MODULE_ALARM_SHM_NO_SIGNAL) instance)
      else Some instance
  | SYNC_MODULE_STATE_FAULTY =>
      (* The interface seems to have started working again. Go to the
         listening state *)
      Some (shm_state_machine_reset instance)
  | _ => None
  end.

(** [shm_on_shm_error]. *)
Definition shm_on_shm_error (instance : sfptpd_shm_instance)
  : option sfptpd_shm_instance :=
  match state instance with
  | SYNC_MODULE_STATE_LISTENING
  | SYNC_MODULE_STATE_SLAVE =>
      Some (set_state SYNC_MODULE_STATE_FAULTY
              (shm_state_machine_reset instance))
  | SYNC_MODULE_STATE_FAULTY => Some instance
  | _ => None
  end.

(** The [SYNC_MODULE_STATE_SLAVE] case of [shm_on_shm_event], up to its
    [break]. *)
Definition shm_on_shm_event_slave (clock_ctrl : sfptpd_clock_ctrl)
    (freq_correction : Q) (shm : shm_module_t)
    (instance : sfptpd_shm_instance) (seq_num : Z) (time : sfptpd_timespec)
  : shm_module_t * sfptpd_shm_instance * list event :=
  (* Clear the no signal alarm *)
  let i := set_alarms (SYNC_MODULE_ALARM_CLEAR (alarms instance)
                         SYNC_MODULE_ALARM_SHM_NO_SIGNAL) instance in
  (* Check that the sequence number has incremented. *)
  let i :=
    if negb (seq_num =? UINT32_MAX) &&
       negb (seq_num =? to_uint32 (shm_seq_num i + 1))
    then
      set_counters (incr_seq_num_errors (counters i))
        (set_alarms (SYNC_MODULE_ALARM_SET (alarms i)
                       SYNC_MODULE_ALARM_SHM_SEQ_NUM_ERROR) i)
    else
      set_alarms (SYNC_MODULE_ALARM_CLEAR (alarms i)
                    SYNC_MODULE_ALARM_SHM_SEQ_NUM_ERROR) i in
  (* If timestamp processing is disabled go no further *)
  if Z.land (ctrl_flags i) SYNC_MODULE_TIMESTAMP_PROCESSING =? 0
  then (shm, i, [])
  (* If there was a step since the last sample, wait for another one *)
  else if step_occurred i
  then (shm, set_shm_timestamp sfptpd_time_null (set_step_occurred false i),
        [])
  else
    (* If the previous SHM time is valid, calculate the SHM period and
       apply the notch filter *)
    let i :=
      if negb (sec (shm_timestamp i) =? 0) then
        let period := sfptpd_time_subtract time (shm_timestamp i) in
        let i := set_shm_period_ns (sfptpd_time_timespec_to_float_ns period)
                   i in
        if negb (sfptpd_notch_filter_update (notch_filter i)
                   (shm_period_ns i) =? 0)
        then
          let i := set_alarms (SYNC_MODULE_ALARM_SET (alarms i)
                                 SYNC_MODULE_ALARM_SHM_BAD_SIGNAL) i in
          let i := set_counters (incr_bad_signal_errors (counters i)) i in
          set_consecutive_good_periods 0 i
        else
          set_consecutive_good_periods
            (to_uint64 (consecutive_good_periods i + 1)) i
      else i in
    (* We only execute the SHM servo if we have had enough consecutive
       good SHM periods *)
    if consecutive_good_periods i >=? SHM_REQUIRED_GOOD_PERIODS then
      let i := set_alarms (SYNC_MODULE_ALARM_CLEAR (alarms i)
                             SYNC_MODULE_ALARM_SHM_BAD_SIGNAL) i in
      (* Apply the outlier filter *)
      let '(i, rc) :=
        match outlier_filter i with
        | Some f =>
            let '(f, rc) := sfptpd_peirce_filter_update f (shm_period_ns i) in
            let i := set_outlier_filter (Some f) i in
            if negb (rc =? 0)
            then (set_counters (incr_outliers (counters i)) i, rc)
            else (i, rc)
        | None => (i, 0)
        end in
      if rc =? 0 then
        let '(shm, i, evs) :=
          shm_servo_update clock_ctrl freq_correction shm i time
            (tod_offset_from_master shm) in
        (* Send updated stats and clustering input to engine *)
        let clustering :=
          if flag_set (ctrl_flags i) SYNC_MODULE_CLUSTERING_DETERMINANT
          then
            let offset := offset_from_master_ns i in
            [ENGINE_CLUSTERING_INPUT (clock i) offset
               (negb (Qeq_bool offset (inject_Z 0)) &&
                bool_decide (state i = SYNC_MODULE_STATE_SLAVE))]
          else [] in
        (* Calculate clustering score *)
        let i := set_clustering_score
                   (calc_fn (offset_from_master_ns i) (clock i)) i in
        (shm, i, evs ++ clustering ++ [SEND_RT_STATS_UPDATE])
      else (shm, i, [])
    else (shm, i, []).

(** [shm_on_shm_event]; [time_now] is what
    [sfclock_gettime(CLOCK_MONOTONIC, &instance->last_shm_time)] stores. *)
Definition shm_on_shm_event (clock_ctrl : sfptpd_clock_ctrl)
    (freq_correction : Q) (time_now : sfptpd_timespec)
    (shm : shm_module_t) (instance : sfptpd_shm_instance)
    (seq_num : Z) (time : sfptpd_timespec)
  : option (shm_module_t * sfptpd_shm_instance * list event) :=
  r ← match state instance with
      | SYNC_MODULE_STATE_FAULTY
      | SYNC_MODULE_STATE_LISTENING =>
          (* Change to the slave state *)
          Some (shm,
                set_shm_period_ns (inject_Z 0)
                  (set_state SYNC_MODULE_STATE_SLAVE instance),
                [])
      | SYNC_MODULE_STATE_SLAVE =>
          Some (shm_on_shm_event_slave clock_ctrl freq_correction shm
                  instance seq_num time)
      | _ => None
      end;
  let '(shm, i, evs) := r in
  (* Record the sequence number of the SHM event and the monotonic time
     in all cases; the timestamp itself only if timestamp processing is
     enabled. *)
  let i := set_shm_seq_num seq_num i in
  let i := set_last_shm_time time_now i in
  let i :=
    if flag_set (ctrl_flags i) SYNC_MODULE_TIMESTAMP_PROCESSING
    then set_shm_timestamp time i else i in
  Some (shm, i, evs).

(** [shm_on_control], with [msg->u.control_req.mask] and [.flags]. *)
Definition shm_on_control (instance : sfptpd_shm_instance) (mask flags : Z)
  : sfptpd_shm_instance :=
  let ctrl := ctrl_flags instance in
  let ctrl := Z.land ctrl (Z.lnot mask) in
  let ctrl := Z.lor ctrl (Z.land flags mask) in
  (* If clock control is being disabled, reset just the PID filter *)
  let i :=
    if negb (Z.land (ctrl_flags instance) SYNC_MODULE_CLOCK_CTRL =? 0) &&
       (Z.land ctrl SYNC_MODULE_CLOCK_CTRL =? 0)
    then set_pid_filter (sfptpd_pid_filter_reset (pid_filter instance))
           instance
    else instance in
  (* If timestamp processing is being disabled, reset the timestamp *)
  let i :=
    if negb (Z.land (ctrl_flags i) SYNC_MODULE_TIMESTAMP_PROCESSING =? 0) &&
       (Z.land ctrl SYNC_MODULE_TIMESTAMP_PROCESSING =? 0)
    then set_shm_timestamp sfptpd_time_null i
    else i in
  (* Record the new control flags *)
  set_ctrl_flags ctrl i.

End Instance.

(** ** The poll: draining, time of day, statistics *)

(** What one round of the loop of [shm_drain_events] sees: [poll] fails
    with [errno], or reports the descriptor readable and
    [sfptpd_clock_shm_get] returns [rc], or reports nothing to read. *)
Inductive drain_poll :=
  | POLL_FAILED (errno : Z)
  | POLL_READABLE (shm_get_rc : Z)
  | POLL_QUIET.

(** The message [shm_drain_events] logs before it returns. *)
Inductive drain_log :=
  | LOG_ERROR (rc : Z)
  | LOG_GAVE_UP
  | LOG_SWALLOWED (i : Z)
  | LOG_NOTHING.

Definition max_drain : Z := 1000.

(** The body of the loop: the new value of [rc]. *)
Definition drain_step (p : drain_poll) : Z :=
  match p with
  | POLL_FAILED errno => errno
  | POLL_READABLE rc => if rc =? 0 then EAGAIN else rc
  | POLL_QUIET => 0
  end.

(** [for (i = 0; rc == EAGAIN && i < max_drain; i++)]; [polls i] is what
    round [i] sees.  The fuel is the bound the test on [i] gives ([i]
    stays far below [INT_MAX]). *)
Fixpoint drain_loop (fuel : nat) (i rc : Z) (polls : Z -> drain_poll)
  : Z * Z :=
  match fuel with
  | O => (rc, i)
  | S fuel' =>
      if (rc =? EAGAIN) && (i <? max_drain)
      then drain_loop fuel' (i + 1) (drain_step (polls i)) polls
      else (rc, i)
  end.

(** [shm_drain_events]: the return code, the number of rounds and the
    message logged. *)
Definition shm_drain_events (polls : Z -> drain_poll) : Z * Z * drain_log :=
  let '(rc, i) := drain_loop (S (Z.to_nat max_drain)) 0 EAGAIN polls in
  (rc, i,
   if negb (rc =? 0) then LOG_ERROR rc
   else if i =? max_drain then LOG_GAVE_UP
   else if negb (i =? 0) then LOG_SWALLOWED i
   else LOG_NOTHING).

(** For the statements about the message logged: whether a round reads
    an event off the descriptor ([sfptpd_clock_shm_get] returns 0, which
    the loop turns into [EAGAIN]), and the number of events the first [n]
    rounds read. *)
Definition swallows (p : drain_poll) : bool :=
  match p with
  | POLL_READABLE rc => rc =? 0
  | _ => false
  end.

Fixpoint events_swallowed (polls : Z -> drain_poll) (n : nat) : Z :=
  match n with
  | O => 0
  | S n' =>
      events_swallowed polls n' +
      (if swallows (polls (Z.of_nat n')) then 1 else 0)
  end.

(** [shm->time_of_day]: whether [source.module] is set, the time of the
    next poll, and the status ([shm_module_t] above). *)
Record shm_time_of_day := {
  source_module : bool;
  next_poll_time : sfptpd_timespec;
  status : shm_module_t;
}.

(** The time helpers of the time-of-day poll ([sfptpd_time.h], not among
    the sources). *)
Class TimeOfDayOps := {
  sfptpd_time_is_zero : sfptpd_timespec -> bool;
  sfptpd_time_add : sfptpd_timespec -> sfptpd_timespec -> sfptpd_timespec;
}.

(** What a time-of-day poll reads: the monotonic clock, whether
    [shm_time_of_day_init] finds a sync module and the clock it then
    reads, the return code of [sfptpd_sync_module_get_status] with the
    status it leaves, and the return code of [sfptpd_clockfeed_compare]
    with the difference it gives. *)
Record tod_env := {
  tod_time_now : sfptpd_timespec;
  tod_init_found : bool;
  tod_init_time : sfptpd_timespec;
  tod_get_status : shm_module_t -> Z * shm_module_t;
  tod_compare : Z * sfptpd_timespec;
}.

(** The identifiers of [enum shm_stats_ids] and the two kinds of update
    of the statistics collection. *)
Inductive shm_stats_ids :=
  | SHM_STATS_ID_OFFSET
  | SHM_STATS_ID_PERIOD
  | SHM_STATS_ID_FREQ_ADJ
  | SHM_STATS_ID_SYNCHRONIZED
  | SHM_STATS_ID_CLOCK_STEPS
  | SHM_STATS_ID_NO_SIGNAL_ERRORS
  | SHM_STATS_ID_SEQ_NUM_ERRORS
  | SHM_STATS_ID_TIME_OF_DAY_ERRORS
  | SHM_STATS_ID_BAD_SIGNAL_ERRORS
  | SHM_STATS_ID_OUTLIERS.

Inductive stats_update :=
  | UPDATE_RANGE (id : shm_stats_ids) (value : Q) (time : sfptpd_timespec)
      (qualified : bool)
  | UPDATE_COUNT (id : shm_stats_ids) (n : Z).

Section Poll.

Context {bits : SyncModuleBits} {ext : Collaborators} {tod_ops : TimeOfDayOps}.

(** [shm_on_step_clock]: the request's offset goes to
    [shm_servo_step_clock], whose result is dropped, and the request is
    replied to. *)
Definition shm_on_step_clock (freq_correction : Q)
    (shm : shm_module_t) (instance : sfptpd_shm_instance)
    (offset : sfptpd_timespec)
  : shm_module_t * sfptpd_shm_instance * list event :=
  shm_servo_step_clock freq_correction shm instance offset.

(** [shm_time_of_day_init], when the module is looked for again. *)
Definition shm_time_of_day_init (env : tod_env) (tod : shm_time_of_day)
  : shm_time_of_day :=
  if tod_init_found env then
    {| source_module := true;
       next_poll_time := tod_init_time env;
       status := {| tod_state := SYNC_MODULE_STATE_LISTENING;
                    tod_offset_from_master := sfptpd_time_null |} |}
  else tod.

(** [shm_time_of_day_poll].  The third component says whether the feed of
    the instance was asked for a fresh sample and compared. *)
Definition shm_time_of_day_poll (env : tod_env) (tod : shm_time_of_day)
    (instance : sfptpd_shm_instance)
  : shm_time_of_day * sfptpd_shm_instance * bool :=
  (* Check whether it's time to poll for time of day again *)
  let time_left :=
    sfptpd_time_subtract (next_poll_time tod) (tod_time_now env) in
  if sec time_left >=? 0 then (tod, instance, false)
  else
    let tod :=
      {| source_module := source_module tod;
         next_poll_time :=
           {| sec := sec (next_poll_time tod) + 1;
              nsec := nsec (next_poll_time tod);
              nsec_frac := nsec_frac (next_poll_time tod) |};
         status := status tod |} in
    (* If we failed to get the time of day sync module before, look for
       it again. *)
    let tod :=
      if negb (source_module tod) then shm_time_of_day_init env tod
      else tod in
    let '(tod, feed_read) :=
      if source_module tod then
        let '(rc, st) := tod_get_status env (status tod) in
        if (rc =? 0) && negb (sfptpd_time_is_zero (tod_offset_from_master st))
        then
          let '(rc, system_to_nic) := tod_compare env in
          ({| source_module := source_module tod;
              next_poll_time := next_poll_time tod;
              status :=
                if rc =? 0 then
                  {| tod_state := tod_state st;
                     tod_offset_from_master :=
                       sfptpd_time_add (tod_offset_from_master st)
                         system_to_nic |}
                else st |},
           true)
        else
          ({| source_module := source_module tod;
              next_poll_time := next_poll_time tod;
              status := st |},
           false)
      else (tod, false) in
    (* If the state of the time of day module is not slave then we don't
       have access to a time of day- sound the alarm! *)
    let instance :=
      if bool_decide (tod_state (status tod) = SYNC_MODULE_STATE_SLAVE) ||
         bool_decide (tod_state (status tod) = SYNC_MODULE_STATE_SELECTION)
      then set_alarms (SYNC_MODULE_ALARM_CLEAR (alarms instance)
                         SYNC_MODULE_ALARM_NO_TIME_OF_DAY) instance
      else if negb (SYNC_MODULE_ALARM_TEST (alarms instance)
                      SYNC_MODULE_ALARM_NO_TIME_OF_DAY)
      then set_alarms (SYNC_MODULE_ALARM_SET (alarms instance)
                         SYNC_MODULE_ALARM_NO_TIME_OF_DAY) instance
      else instance in
    (tod, instance, feed_read).

(** [shm_stats_update]; [now] is the system clock's time.  The four
    counters are handed to the collection and zeroed. *)
Definition shm_stats_update (now : sfptpd_timespec)
    (instance : sfptpd_shm_instance)
  : sfptpd_shm_instance * list stats_update :=
  let slave := bool_decide (state instance = SYNC_MODULE_STATE_SLAVE) in
  let cleared bit :=
    if SYNC_MODULE_ALARM_TEST (prev_alarms instance) bit &&
       negb (SYNC_MODULE_ALARM_TEST (alarms instance) bit)
    then 1 else 0 in
  (set_counters {| clock_steps := 0; seq_num_errors := 0;
                   bad_signal_errors := 0; outliers := 0 |} instance,
   [UPDATE_RANGE SHM_STATS_ID_OFFSET (offset_from_master_ns instance) now
      slave;
    UPDATE_RANGE SHM_STATS_ID_FREQ_ADJ (freq_adjust_ppb instance) now slave;
    UPDATE_COUNT SHM_STATS_ID_SYNCHRONIZED
      (if synchronized instance then 1 else 0)]
   ++ (if Qltb (inject_Z 0) (shm_period_ns instance)
       then [UPDATE_RANGE SHM_STATS_ID_PERIOD (shm_period_ns instance) now
               slave]
       else [])
   ++ [UPDATE_COUNT SHM_STATS_ID_CLOCK_STEPS
         (clock_steps (counters instance));
       UPDATE_COUNT SHM_STATS_ID_NO_SIGNAL_ERRORS
         (cleared SYNC_MODULE_ALARM_SHM_NO_SIGNAL);
       UPDATE_COUNT SHM_STATS_ID_SEQ_NUM_ERRORS
         (seq_num_errors (counters instance));
       UPDATE_COUNT SHM_STATS_ID_TIME_OF_DAY_ERRORS
         (cleared SYNC_MODULE_ALARM_NO_TIME_OF_DAY);
       UPDATE_COUNT SHM_STATS_ID_BAD_SIGNAL_ERRORS
         (bad_signal_errors (counters instance));
       UPDATE_COUNT SHM_STATS_ID_OUTLIERS (outliers (counters instance))]).

(** What a poll reads: [rc], [seq_num] and [time] as
    [sfptpd_clock_shm_get] (and, in test mode,
    [shm_test_mode_bogus_event], which is not among the sources) leave
    them; the monotonic clock of the handlers; the readings of the
    time-of-day poll; the return code and the time of the
    [sfclock_gettime] of [shm_convergence_update]; the system clock of
    [shm_stats_update]. *)
Record poll_env := {
  get_rc : Z;
  get_seq_num : Z;
  get_time : sfptpd_timespec;
  monotonic_now : sfptpd_timespec;
  time_of_day_env : tod_env;
  convergence_rc : Z;
  convergence_time : sfptpd_timespec;
  stats_now : sfptpd_timespec;
}.

(** The instance with the field of the poll that
    [sfptpd_shm_instance] above leaves out, and the module's time of
    day. *)
Record poll_state := {
  instance_of : sfptpd_shm_instance;
  prev_clustering_score : Z;
  time_of_day_of : shm_time_of_day;
}.

(** What a poll sends: the requests of the servo, whether the feed was
    read, the statistics, and the status given to
    [sfptpd_engine_sync_instance_state_changed] when the state has
    changed (its state, alarms and clustering score; the other fields
    come from the configuration). *)
Record poll_output := {
  poll_rc : Z;
  poll_events : list event;
  poll_feed_read : bool;
  poll_stats : list stats_update;
  poll_state_changed : option (sfptpd_sync_module_state_t * Z * Z);
}.

(** [shm_do_poll]. *)
Definition shm_do_poll (clock_ctrl : sfptpd_clock_ctrl) (freq_correction : Q)
    (env : poll_env) (st : poll_state) : option (poll_state * poll_output) :=
  let instance := instance_of st in
  let shm := status (time_of_day_of st) in
  let rc := get_rc env in
  r ← (if rc =? EAGAIN then
         i ← shm_on_no_shm_event (monotonic_now env) instance;
         Some (shm, i, [])
       else if negb (rc =? 0) then
         i ← shm_on_shm_error instance; Some (shm, i, [])
       else
         shm_on_shm_event clock_ctrl freq_correction (monotonic_now env) shm
           instance (get_seq_num env) (get_time env));
  let '(shm, instance, evs) := r in
  let tod := {| source_module := source_module (time_of_day_of st);
                next_poll_time := next_poll_time (time_of_day_of st);
                status := shm |} in
  (* Poll for time of day. *)
  let '(tod, instance, feed_read) :=
    shm_time_of_day_poll (time_of_day_env env) tod instance in
  (* Update the convergence criteria *)
  let instance :=
    shm_convergence_update (convergence_rc env) (convergence_time env)
      instance in
  let state_changed :=
    negb (bool_decide (state instance = prev_state instance)) ||
    (bool_decide (state instance = SYNC_MODULE_STATE_SLAVE) &&
     negb (Bool.eqb (alarms instance =? 0) (prev_alarms instance =? 0))) in
  let state_changed :=
    if negb (clustering_score instance =? prev_clustering_score st)
    then true else state_changed in
  (* Update historical stats *)
  let '(instance, stats) := shm_stats_update (stats_now env) instance in
  (* Update the snapshot of previous state *)
  let instance := set_prev_state (state instance) instance in
  let instance := set_prev_alarms (alarms instance) instance in
  Some ({| instance_of := instance;
           prev_clustering_score := clustering_score instance;
           time_of_day_of := tod |},
        {| poll_rc := rc;
           poll_events := evs;
           poll_feed_read := feed_read;
           poll_stats := stats;
           (* If the state has changed, send an event to the sync engine *)
           poll_state_changed :=
             if state_changed
             then Some (state instance, alarms instance,
                        clustering_score instance)
             else None |}).

(** Successive polls of an instance, one for each reading in [envs]; the
    outputs are in the order of the polls. *)
Fixpoint shm_polls (clock_ctrl : sfptpd_clock_ctrl) (freq_correction : Q)
    (envs : list poll_env) (st : poll_state)
  : option (poll_state * list poll_output) :=
  match envs with
  | [] => Some (st, [])
  | env :: envs' =>
      '(st, out) ← shm_do_poll clock_ctrl freq_correction env st;
      '(st, outs) ← shm_polls clock_ctrl freq_correction envs' st;
      Some (st, out :: outs)
  end.

(** The events in a row the fields of an instance vouch for: none outside
    the slave state, one for entering it and one for each good period
    counted since. *)
Definition events_in_a_row (instance : sfptpd_shm_instance) : Z :=
  if bool_decide (state instance = SYNC_MODULE_STATE_SLAVE)
  then consecutive_good_periods instance + 1 else 0.

End Poll.

(** ** Values to run the model on *)

(** One assignment of distinct bits to the flags and to the alarms. *)
Definition plain_bits : SyncModuleBits :=
  {| SYNC_MODULE_SELECTED := 1;
     SYNC_MODULE_TIMESTAMP_PROCESSING := 2;
     SYNC_MODULE_CLOCK_CTRL := 4;
     SYNC_MODULE_CLUSTERING_DETERMINANT := 16;
     SYNC_MODULE_ALARM_SHM_NO_SIGNAL := 1;
     SYNC_MODULE_ALARM_SHM_SEQ_NUM_ERROR := 2;
     SYNC_MODULE_ALARM_NO_TIME_OF_DAY := 4;
     SYNC_MODULE_ALARM_SHM_BAD_SIGNAL := 8 |}.

Definition Qsum (l : list Q) : Q := foldr Qplus (inject_Z 0) l.

(** Modelled from the spec: the filter kit and the convergence measure
    ([sfptpd_filter.c], [sfptpd_statistics.c]) are not among the sources.
    The notch filter passes a period within [10^8] of [10^9] ns; the
    outlier filter here accepts every sample; the FIR filter is the box
    mean of the last 4 samples; the PID controller is [kp * e + ki * sum e]
    with [kp = 2/5], [ki = 3/100] and no derivative term; a sample is in
    sync when its offset is within 100 us, and the instance has converged
    once samples have stayed in sync for 60 s. *)
Definition plain_collaborators : Collaborators :=
  {| sfptpd_notch_filter_t := unit;
     sfptpd_peirce_filter := unit;
     sfptpd_fir_filter_t := list Q;
     sfptpd_pid_filter_t := Q;
     sfptpd_stats_convergence := option Z;
     sfptpd_notch_filter_update _ x :=
       if Qle_bool (Qabs (x - inject_Z 1000000000)) (inject_Z 100000000)
       then 0 else 34;
     sfptpd_peirce_filter_reset f := f;
     sfptpd_peirce_filter_update f _ := (f, 0);
     sfptpd_fir_filter_reset _ := [];
     sfptpd_fir_filter_update f x :=
       let w := take 4 (x :: f) in
       (w, Qred (Qsum w / inject_Z (Z.of_nat (length w))));
     sfptpd_pid_filter_reset _ := inject_Z 0;
     sfptpd_pid_filter_update integral e :=
       let integral := Qred (integral + e) in
       (integral, Qred ((2 # 5) * e + (3 # 100) * integral));
     sfptpd_stats_convergence_reset _ := None;
     sfptpd_stats_convergence_update c time offset :=
       if Qle_bool (Qabs offset) (inject_Z 100000) then
         match c with
         | Some since => (Some since, 60 <=? time - since)
         | None => (Some time, false)
         end
       else (None, false);
     sfptpd_time_subtract a b :=
       let ns := (sec a - sec b) * 1000000000 + (nsec a - nsec b) in
       {| sec := ns / 1000000000; nsec := ns mod 1000000000;
          nsec_frac := 0 |};
     sfptpd_time_is_greater_or_equal a b :=
       sec b * 1000000000 + nsec b <=? sec a * 1000000000 + nsec a;
     sfptpd_time_timespec_to_float_ns a :=
       inject_Z (sec a * 1000000000 + nsec a);
     calc_fn _ _ := 1 |}.

(** An instance of the plain kit: selected, processing timestamps and
    controlling its clock, with a cap of 1000 ppb.  [st], [al], [sync] and
    [base] are its state, alarms, synchronized flag and saved frequency
    correction. *)
Definition plain_instance (st : sfptpd_sync_module_state_t) (al : Z)
    (sync : bool) (flags : Z) (base : Q)
  : @sfptpd_shm_instance plain_collaborators :=
  {| propagation_delay := inject_Z 1500;
     clock := 3%positive;
     ctrl_flags := flags;
     freq_adjust_max := inject_Z 1000;
     state := st;
     alarms := al;
     last_shm_time := {| sec := 40; nsec := 0; nsec_frac := 0 |};
     shm_timestamp := {| sec := 99; nsec := 3500; nsec_frac := 0 |};
     shm_seq_num := 17;
     notch_filter := (tt : @sfptpd_notch_filter_t plain_collaborators);
     outlier_filter := Some tt;
     fir_filter := [inject_Z 2000];
     pid_filter := inject_Z 2000;
     convergence := Some 10;
     offset_from_master_ns := inject_Z 2000;
     freq_adjust_base := base;
     freq_adjust_ppb := base;
     servo_active := true;
     shm_period_ns := inject_Z 1000000000;
     synchronized := sync;
     prev_state := st;
     prev_alarms := al;
     consecutive_good_periods := 5;
     clustering_score := 1;
     step_occurred := false;
     counters := {| clock_steps := 0; seq_num_errors := 0;
                    bad_signal_errors := 0; outliers := 0 |} |}.

Definition plain_shm : shm_module_t :=
  {| tod_state := SYNC_MODULE_STATE_SLAVE;
     tod_offset_from_master := {| sec := 0; nsec := 0; nsec_frac := 0 |} |}.

(** An SHM event at 100 s + [ns]. *)
Definition event_time (ns : Z) : sfptpd_timespec :=
  {| sec := 100; nsec := ns; nsec_frac := 0 |}.

(** Plain time helpers for the time-of-day poll. *)
Definition plain_tod_ops : TimeOfDayOps :=
  {| sfptpd_time_is_zero a :=
       (sec a =? 0) && (nsec a =? 0) && (nsec_frac a =? 0);
     sfptpd_time_add a b :=
       let ns := (sec a + sec b) * 1000000000 + (nsec a + nsec b) in
       {| sec := ns / 1000000000; nsec := ns mod 1000000000;
          nsec_frac := 0 |} |}.

(** A time-of-day module that is known and in step with its master, polled
    at 50 s. *)
Definition plain_tod_env : tod_env :=
  {| tod_time_now := {| sec := 50; nsec := 0; nsec_frac := 0 |};
     tod_init_found := true;
     tod_init_time := {| sec := 50; nsec := 0; nsec_frac := 0 |};
     tod_get_status := fun _ => (0, plain_shm);
     tod_compare := (0, {| sec := 0; nsec := 0; nsec_frac := 0 |}) |}.

Definition plain_time_of_day : shm_time_of_day :=
  {| source_module := true;
     next_poll_time := {| sec := 49; nsec := 0; nsec_frac := 0 |};
     status := plain_shm |}.

(** A poll that finds what [sfptpd_clock_shm_get] returned with [rc]: an
    event numbered 18 at 100 s + 3500 ns when [rc] is 0. *)
Definition plain_poll_env (rc : Z) : poll_env :=
  {| get_rc := rc;
     get_seq_num := 18;
     get_time := event_time 3500;
     monotonic_now := {| sec := 41; nsec := 0; nsec_frac := 0 |};
     time_of_day_env := plain_tod_env;
     convergence_rc := 0;
     convergence_time := {| sec := 41; nsec := 0; nsec_frac := 0 |};
     stats_now := {| sec := 1000; nsec := 0; nsec_frac := 0 |} |}.

(** The plain instance in state [st] with its poll fields. *)
Definition plain_poll_state (st : sfptpd_sync_module_state_t) : poll_state :=
  {| instance_of := plain_instance st 0 false 6 (inject_Z 0);
     prev_clustering_score := 1;
     time_of_day_of := plain_time_of_day |}.

End Shm.

(** * Properties of the clock feed *)

Module ClockfeedProps.
Import Clockfeed.

Lemma to_int_id x : INT_MIN <= x <= INT_MAX -> to_int x = x.
Proof.
  unfold to_int, INT_MIN, INT_MAX. intros H.
  rewrite Z.mod_small; lia.
Qed.

Lemma to_int_range x : INT_MIN <= to_int x <= INT_MAX.
Proof.
  unfold to_int, INT_MIN, INT_MAX.
  pose proof (Z.mod_pos_bound (x + 2 ^ 31) (2 ^ 32) ltac:(lia)). lia.
Qed.

Lemma to_int_mod16 x : to_int x mod 16 = x mod 16.
Proof.
  unfold to_int.
  pose proof (Z.div_mod (x + 2 ^ 31) (2 ^ 32) ltac:(lia)) as H.
  replace ((x + 2 ^ 31) mod 2 ^ 32 - 2 ^ 31)
    with (x + (- ((x + 2 ^ 31) / 2 ^ 32) * 2 ^ 28) * 16) by lia.
  apply Z_mod_plus_full.
Qed.

(** The slot the reader takes: [(writer1 - 1) & index_mask], computed in
    [int] and converted to [uint32_t], is [(writer1 - 1) mod 16]. *)
Lemma ring_index w :
  Z.land (to_uint32 (to_int (w - 1))) index_mask = (w - 1) mod 16.
Proof.
  change index_mask with (Z.ones 4).
  rewrite Z.land_ones by lia. unfold to_uint32.
  change (2 ^ 4) with 16.
  pose proof (Z.div_mod (to_int (w - 1)) (2 ^ 32) ltac:(lia)) as H.
  replace (to_int (w - 1) mod 2 ^ 32)
    with (to_int (w - 1) + (- (to_int (w - 1) / 2 ^ 32) * 2 ^ 28) * 16)
    by lia.
  rewrite Z_mod_plus_full. apply to_int_mod16.
Qed.

(** Closes a leaf of the case analysis of [clockfeed_compare_to_sys]. *)
Ltac leaf :=
  cbn; repeat split; try discriminate; try reflexivity; intros;
  try lia; try congruence.

Section Ring.

Context {time_ops : TimeOps}.

(** C1 (amended).  A read through a subscription whose source is not
    marked inactive and whose clock is active: with [w1] the snapshot of the
    write counter, if [w1 = 0] the read returns [EAGAIN] (NO_DATA);
    otherwise the sample in slot [(w1 - 1) mod 16] is read and, when the
    sample's own result code is 0, a re-read counter [w2 >= w1 + 15] makes
    the read return [ENODATA] (OVERRUN), while for [w2 < w1 + 15] no overrun
    is reported, the difference is taken from that sample, and absent a
    freshness or age constraint the read succeeds and records [w1].
    ([w1 + MAX_CLOCK_SAMPLES] is assumed not to overflow [int].) *)
Theorem compare_to_sys_ring_read
    (src : clockfeed_source) (sub : sfptpd_clockfeed_sub)
    (counter_reread : Z) (now_mono t1 t2 mono_time : option timespec) :
  let w1 := to_int (write_counter (s_shm src)) in
  let w2 := to_int counter_reread in
  let sample := sample_at (s_shm src) ((w1 - 1) mod 16) in
  let o := clockfeed_compare_to_sys src sub true counter_reread now_mono
             t1 t2 mono_time in
  s_inactive src = false ->
  w1 + MAX_CLOCK_SAMPLES <= INT_MAX ->
  (w1 = 0 -> out_rc o = EAGAIN) /\
  (w1 <> 0 -> rc sample = 0 ->
     (w2 >= w1 + 15 -> out_rc o = ENODATA) /\
     (w2 < w1 + 15 ->
        out_rc o <> ENODATA /\
        out_diff o = sfptpd_time_subtract (snapshot sample) (system sample) /\
        (min_counter sub <= w1 -> have_max_age sub = false ->
           out_rc o = 0 /\ read_counter (out_sub o) = w1))).
Proof.
  intros w1 w2 sample o Hact Hmax.
  pose proof (to_int_range (write_counter (s_shm src))) as Hw1.
  fold w1 in Hw1.
  assert (Hsum : to_int (to_int (w1 + MAX_CLOCK_SAMPLES) - 1) = w1 + 15).
  { change MAX_CLOCK_SAMPLES with 16 in *.
    rewrite (to_int_id (w1 + 16)) by (unfold INT_MIN, INT_MAX in *; lia).
    rewrite to_int_id by (unfold INT_MIN, INT_MAX in *; lia). lia. }
  subst o. unfold clockfeed_compare_to_sys. rewrite Hact. cbn [negb].
  fold w1. rewrite ring_index. fold sample. rewrite Hsum. fold w2.
  split.
  - intros ->. reflexivity.
  - intros Hnz Hrc.
    destruct (Z.eqb_spec w1 0) as [|_]; [contradiction|].
    rewrite Hrc. cbn [Z.eqb negb].
    split.
    + intros Hge. destruct (Z.geb_spec w2 (w1 + 15)); [reflexivity | lia].
    + intros Hlt. destruct (Z.geb_spec w2 (w1 + 15)); [lia |].
      destruct (Z.ltb_spec w1 (min_counter sub)); [leaf|].
      destruct (have_max_age sub) eqn:Hage; [|leaf].
      destruct now_mono as [now|]; [|leaf].
      cbn. destruct (_ >? 0); leaf.
Qed.

(** The return code and the difference of a read do not depend on the
    caller's buffers. *)
Lemma read_leg_buffers (r : reading) (t1 t2 mono : option timespec) :
  out_rc (read_leg r t1 t2 mono) = out_rc (read_leg r None None None) /\
  out_diff (read_leg r t1 t2 mono) = out_diff (read_leg r None None None).
Proof.
  unfold read_leg, clockfeed_compare_to_sys.
  repeat (case_match; cbn; try done).
Qed.

(** C5.  When the sample a read takes (source not marked inactive, clock
    active, at least one write) carries a non-zero result code, the read
    returns 0 with a zero difference, writes none of the caller's time
    buffers and leaves the subscription as it is.  A comparison of that
    subscription against the system clock then returns 0 with a zero
    difference (zero minus zero when the subscription is the second
    argument).  In a comparison of two subscriptions of which neither
    has a maximal age difference set, the leg contributes zero and the
    result is the other leg's: as the first leg, the comparison returns
    what the read of the second subscription returns, with zero minus
    that read's difference when it returns 0 and zero otherwise; as the
    second leg, after a first read that returned 0, the comparison
    returns 0 with the first read's difference minus zero. *)
Theorem compare_failed_sample_is_zero_offset
    (r : reading) (t1 t2 mono : option timespec)
    (stack_mono1 stack_mono2 : timespec) :
  let w1 := to_int (write_counter (s_shm (r_src r))) in
  let sample := sample_at (s_shm (r_src r)) ((w1 - 1) mod 16) in
  s_inactive (r_src r) = false ->
  r_clock_active r = true ->
  w1 <> 0 ->
  rc sample <> 0 ->
  (let o := read_leg r t1 t2 mono in
   out_rc o = 0 /\ out_diff o = timespec_zero /\
   out_t1 o = t1 /\ out_t2 o = t2 /\ out_mono o = mono /\
   out_sub o = r_sub r) /\
  (let c := sfptpd_clockfeed_compare (Some r) None t1 t2 mono
              stack_mono1 stack_mono2 in
   cr_rc c = 0 /\ cr_diff c = timespec_zero) /\
  (let c := sfptpd_clockfeed_compare None (Some r) t1 t2 mono
              stack_mono1 stack_mono2 in
   cr_rc c = 0 /\
   cr_diff c = sfptpd_time_subtract timespec_zero timespec_zero) /\
  (forall r2,
     have_max_age_diff (r_sub r) = false ->
     have_max_age_diff (r_sub r2) = false ->
     let c := sfptpd_clockfeed_compare (Some r) (Some r2) t1 t2 mono
                stack_mono1 stack_mono2 in
     let o2 := read_leg r2 None None None in
     cr_rc c = out_rc o2 /\
     cr_diff c = (if out_rc o2 =? 0
                  then sfptpd_time_subtract timespec_zero (out_diff o2)
                  else timespec_zero) /\
     cr_t1 c = t1 /\ cr_sub1 c = Some (r_sub r)) /\
  (forall r1,
     have_max_age_diff (r_sub r1) = false ->
     have_max_age_diff (r_sub r) = false ->
     out_rc (read_leg r1 None None None) = 0 ->
     let c := sfptpd_clockfeed_compare (Some r1) (Some r) t1 t2 mono
                stack_mono1 stack_mono2 in
     cr_rc c = 0 /\
     cr_diff c = sfptpd_time_subtract
                   (out_diff (read_leg r1 None None None)) timespec_zero /\
     cr_t2 c = t2 /\ cr_sub2 c = Some (r_sub r)).
Proof.
  intros w1 sample Hact Hclk Hnz Hrc.
  assert (Hleg : forall a b c,
             read_leg r a b c =
             {| out_rc := 0; out_diff := timespec_zero; out_t1 := a;
                out_t2 := b; out_mono := c; out_sub := r_sub r |}).
  { intros a b c. unfold read_leg, clockfeed_compare_to_sys.
    rewrite Hact, Hclk. cbn [negb]. fold w1. rewrite ring_index. fold sample.
    destruct (Z.eqb_spec w1 0); [contradiction|].
    destruct (Z.eqb_spec (rc sample) 0); [contradiction|].
    reflexivity. }
  split_and!.
  - cbn zeta. rewrite Hleg. cbn. split_and!; reflexivity.
  - cbn zeta. unfold sfptpd_clockfeed_compare.
    cbn [non_null choose_max_age_diff]. rewrite Hleg.
    destruct mono; cbn; split; reflexivity.
  - cbn zeta. unfold sfptpd_clockfeed_compare.
    cbn [non_null choose_max_age_diff Z.eqb]. rewrite Hleg.
    destruct mono; cbn; split; reflexivity.
  - intros r2 Hm1 Hm2 c o2. subst c o2.
    unfold sfptpd_clockfeed_compare, choose_max_age_diff.
    rewrite Hm1, Hm2. cbn [andb non_null].
    replace (match mono with Some _ => mono | None => mono end)
      with mono by (by destruct mono).
    rewrite Hleg.
    cbn [out_rc out_diff out_t1 out_t2 out_mono out_sub Z.eqb].
    destruct (read_leg_buffers r2 t2 None ((fun _ => stack_mono2) <$> mono))
      as [Erc Ediff].
    rewrite Erc. destruct (out_rc (read_leg r2 None None None) =? 0) eqn:E2.
    + cbn [cr_rc cr_diff cr_t1 cr_sub1]. rewrite Ediff.
      apply Z.eqb_eq in E2. split_and!; done.
    + cbn [cr_rc cr_diff cr_t1 cr_sub1]. split_and!; done.
  - intros r1 Hm1 Hm2 Hok c. subst c.
    unfold sfptpd_clockfeed_compare, choose_max_age_diff.
    rewrite Hm1, Hm2. cbn [andb non_null].
    replace (match mono with Some _ => mono | None => mono end)
      with mono by (by destruct mono).
    destruct (read_leg_buffers r1 t1 None mono) as [Erc Ediff].
    rewrite Erc, Hok, Ediff. cbn [Z.eqb]. rewrite Hleg.
    cbn [out_rc out_diff out_t1 out_t2 out_mono out_sub Z.eqb].
    destruct (out_mono (read_leg r1 t1 None mono));
      cbn [cr_rc cr_diff cr_t2 cr_sub2]; split_and!; done.
Qed.

End Ring.

(** C1, as stated, fails on two inputs.  A source that has been removed
    and never written ([w1 = 0]) reads as [EOWNERDEAD], not as NO_DATA;
    and when the newest sample carries an error, a lapped reader
    ([w1 = 1], [w2 = 16 >= w1 + 15]) is told 0, not OVERRUN. *)
Lemma ring_read_as_stated_fails :
  (to_int (write_counter (s_shm (source_with sample_zero 0 true))) = 0 /\
   out_rc (clockfeed_compare_to_sys (time_ops := plain_time_ops)
             (source_with sample_zero 0 true) (new_sub 10)
             true 0 None None None None) <> EAGAIN) /\
  (to_int (write_counter (s_shm (source_with (failed_sample 0) 1 false))) = 1 /\
   to_int 16 >= 1 + 15 /\
   out_rc (clockfeed_compare_to_sys (time_ops := plain_time_ops)
             (source_with (failed_sample 0) 1 false) (new_sub 10)
             true 16 None None None None) <> ENODATA).
Proof. vm_compute. repeat split; discriminate. Qed.

Lemma compare_to_sys_ring_read_witness :
  out_rc (clockfeed_compare_to_sys (time_ops := plain_time_ops)
            (source_with (good_sample 2) 3 false) (new_sub 10)
            true 18 None None None None) = ENODATA /\
  out_rc (clockfeed_compare_to_sys (time_ops := plain_time_ops)
            (source_with (good_sample 2) 3 false) (new_sub 10)
            true 17 None None None None) = 0.
Proof.
  pose proof (compare_to_sys_ring_read (time_ops := plain_time_ops)
                (source_with (good_sample 2) 3 false) (new_sub 10)
                18 None None None None eq_refl ltac:(vm_compute; discriminate))
    as [_ H18].
  pose proof (compare_to_sys_ring_read (time_ops := plain_time_ops)
                (source_with (good_sample 2) 3 false) (new_sub 10)
                17 None None None None eq_refl ltac:(vm_compute; discriminate))
    as [_ H17].
  split.
  - apply H18; [vm_compute; discriminate | reflexivity
                | vm_compute; discriminate].
  - apply H17; [vm_compute; discriminate | reflexivity | reflexivity
                | vm_compute; discriminate | reflexivity].
Defined.

(** C5, as stated, fails in a comparison of two subscriptions.  The first
    leg reads a sample that carries the result code 5.  When the clock of
    the second subscription is not active, the comparison returns
    [ENOENT]; and when the second leg reads a good sample and the first
    subscription has a maximal age difference of one second, the failed
    leg leaves the caller's monotonic time (here zero) unwritten and the
    comparison returns [ESTALE]. *)
Lemma compare_failed_sample_as_stated_fails :
  rc (newest_sample (source_with (failed_sample 4) 5 false)) = 5 /\
  cr_rc (sfptpd_clockfeed_compare (time_ops := plain_time_ops)
           (Some {| r_sub := new_sub 10;
                    r_src := source_with (failed_sample 4) 5 false;
                    r_clock_active := true; r_reread := 5;
                    r_now := None |})
           (Some {| r_sub := new_sub 11;
                    r_src := source_with (good_sample 2) 3 false;
                    r_clock_active := false; r_reread := 3;
                    r_now := None |})
           None None None timespec_zero timespec_zero) = ENOENT /\
  cr_rc (sfptpd_clockfeed_compare (time_ops := plain_time_ops)
           (Some {| r_sub := sfptpd_clockfeed_set_max_age_diff (new_sub 10)
                               {| tv_sec := 1; tv_nsec := 0 |};
                    r_src := source_with (failed_sample 4) 5 false;
                    r_clock_active := true; r_reread := 5;
                    r_now := None |})
           (Some {| r_sub := new_sub 11;
                    r_src := source_with (good_sample 2) 3 false;
                    r_clock_active := true; r_reread := 3;
                    r_now := None |})
           None None (Some timespec_zero) timespec_zero timespec_zero)
    = ESTALE.
Proof. vm_compute. repeat split. Qed.

Lemma compare_failed_sample_is_zero_offset_witness :
  cr_rc (sfptpd_clockfeed_compare (time_ops := plain_time_ops)
           (Some {| r_sub := new_sub 10;
                    r_src := source_with (failed_sample 4) 5 false;
                    r_clock_active := true; r_reread := 5;
                    r_now := None |})
           None None None None timespec_zero timespec_zero) = 0 /\
  cr_diff (sfptpd_clockfeed_compare (time_ops := plain_time_ops)
           (Some {| r_sub := new_sub 10;
                    r_src := source_with (failed_sample 4) 5 false;
                    r_clock_active := true; r_reread := 5;
                    r_now := None |})
           None None None None timespec_zero timespec_zero)
    = timespec_zero.
Proof.
  refine (proj1 (proj2
    (compare_failed_sample_is_zero_offset (time_ops := plain_time_ops)
       {| r_sub := new_sub 10;
          r_src := source_with (failed_sample 4) 5 false;
          r_clock_active := true; r_reread := 5; r_now := None |}
       None None None timespec_zero timespec_zero _ _ _ _)));
    [reflexivity | reflexivity | vm_compute; discriminate
     | vm_compute; discriminate].
Defined.


(** ** Walking a list *)

Lemma walk_stops_at_head stop q l :
  stop q = Some true -> walk stop (q :: l) = Some ([], q :: l).
Proof. intros H. cbn. rewrite H. reflexivity. Qed.

(** A walk splits the list where it stops: the cells passed did not stop
    it, and the first cell of the rest did. *)
Lemma walk_split stop l pre post :
  walk stop l = Some (pre, post) ->
  l = pre ++ post /\
  Forall (fun q => stop q = Some false) pre /\
  match post with
  | q :: _ => stop q = Some true
  | [] => True
  end.
Proof.
  revert pre post. induction l as [|q l IH]; intros pre post; cbn.
  - intros [= <- <-]. auto.
  - destruct (stop q) as [[|]|] eqn:Hq; cbn; [| |discriminate].
    + intros [= <- <-]. auto.
    + destruct (walk stop l) as [[pre' post']|]; cbn; [|discriminate].
      intros [= <- <-]. destruct (IH _ _ eq_refl) as (-> & Hpre & Hpost).
      auto.
Qed.

(** A walk that can decide every cell returns. *)
Lemma walk_defined stop l :
  Forall (fun q => is_Some (stop q)) l -> is_Some (walk stop l).
Proof.
  induction 1 as [|q l [b Hq] _ [[pre post] IH]]; cbn; [eauto|].
  rewrite Hq. cbn. destruct b; [eauto|]. rewrite IH. cbn. eauto.
Qed.

(** ** Freeing sources *)

Lemma walk_stop_at_finds {A} (heap : gmap positive A) p l :
  p ∈ l ->
  (forall q, q ∈ l -> is_Some (heap !! q)) ->
  exists pre post,
    walk (stop_at heap p) l = Some (pre, p :: post) /\
    l = pre ++ p :: post /\ p ∉ pre.
Proof.
  induction l as [|q l IH]; intros Hin Hheap.
  - by apply elem_of_nil in Hin.
  - destruct (decide (q = p)) as [->|Hne].
    + exists [], l. rewrite walk_stops_at_head.
      * split_and!; [done..|]. apply not_elem_of_nil.
      * unfold stop_at. by rewrite decide_True.
    + apply elem_of_cons in Hin as [->|Hin]; [done|].
      destruct IH as (pre & post & Hw & -> & Hpre);
        [done | intros; apply Hheap; by right |].
      exists (q :: pre), post.
      assert (Hstop : stop_at heap p q = Some false).
      { unfold stop_at. rewrite decide_False by done.
        destruct (Hheap q) as [x ->]; [by left | done]. }
      cbn [walk]. rewrite Hstop. cbn [mbind option_bind]. rewrite Hw.
      split_and!; [done..|]. intros [->|?]%elem_of_cons; done.
Qed.

Lemma walk_clock_result heap c l :
  (forall q, q ∈ l -> is_Some (heap !! q)) ->
  exists pre post,
    walk (stop_at_clock heap c) l = Some (pre, post) /\
    l = pre ++ post /\
    match post with
    | p :: _ => exists s, heap !! p = Some s /\ s_clock s = c
    | [] => True
    end.
Proof.
  intros Hheap.
  destruct (walk_defined (stop_at_clock heap c) l) as [[pre post] Hw].
  { apply Forall_forall. intros q Hq. destruct (Hheap q Hq) as [s Hs].
    unfold stop_at_clock. rewrite Hs. cbn. eauto. }
  exists pre, post. destruct (walk_split _ _ _ _ Hw) as (-> & _ & Hpost).
  split_and!; [done..|]. destruct post as [|p post]; [done|].
  unfold stop_at_clock in Hpost.
  destruct (heap !! p) as [s|] eqn:Hs; [|done]. cbn in Hpost.
  exists s. split; [done|]. injection Hpost as Hb.
  by apply bool_decide_eq_true_1 in Hb.
Qed.

(** [clockfeed_reap_zombies] frees nothing but its argument, and that only
    when it is marked inactive and has no subscriber. *)
Lemma reap_frees_only st p st' x sx :
  clockfeed_reap_zombies st p = Some st' ->
  sources st !! x = Some sx ->
  sources st' !! x = None ->
  x = p /\ s_inactive sx = true /\ s_subscribers sx = [].
Proof.
  unfold clockfeed_reap_zombies. intros Hreap Hx Hfreed.
  destruct (sources st !! p) as [s|] eqn:Hs; [|done]. cbn in Hreap.
  destruct (s_inactive s && bool_decide (s_subscribers s = [])) eqn:Hz.
  - destruct (walk _ _) as [[pre [|q post]]|]; cbn in Hreap; [done| |done].
    injection Hreap as <-. cbn in Hfreed.
    apply lookup_delete_None in Hfreed as [->|Hfreed]; [|congruence].
    assert (sx = s) as -> by congruence.
    apply andb_prop in Hz as [? Hn]. by apply bool_decide_eq_true_1 in Hn.
  - injection Hreap as <-. congruence.
Qed.

(** It reads neither the subscriptions' cells nor changes them. *)
Lemma reap_subs m srcs X Y p :
  clockfeed_reap_zombies {| module := m; sources := srcs; subs := X |} p
  = (fun st' => {| module := module st'; sources := sources st';
                   subs := X |})
      <$> clockfeed_reap_zombies
            {| module := m; sources := srcs; subs := Y |} p.
Proof.
  unfold clockfeed_reap_zombies. cbn [module sources subs].
  destruct (srcs !! p) as [s|]; [|done]. cbn [mbind option_bind].
  destruct (_ && _); [|done].
  destruct (walk _ _) as [[pre [|q post]]|]; done.
Qed.

(** On a well-formed state it returns, the state stays well formed, and
    an inactive source without subscribers is gone from the heap and from
    the inactive list. *)
Lemma reap_well_formed st p s :
  well_formed st ->
  sources st !! p = Some s ->
  exists st',
    clockfeed_reap_zombies st p = Some st' /\
    well_formed st' /\
    subs st' = subs st /\
    m_active (module st') = m_active (module st) /\
    m_event_subscribers (module st') = m_event_subscribers (module st) /\
    if s_inactive s && bool_decide (s_subscribers s = [])
    then sources st' = delete p (sources st) /\
         p ∉ m_inactive (module st')
    else st' = st.
Proof.
  intros Hwf Hs. unfold clockfeed_reap_zombies. rewrite Hs.
  cbn [mbind option_bind].
  destruct (s_inactive s && bool_decide (s_subscribers s = [])) eqn:Hz;
    [|by eauto 10].
  apply andb_prop in Hz as [Hin Hnil]. apply bool_decide_eq_true_1 in Hnil.
  pose proof (wf_nodup _ Hwf) as Hnd.
  apply (wf_flag _ Hwf p s Hs) in Hin.
  destruct (walk_stop_at_finds (sources st) p (m_inactive (module st)))
    as (pre & post & -> & Hl & Hpre); [done | |].
  { intros q Hq. apply (wf_listed _ Hwf). apply elem_of_app. by right. }
  cbn [mbind option_bind]. eexists. split; [done|].
  rewrite Hl in Hnd.
  apply NoDup_app in Hnd as (Hnda & Hdisj & Hndi).
  apply NoDup_app in Hndi as (Hndpre & Hdisj' & Hndpost).
  apply NoDup_cons in Hndpost as [Hppost Hndpost].
  assert (Hp : p ∉ m_active (module st) ++ pre ++ post).
  { rewrite !elem_of_app. intros [Ha|[?|?]]; [|done..].
    apply (Hdisj p Ha). set_solver. }
  assert (Hmem : forall q,
             q ∈ m_active (module st) ++ pre ++ post <->
             q <> p /\ q ∈ m_active (module st) ++ m_inactive (module st)).
  { intros q. rewrite Hl. split.
    - intros Hq. split; [intros ->; done|]. set_solver.
    - intros [Hne Hq]. set_solver. }
  split_and!; cbn; [|done..| ].
  - split; cbn.
    + apply NoDup_app. split_and!; [done| |].
      * intros q Ha Hq. apply (Hdisj q Ha). set_solver.
      * apply NoDup_app. split_and!; [done| |done].
        intros q Hq1 Hq2. apply (Hdisj' q Hq1). by right.
    + intros q. rewrite Hmem, <- (wf_listed _ Hwf).
      rewrite lookup_delete_is_Some. naive_solver.
    + intros q sq [Hne Hq]%lookup_delete_Some.
      rewrite (wf_flag _ Hwf q sq Hq), Hl. set_solver.
    + intros q sq [Hne Hq]%lookup_delete_Some.
      by apply (wf_subs_nodup _ Hwf q).
    + intros q sub Hq.
      destruct (wf_sub_source _ Hwf q sub Hq) as (sq & Hsq & Hmemq).
      exists sq. split; [|done]. apply lookup_delete_Some. split; [|done].
      intros Heq. rewrite <- Heq in Hsq.
      assert (sq = s) as -> by congruence.
      rewrite Hnil in Hmemq. by apply elem_of_nil in Hmemq.
    + intros q sq r [Hne Hq]%lookup_delete_Some Hr.
      by apply (wf_subscriber _ Hwf q sq r).
  - set_solver.
Qed.

(** Each handler keeps the state well formed. *)
Lemma add_clock_well_formed st c l p :
  well_formed st ->
  sources st !! p = None ->
  well_formed (clockfeed_on_add_clock st c l p).
Proof.
  intros Hwf Hfresh.
  assert (Hp : p ∉ m_active (module st) ++ m_inactive (module st)).
  { intros Hp%(wf_listed _ Hwf). rewrite Hfresh in Hp. by destruct Hp. }
  split; cbn.
  - apply NoDup_cons. split; [done | apply (wf_nodup _ Hwf)].
  - intros q. rewrite lookup_insert_is_Some, elem_of_cons, (wf_listed _ Hwf).
    destruct (decide (p = q)); naive_solver.
  - intros q sq [[<- <-]|[Hne Hq]]%lookup_insert_Some; cbn.
    + split; [done|]. intros Hin. destruct Hp. set_solver.
    + by apply (wf_flag _ Hwf).
  - intros q sq [[<- <-]|[Hne Hq]]%lookup_insert_Some; cbn.
    + apply NoDup_nil_2.
    + by apply (wf_subs_nodup _ Hwf q).
  - intros q sub Hq.
    destruct (wf_sub_source _ Hwf q sub Hq) as (sq & Hsq & Hmem).
    exists sq. split; [|done]. rewrite lookup_insert_ne; [done|].
    intros ->. congruence.
  - intros q sq r [[<- <-]|[Hne Hq]]%lookup_insert_Some; cbn.
    + by intros ?%elem_of_nil.
    + by apply (wf_subscriber _ Hwf q).
Qed.

Lemma remove_clock_well_formed st c :
  well_formed st ->
  exists st',
    clockfeed_on_remove_clock st c = Some st' /\
    well_formed st' /\
    subs st' = subs st /\
    forall x sx,
      sources st !! x = Some sx -> sources st' !! x = None ->
      s_clock sx = c /\ s_subscribers sx = [].
Proof.
  intros Hwf. unfold clockfeed_on_remove_clock.
  destruct (walk_clock_result (sources st) c (m_active (module st)))
    as (pre & post & -> & Hl & Hpost).
  { intros q Hq. apply (wf_listed _ Hwf). apply elem_of_app. by left. }
  cbn [mbind option_bind].
  destruct post as [|p post].
  { exists st. split_and!; [done..|]. intros x sx Hx Hx'. congruence. }
  destruct Hpost as (s & Hs & Hc). rewrite Hs. cbn [mbind option_bind].
  set (st1 := {| module := _; sources := _; subs := _ |}).
  pose proof (wf_nodup _ Hwf) as Hnd. rewrite Hl in Hnd.
  assert (Hperm : (pre ++ post) ++ p :: m_inactive (module st)
                  ≡ₚ (pre ++ p :: post) ++ m_inactive (module st)).
  { rewrite <- !app_assoc. cbn. f_equiv. symmetry.
    apply Permutation_middle. }
  assert (Hpin : p ∉ m_inactive (module st)).
  { apply NoDup_app in Hnd as (_ & Hdisj & _). apply Hdisj. set_solver. }
  assert (Hwf1 : well_formed st1).
  { split; cbn.
    - by rewrite Hperm.
    - intros q. rewrite Hperm, <- Hl, <- (wf_listed _ Hwf).
      rewrite lookup_insert_is_Some.
      destruct (decide (p = q)) as [<-|]; [|naive_solver].
      split; [eauto | auto].
    - intros q sq [[<- <-]|[Hne Hq]]%lookup_insert_Some; cbn.
      + split; [set_solver | done].
      + rewrite (wf_flag _ Hwf q sq Hq). set_solver.
    - intros q sq [[<- <-]|[Hne Hq]]%lookup_insert_Some; cbn.
      + by apply (wf_subs_nodup _ Hwf p).
      + by apply (wf_subs_nodup _ Hwf q).
    - intros q sub Hq.
      destruct (wf_sub_source _ Hwf q sub Hq) as (sq & Hsq & Hmem).
      destruct (decide (source sub = p)) as [Heq|Hne].
      + exists (set_inactive s true). rewrite Heq, lookup_insert_eq.
        split; [done|]. cbn. congruence.
      + exists sq. by rewrite lookup_insert_ne.
    - intros q sq r [[<- <-]|[Hne Hq]]%lookup_insert_Some; cbn.
      + by apply (wf_subscriber _ Hwf p).
      + by apply (wf_subscriber _ Hwf q). }
  destruct (reap_well_formed st1 p (set_inactive s true) Hwf1)
    as (st' & Hreap & Hwf' & Hsubs & _ & _ & _).
  { apply lookup_insert_eq. }
  exists st'. split_and!; [done..|].
  intros x sx Hx Hx'.
  assert (Hx1 : exists sx1, sources st1 !! x = Some sx1 /\
                            s_clock sx1 = s_clock sx /\
                            s_subscribers sx1 = s_subscribers sx /\
                            (x = p -> sx = s)).
  { cbn. destruct (decide (x = p)) as [->|Hne].
    - exists (set_inactive s true). rewrite lookup_insert_eq.
      assert (sx = s) as -> by congruence. done.
    - exists sx. rewrite lookup_insert_ne by done. done. }
  destruct Hx1 as (sx1 & Hx1 & Hc1 & Hs1 & Heq).
  destruct (reap_frees_only _ _ _ _ _ Hreap Hx1 Hx') as (-> & _ & Hnil).
  rewrite (Heq eq_refl) in *. split; congruence.
Qed.

Lemma link_subscriber_well_formed st p s q :
  well_formed st ->
  sources st !! p = Some s ->
  subs st !! q = None ->
  well_formed
    {| module := module st;
       sources :=
         <[p := set_subscribers s (q :: s_subscribers s)]> (sources st);
       subs := <[q := new_sub p]> (subs st) |}.
Proof.
  intros Hwf Hs Hfresh.
  assert (Hq : forall p' s', sources st !! p' = Some s' ->
                             q ∉ s_subscribers s').
  { intros p' s' Hs' Hin.
    destruct (wf_subscriber _ Hwf p' s' q Hs' Hin) as (? & ? & _).
    congruence. }
  split; cbn.
  - apply (wf_nodup _ Hwf).
  - intros x. rewrite lookup_insert_is_Some, <- (wf_listed _ Hwf).
    destruct (decide (p = x)) as [<-|]; [|naive_solver].
    split; [eauto | auto].
  - intros x sx [[<- <-]|[Hne Hx]]%lookup_insert_Some; cbn;
      by apply (wf_flag _ Hwf).
  - intros x sx [[<- <-]|[Hne Hx]]%lookup_insert_Some; cbn.
    + apply NoDup_cons. split; [by eapply Hq | by apply (wf_subs_nodup _ Hwf p)].
    + by apply (wf_subs_nodup _ Hwf x).
  - intros r sub [[<- <-]|[Hne Hr]]%lookup_insert_Some; cbn.
    + eexists. rewrite lookup_insert_eq. split; [done|]. cbn. by left.
    + destruct (wf_sub_source _ Hwf r sub Hr) as (sr & Hsr & Hmem).
      destruct (decide (p = source sub)) as [Heq|Hne'].
      * eexists. rewrite <- Heq, lookup_insert_eq. split; [done|]. cbn.
        right. congruence.
      * exists sr. by rewrite lookup_insert_ne.
  - intros x sx r [[<- <-]|[Hne Hx]]%lookup_insert_Some; cbn.
    + intros [->|Hr]%elem_of_cons.
      * eexists. by rewrite lookup_insert_eq.
      * destruct (wf_subscriber _ Hwf p s r Hs Hr) as (sub & Hsub & Hsrc).
        exists sub. rewrite lookup_insert_ne; [done|]. intros ->. congruence.
    + intros Hr.
      destruct (wf_subscriber _ Hwf x sx r Hx Hr) as (sub & Hsub & Hsrc).
      exists sub. rewrite lookup_insert_ne; [done|]. intros ->. congruence.
Qed.

Lemma subscribe_well_formed st c q :
  well_formed st ->
  subs st !! q = None ->
  exists st' r,
    clockfeed_on_subscribe st c q = Some (st', r) /\
    well_formed st' /\
    (forall x, sources st' !! x = None -> sources st !! x = None) /\
    (forall r sub, subs st !! r = Some sub -> subs st' !! r = Some sub).
Proof.
  intros Hwf Hfresh. unfold clockfeed_on_subscribe.
  destruct (walk_clock_result (sources st) c (m_active (module st)))
    as (pre & post & -> & _ & Hpost).
  { intros x Hx. apply (wf_listed _ Hwf). apply elem_of_app. by left. }
  cbn [mbind option_bind].
  assert (Hlink : forall p s,
             sources st !! p = Some s ->
             exists st' r,
               (s ← sources st !! p;
                Some ({| module := module st;
                         sources :=
                           <[p := set_subscribers s (q :: s_subscribers s)]>
                             (sources st);
                         subs := <[q := new_sub p]> (subs st) |}, Some q))
               = Some (st', r) /\
               well_formed st' /\
               (forall x, sources st' !! x = None -> sources st !! x = None) /\
               (forall r sub, subs st !! r = Some sub ->
                              subs st' !! r = Some sub)).
  { intros p s Hs. rewrite Hs. cbn [mbind option_bind].
    eexists _, _. split; [reflexivity|].
    split; [by apply link_subscriber_well_formed|].
    cbn. split.
    - intros x [Hx _]%lookup_insert_None. done.
    - intros r sub Hr. rewrite lookup_insert_ne; [done|]. intros ->.
      congruence. }
  destruct post as [|p post].
  - destruct (walk_clock_result (sources st) c (m_inactive (module st)))
      as (pre' & post' & -> & _ & Hpost').
    { intros x Hx. apply (wf_listed _ Hwf). apply elem_of_app. by right. }
    cbn [mbind option_bind].
    destruct post' as [|p post']; cbn [head].
    + by exists st, None.
    + destruct Hpost' as (s & Hs & _). by apply (Hlink p s).
  - cbn [mbind option_bind]. destruct Hpost as (s & Hs & _).
    by apply (Hlink p s).
Qed.

Lemma unsubscribe_well_formed st q sub :
  well_formed st ->
  subs st !! q = Some sub ->
  exists st',
    clockfeed_on_unsubscribe st q = Some st' /\
    well_formed st' /\
    subs st' = delete q (subs st) /\
    (forall x sx,
       sources st !! x = Some sx -> sources st' !! x = None ->
       x = source sub /\ s_inactive sx = true /\ s_subscribers sx = [q]) /\
    (forall s,
       sources st !! source sub = Some s ->
       s_inactive s = true -> s_subscribers s = [q] ->
       sources st' !! source sub = None /\
       source sub ∉ m_inactive (module st')).
Proof.
  intros Hwf Hq. unfold clockfeed_on_unsubscribe. rewrite Hq.
  cbn [mbind option_bind].
  destruct (wf_sub_source _ Hwf q sub Hq) as (s & Hs & Hmem).
  rewrite Hs. cbn [mbind option_bind].
  destruct (walk_stop_at_finds (subs st) q (s_subscribers s))
    as (pre & post & -> & Hl & Hpre); [done | |].
  { intros r Hr. destruct (wf_subscriber _ Hwf _ s r Hs Hr) as (? & -> & _).
    eauto. }
  cbn [mbind option_bind].
  pose proof (wf_subs_nodup _ Hwf _ s Hs) as Hnd. rewrite Hl in Hnd.
  assert (Hqn : q ∉ pre ++ post).
  { apply NoDup_app in Hnd as (_ & _ & [? _]%NoDup_cons). set_solver. }
  set (s' := set_subscribers s (pre ++ post)).
  set (st1 := {| module := module st;
                 sources := <[source sub := s']> (sources st);
                 subs := delete q (subs st) |}).
  assert (Hwf1 : well_formed st1).
  { split; cbn.
    - apply (wf_nodup _ Hwf).
    - intros x. rewrite lookup_insert_is_Some, <- (wf_listed _ Hwf).
      destruct (decide (source sub = x)) as [<-|]; [|naive_solver].
      split; [eauto | auto].
    - intros x sx [[<- <-]|[Hne Hx]]%lookup_insert_Some; cbn;
        by apply (wf_flag _ Hwf).
    - intros x sx [[<- <-]|[Hne Hx]]%lookup_insert_Some; cbn.
      + apply NoDup_app in Hnd as (? & Hdisj & [_ ?]%NoDup_cons).
        apply NoDup_app. split_and!; [done | | done].
        intros r Hr1 Hr2. apply (Hdisj r Hr1). by right.
      + by apply (wf_subs_nodup _ Hwf x).
    - intros r subr [Hne Hr]%lookup_delete_Some.
      destruct (wf_sub_source _ Hwf r subr Hr) as (sr & Hsr & Hmemr).
      destruct (decide (source sub = source subr)) as [Heq|Hne'].
      + exists s'. rewrite <- Heq, lookup_insert_eq. split; [done|]. cbn.
        rewrite <- Heq in Hsr. assert (sr = s) as -> by congruence.
        rewrite Hl in Hmemr. set_solver.
      + exists sr. by rewrite lookup_insert_ne.
    - intros x sx r [[<- <-]|[Hne Hx]]%lookup_insert_Some; cbn.
      + intros Hr.
        destruct (wf_subscriber _ Hwf _ s r Hs) as (subr & Hsubr & Hsrc).
        { rewrite Hl. set_solver. }
        exists subr. rewrite lookup_delete_ne; [done|]. intros ->. done.
      + intros Hr.
        destruct (wf_subscriber _ Hwf x sx r Hx Hr) as (subr & Hsubr & Hsrc).
        exists subr. rewrite lookup_delete_ne; [done|]. intros ->.
        congruence. }
  destruct (reap_well_formed st1 (source sub) s' Hwf1)
    as (st2 & Hreap & Hwf2 & Hsubs2 & _ & _ & Hres).
  { apply lookup_insert_eq. }
  rewrite (reap_subs (module st) _ (subs st) (delete q (subs st))).
  fold s'. fold st1. rewrite Hreap. cbn [fmap option_fmap option_map mbind
                                          option_bind module sources].
  exists st2. split_and!.
  - f_equal. destruct st2; cbn in *. by rewrite Hsubs2.
  - done.
  - done.
  - intros x sx Hx Hx'.
    assert (Hx1 : exists sx1, sources st1 !! x = Some sx1 /\
                              (x = source sub -> sx = s /\ sx1 = s')).
    { cbn. destruct (decide (x = source sub)) as [->|Hne].
      - exists s'. rewrite lookup_insert_eq.
        assert (sx = s) as -> by congruence. done.
      - exists sx. rewrite lookup_insert_ne by done. done. }
    destruct Hx1 as (sx1 & Hx1 & Heq).
    destruct (reap_frees_only _ _ _ _ _ Hreap Hx1 Hx') as (-> & Hin & Hnil).
    destruct (Heq eq_refl) as [-> ->]. cbn in Hin, Hnil.
    apply app_eq_nil in Hnil as [-> ->]. done.
  - intros s0 Hs0 Hin Hone.
    assert (s0 = s) as -> by congruence.
    assert (pre ++ post = []) as Hnil.
    { rewrite Hl in Hone. destruct pre as [|r pre]; cbn in Hone.
      - by injection Hone as ->.
      - injection Hone as -> Hone. destruct Hpre. by left. }
    subst s'. cbn [set_subscribers s_inactive s_subscribers] in Hres.
    rewrite Hin, Hnil in Hres. cbn in Hres. destruct Hres as [-> Hout].
    split; [apply lookup_delete_eq | done].
Qed.

Lemma on_message_well_formed st r st' :
  well_formed st ->
  valid_request st r ->
  clockfeed_on_message st r = Some st' ->
  well_formed st'.
Proof.
  intros Hwf Hvalid.
  destruct r as [c l p|c|c q|q]; cbn in Hvalid; cbn [clockfeed_on_message].
  - intros [= <-]. by apply add_clock_well_formed.
  - destruct (remove_clock_well_formed st c Hwf) as (? & -> & ? & _).
    by intros [= <-].
  - destruct (subscribe_well_formed st c q Hwf Hvalid)
      as (? & ? & -> & ? & _).
    by intros [= <-].
  - destruct Hvalid as [sub Hq].
    destruct (unsubscribe_well_formed st q sub Hwf Hq) as (? & -> & ? & _).
    by intros [= <-].
Qed.

(** Replacing the cells of allocated sources by cells with the same
    subscribers and the same flag keeps the state well formed. *)
Lemma relabel_well_formed st heap :
  well_formed st ->
  (forall p, heap !! p = None <-> sources st !! p = None) ->
  (forall p s s',
     sources st !! p = Some s -> heap !! p = Some s' ->
     s_subscribers s' = s_subscribers s /\ s_inactive s' = s_inactive s) ->
  well_formed {| module := module st; sources := heap; subs := subs st |}.
Proof.
  intros Hwf Hdom Hsame.
  assert (Hback : forall p s', heap !! p = Some s' ->
            exists s, sources st !! p = Some s /\
                      s_subscribers s' = s_subscribers s /\
                      s_inactive s' = s_inactive s).
  { intros p s' Hs'. destruct (sources st !! p) as [s|] eqn:Hs.
    - exists s. split; [done|]. by eapply Hsame.
    - apply Hdom in Hs. congruence. }
  assert (Hforth : forall p s, sources st !! p = Some s ->
            exists s', heap !! p = Some s' /\
                       s_subscribers s' = s_subscribers s /\
                       s_inactive s' = s_inactive s).
  { intros p s Hs. destruct (heap !! p) as [s'|] eqn:Hs'.
    - exists s'. split; [done|]. by eapply Hsame.
    - apply Hdom in Hs'. congruence. }
  split; cbn.
  - apply (wf_nodup _ Hwf).
  - intros p. rewrite <- (wf_listed _ Hwf), <- !not_eq_None_Some.
    by rewrite Hdom.
  - intros p s' (s & Hs & _ & ->)%Hback. by apply (wf_flag _ Hwf).
  - intros p s' (s & Hs & -> & _)%Hback. by apply (wf_subs_nodup _ Hwf p).
  - intros q sub Hq.
    destruct (wf_sub_source _ Hwf q sub Hq) as (s & Hs & Hmem).
    destruct (Hforth _ _ Hs) as (s' & Hs' & Hsubs & _).
    exists s'. by rewrite Hsubs.
  - intros p s' q (s & Hs & -> & _)%Hback. by apply (wf_subscriber _ Hwf p).
Qed.

Section Timer.

Context {time_ops : TimeOps}.

Lemma poll_sources_relabel m env l heap heap' :
  poll_sources m env l heap = Some heap' ->
  (forall p, heap' !! p = None <-> heap !! p = None) /\
  (forall p s s',
     heap !! p = Some s -> heap' !! p = Some s' ->
     s_subscribers s' = s_subscribers s /\ s_inactive s' = s_inactive s).
Proof.
  revert heap. induction l as [|q l IH]; intros heap; cbn.
  - intros [= <-]. split; [done|]. intros p s s' Hs Hs'.
    by assert (s' = s) as -> by congruence.
  - destruct (heap !! q) as [sq|] eqn:Hq; cbn; [|done].
    intros [Hdom Hsame]%IH. split.
    + intros p. rewrite Hdom, lookup_insert_None.
      split; [tauto|]. intros Hp. split; [done|]. intros ->. congruence.
    + intros p s s' Hs Hs'. destruct (decide (q = p)) as [->|Hne].
      * assert (s = sq) as -> by congruence.
        apply (Hsame p (poll_source m sq (env (s_clock sq)))); [|done].
        apply lookup_insert_eq.
      * apply (Hsame p s s'); [|done]. by rewrite lookup_insert_ne.
Qed.

Lemma on_timer_well_formed st env alloc_ok st' sent :
  well_formed st ->
  clockfeed_on_timer st env alloc_ok = Some (st', sent) ->
  well_formed st'.
Proof.
  intros Hwf. unfold clockfeed_on_timer.
  destruct (poll_sources _ _ _ _) as [heap|] eqn:Hpoll; cbn; [|done].
  intros [= <- _]. apply poll_sources_relabel in Hpoll as [Hdom Hsame].
  by apply relabel_well_formed.
Qed.

Lemma touch_sub_well_formed st q sub' st' :
  well_formed st -> touch_sub st q sub' = Some st' -> well_formed st'.
Proof.
  intros Hwf. unfold touch_sub.
  destruct (subs st !! q) as [sub|] eqn:Hq; cbn; [|done].
  destruct (decide _) as [Hsrc|]; [|done]. intros [= <-].
  split; cbn; try apply Hwf.
  - intros r subr [[<- <-]|[Hne Hr]]%lookup_insert_Some.
    + rewrite Hsrc. by apply (wf_sub_source _ Hwf).
    + by apply (wf_sub_source _ Hwf).
  - intros p s r Hs Hr.
    destruct (wf_subscriber _ Hwf p s r Hs Hr) as (subr & Hsubr & Hp).
    destruct (decide (q = r)) as [->|Hne].
    + exists sub'. rewrite lookup_insert_eq. split; [done|]. congruence.
    + exists subr. by rewrite lookup_insert_ne.
Qed.

(** Every state the service reaches is well formed. *)
Lemma reachable_well_formed st : reachable st -> well_formed st.
Proof.
  induction 1 as [l|st r st' _ IH Hvalid Hstep
                  |st env alloc_ok st' sent _ IH Htick
                  |st q sub' st' _ IH Hread].
  - split; cbn; try (intros ? ? ?); try (intros ?);
      rewrite ?lookup_empty; try done.
    + apply NoDup_nil_2.
    + rewrite is_Some_alt. set_solver.
  - by eapply on_message_well_formed.
  - by eapply on_timer_well_formed.
  - by eapply touch_sub_well_formed.
Qed.

End Timer.

Lemma busy_state_well_formed : well_formed busy_state.
Proof.
  split; cbn.
  - repeat constructor; set_solver.
  - intros p. rewrite !lookup_insert_is_Some, lookup_empty, is_Some_alt.
    set_solver.
  - intros p s
      [[<- <-]|[_ [[<- <-]|[_ H]]%lookup_insert_Some]]%lookup_insert_Some;
      [cbn; set_solver.. | by rewrite lookup_empty in H].
  - intros p s
      [[<- <-]|[_ [[<- <-]|[_ H]]%lookup_insert_Some]]%lookup_insert_Some;
      [cbn; repeat constructor; set_solver.. | by rewrite lookup_empty in H].
  - intros q sub
      [[<- <-]|[_ [[<- <-]|[_ H]]%lookup_insert_Some]]%lookup_insert_Some;
      [cbn; eexists; split; [reflexivity | cbn; set_solver]..
      | by rewrite lookup_empty in H].
  - intros p s q
      [[<- <-]|[_ [[<- <-]|[_ H]]%lookup_insert_Some]]%lookup_insert_Some;
      [cbn; intros ->%list_elem_of_singleton; eexists; split; reflexivity..
      | by rewrite lookup_empty in H].
Qed.

(** C4.  (1) [clockfeed_reap_zombies], the one place that frees a source,
    frees only the source it is given, and only when that source is marked
    inactive and has no subscriber, whatever the state; in every
    well-formed state, hence in every state the service reaches,
    (2) every add, remove, subscribe or unsubscribe request returns a
    well-formed state in which each subscription the request did not
    destroy is still allocated and still points to an allocated source,
    and a source the request freed had no subscriber when a remove freed
    it, and was inactive with the unsubscribed subscription as its only
    subscriber when an unsubscribe freed it; (3) unsubscribing the last
    subscriber of an inactive source frees the source, and unlinks it
    from the inactive list, within that unsubscribe. *)
Theorem source_freed_only_when_inactive_and_unsubscribed (st : feed_state) :
  well_formed st ->
  (forall st0 p st' x sx,
     clockfeed_reap_zombies st0 p = Some st' ->
     sources st0 !! x = Some sx ->
     sources st' !! x = None ->
     x = p /\ s_inactive sx = true /\ s_subscribers sx = []) /\
  (forall r,
     valid_request st r ->
     exists st',
       clockfeed_on_message st r = Some st' /\
       well_formed st' /\
       (forall q sub,
          subs st !! q = Some sub -> r <> UNSUBSCRIBE q ->
          subs st' !! q = Some sub /\
          is_Some (sources st' !! source sub)) /\
       (forall x sx,
          sources st !! x = Some sx -> sources st' !! x = None ->
          match r with
          | REMOVE_CLOCK c => s_clock sx = c /\ s_subscribers sx = []
          | UNSUBSCRIBE q => s_inactive sx = true /\ s_subscribers sx = [q]
          | _ => False
          end)) /\
  (forall q sub s,
     subs st !! q = Some sub ->
     sources st !! source sub = Some s ->
     s_inactive s = true ->
     s_subscribers s = [q] ->
     exists st',
       clockfeed_on_unsubscribe st q = Some st' /\
       sources st' !! source sub = None /\
       source sub ∉ m_inactive (module st') /\
       subs st' !! q = None).
Proof.
  intros Hwf. split_and!.
  - intros st0 p st' x sx. apply reap_frees_only.
  - intros r Hvalid.
    assert (Hlive : forall st',
               well_formed st' ->
               forall q sub,
                 subs st' !! q = Some sub ->
                 subs st' !! q = Some sub /\
                 is_Some (sources st' !! source sub)).
    { intros st' Hwf' q sub Hq. split; [done|].
      destruct (wf_sub_source _ Hwf' q sub Hq) as (? & -> & _). eauto. }
    destruct r as [c l p|c|c q|q]; cbn in Hvalid; cbn [clockfeed_on_message].
    + pose proof (add_clock_well_formed st c l p Hwf Hvalid) as Hwf'.
      eexists. split_and!; [done..| |].
      * intros q sub Hq _. by apply Hlive.
      * cbn. intros x sx Hx [Hx' _]%lookup_insert_None. congruence.
    + destruct (remove_clock_well_formed st c Hwf)
        as (st' & -> & Hwf' & Hsubs & Hfreed).
      exists st'. split_and!; [done..| |done].
      intros q sub Hq _. apply Hlive; [done|]. by rewrite Hsubs.
    + destruct (subscribe_well_formed st c q Hwf Hvalid)
        as (st' & r & -> & Hwf' & Hkept & Hsubs).
      exists st'. split_and!; [done..| |].
      * intros q' sub Hq _. apply Hlive; [done|]. by apply Hsubs.
      * intros x sx Hx Hx'. apply Hkept in Hx'. congruence.
    + destruct Hvalid as [sub Hq].
      destruct (unsubscribe_well_formed st q sub Hwf Hq)
        as (st' & -> & Hwf' & Hsubs & Hfreed & _).
      exists st'. split_and!; [done..| |].
      * intros q' sub' Hq' Hne. apply Hlive; [done|].
        rewrite Hsubs, lookup_delete_ne; [done|]. congruence.
      * intros x sx Hx Hx'. by destruct (Hfreed x sx Hx Hx') as (_ & ? & ?).
  - intros q sub s Hq Hs Hin Hone.
    destruct (unsubscribe_well_formed st q sub Hwf Hq)
      as (st' & -> & Hwf' & Hsubs & _ & Hlast).
    exists st'. destruct (Hlast s Hs Hin Hone) as [Hgone Hout].
    split_and!; [done..|]. rewrite Hsubs. apply lookup_delete_eq.
Qed.

Lemma source_freed_only_when_inactive_and_unsubscribed_witness :
  exists st',
    clockfeed_on_unsubscribe busy_state 21 = Some st' /\
    sources st' !! 11%positive = None /\
    11%positive ∉ m_inactive (module st') /\
    subs st' !! 21%positive = None.
Proof.
  destruct (source_freed_only_when_inactive_and_unsubscribed busy_state
              busy_state_well_formed) as (_ & _ & Hlast).
  apply (Hlast 21%positive (new_sub 11)
           {| s_clock := 8%positive; s_poll_period_log2 := 0;
              s_cycles := 0; s_shm := shm_zero;
              s_subscribers := [21%positive]; s_inactive := true |});
    reflexivity.
Defined.

(** ** The event-subscriber table *)

(** C7 (amended).  When the first [MAX_EVENT_SUBSCRIBERS] slots are all
    taken, [clockfeed_on_subscribe_events] sends no reply: it ends the
    thread it runs on, the clock feed's, with [ENOSPC] (NO_SPACE), and
    leaves the state, the subscriber table included, as it was. *)
Theorem subscribe_events_full_exits_feed_thread
    (st : feed_state) (thread : thread_t) :
  Forall (fun slot => slot <> None)
    (take MAX_EVENT_SUBSCRIBERS (m_event_subscribers (module st))) ->
  clockfeed_on_subscribe_events st thread = (st, THREAD_EXIT ENOSPC).
Proof.
  intros Hfull. unfold clockfeed_on_subscribe_events.
  destruct (list_find _ _) as [[i slot]|] eqn:E; [|reflexivity].
  apply list_find_Some in E as (Hi & Hslot & _).
  rewrite Forall_lookup in Hfull. destruct (Hfull _ _ Hi Hslot).
Qed.

Lemma subscribe_events_full_exits_feed_thread_witness :
  clockfeed_on_subscribe_events busy_state 5
  = (busy_state, THREAD_EXIT ENOSPC).
Proof.
  apply (subscribe_events_full_exits_feed_thread busy_state 5).
  cbn. repeat constructor; discriminate.
Defined.

(** C7, as stated, fails: with the four slots taken the requester is
    sent no reply carrying NO_SPACE; the handler ends the feed's own
    thread. *)
Lemma subscribe_events_full_as_stated_fails :
  take MAX_EVENT_SUBSCRIBERS (m_event_subscribers (module busy_state))
  = [Some 1; Some 2; Some 3; Some 4]%positive /\
  snd (clockfeed_on_subscribe_events busy_state 5) <> MSG_REPLY /\
  snd (clockfeed_on_subscribe_events busy_state 5) = THREAD_EXIT ENOSPC.
Proof. cbn. repeat split. discriminate. Qed.

(** ** Registration round trip *)

(** C9.  [add_clock(C)] followed by [remove_clock(C)] gives back the
    state before the add: the active list, the inactive list, the
    event-subscriber table, and the heap as well. *)
Theorem add_then_remove_clock_restores
    (st : feed_state) (clock : clock_t) (poll_period_log2 : Z)
    (p : positive) :
  sources st !! p = None ->
  clockfeed_on_remove_clock
    (clockfeed_on_add_clock st clock poll_period_log2 p) clock
  = Some st.
Proof.
  intros Hfresh. destruct st as [[pl rp act inact tbl] srcs sbs].
  cbn in Hfresh.
  unfold clockfeed_on_remove_clock, clockfeed_on_add_clock.
  cbn [module sources subs m_active m_inactive set_lists].
  rewrite walk_stops_at_head
    by (unfold stop_at_clock; rewrite lookup_insert_eq; cbn;
        by rewrite bool_decide_eq_true_2).
  cbn [mbind option_bind]. rewrite lookup_insert_eq. cbn [mbind option_bind].
  unfold clockfeed_reap_zombies.
  cbn [module sources subs m_active m_inactive set_lists].
  rewrite lookup_insert_eq. cbn [mbind option_bind].
  cbn [set_inactive s_inactive s_subscribers andb].
  rewrite bool_decide_eq_true_2 by reflexivity.
  rewrite walk_stops_at_head by (unfold stop_at; by rewrite decide_True).
  cbn [mbind option_bind app].
  rewrite delete_insert_eq, delete_insert_eq, delete_id by assumption.
  reflexivity.
Qed.

Lemma add_then_remove_clock_restores_witness :
  clockfeed_on_remove_clock (clockfeed_on_add_clock busy_state 9 0 12) 9
  = Some busy_state.
Proof.
  apply (add_then_remove_clock_restores busy_state 9 0 12). reflexivity.
Defined.

End ClockfeedProps.

(** * Properties of the SHM servo instance *)

Module ShmProps.
Import Shm.

Lemma Qltb_lt (a b : Q) : Qltb a b = true <-> (a < b)%Q.
Proof.
  unfold Qltb. rewrite negb_true_iff, <- not_true_iff_false, Qle_bool_iff.
  split; [apply Qnot_le_lt | apply Qlt_not_le].
Qed.

Lemma Qltb_ge (a b : Q) : Qltb a b = false <-> (b <= a)%Q.
Proof. unfold Qltb. rewrite negb_false_iff. apply Qle_bool_iff. Qed.

(** The threshold test is [|diff_ns| >= 500 ms]. *)
Lemma beyond_step_threshold_abs (diff_ns : Q) :
  beyond_step_threshold diff_ns = true <->
  (SHM_CLOCK_STEP_THRESHOLD <= Qabs diff_ns)%Q.
Proof.
  unfold beyond_step_threshold.
  rewrite orb_true_iff, !Qle_bool_iff.
  assert (HT : (0 < SHM_CLOCK_STEP_THRESHOLD)%Q) by reflexivity.
  revert HT. generalize SHM_CLOCK_STEP_THRESHOLD. intros T HT.
  split.
  - intros [H|H].
    + rewrite Qabs_neg; lra.
    + rewrite Qabs_pos; lra.
  - apply (Qabs_case diff_ns
             (fun a => (T <= a)%Q -> (diff_ns <= - T)%Q \/ (T <= diff_ns)%Q));
      intros; lra.
Qed.

(** The saturation keeps a value within the cap. *)
Lemma saturate_bound (cap x : Q) :
  (0 <= cap)%Q -> (Qabs (saturate cap x) <= cap)%Q.
Proof.
  intros Hcap. unfold saturate.
  destruct (Qltb cap x) eqn:E1.
  - rewrite Qabs_pos by done. lra.
  - apply Qltb_ge in E1.
    destruct (Qltb x (- cap)) eqn:E2.
    + rewrite Qabs_opp, Qabs_pos by done. lra.
    + apply Qltb_ge in E2. apply Qabs_Qle_condition. split; lra.
Qed.

Section Servo.

Context {bits : SyncModuleBits} {ext : Collaborators}.

(** The policy test, clause by clause. *)
Lemma step_allowed_true clock_ctrl active (diff_ns : Q) :
  clock_ctrl = SFPTPD_CLOCK_CTRL_SLEW_AND_STEP \/
  (clock_ctrl = SFPTPD_CLOCK_CTRL_STEP_AT_STARTUP /\ active = false) \/
  (clock_ctrl = SFPTPD_CLOCK_CTRL_STEP_FORWARD /\ (diff_ns < 0)%Q) ->
  step_allowed clock_ctrl active diff_ns = true.
Proof.
  unfold step_allowed. intros [->|[[-> ->]|[-> Hlt]]]; cbn; [done..|].
  apply Qltb_lt. done.
Qed.

(** C2.  On a servo update, when the control policy is SLEW_AND_STEP, or
    STEP_AT_STARTUP with the servo not yet active, or STEP_FORWARD with a
    negative offset, the offset is at least 500 ms away from zero, and the
    CLOCK_CTRL flag is set, the servo asks the clock to step by the negated
    offset, puts the clock's frequency back to its saved correction,
    resets the FIR and PID filters (which are given no sample), zeroes
    the stored time-of-day offset and tells the time-of-day module of the
    step, counts one clock step and marks the servo active. *)
Theorem servo_update_steps_clock
    (clock_ctrl : sfptpd_clock_ctrl) (freq_correction : Q)
    (shm : shm_module_t) (instance : sfptpd_shm_instance)
    (timestamp time_of_day : sfptpd_timespec) :
  let diff_ns := servo_diff_ns instance timestamp time_of_day in
  let r := shm_servo_update clock_ctrl freq_correction shm instance
             timestamp time_of_day in
  clock_ctrl = SFPTPD_CLOCK_CTRL_SLEW_AND_STEP \/
  (clock_ctrl = SFPTPD_CLOCK_CTRL_STEP_AT_STARTUP /\
   servo_active instance = false) \/
  (clock_ctrl = SFPTPD_CLOCK_CTRL_STEP_FORWARD /\ (diff_ns < 0)%Q) ->
  (SHM_CLOCK_STEP_THRESHOLD <= Qabs diff_ns)%Q ->
  Z.land (ctrl_flags instance) SYNC_MODULE_CLOCK_CTRL <> 0 ->
  r.2 =
    [CLOCK_ADJUST_TIME (clock instance)
       (sfptpd_time_subtract sfptpd_time_null
          (servo_diff timestamp time_of_day));
     CLOCK_ADJUST_FREQUENCY (clock instance) freq_correction;
     SYNC_MODULE_STEP_CLOCK sfptpd_time_null] /\
  fir_filter r.1.2 = sfptpd_fir_filter_reset (fir_filter instance) /\
  pid_filter r.1.2 = sfptpd_pid_filter_reset (pid_filter instance) /\
  offset_from_master_ns r.1.2 = inject_Z 0 /\
  freq_adjust_ppb r.1.2 = freq_correction /\
  shm_period_ns r.1.2 = inject_Z 0 /\
  shm_timestamp r.1.2 = sfptpd_time_null /\
  tod_offset_from_master r.1.1 = sfptpd_time_null /\
  clock_steps (counters r.1.2)
    = to_uint32 (clock_steps (counters instance) + 1) /\
  servo_active r.1.2 = true /\
  step_occurred r.1.2 = true.
Proof.
  intros diff_ns r Hpolicy Hbig Hctrl. subst r.
  unfold shm_servo_update. fold diff_ns.
  rewrite (step_allowed_true _ _ _ Hpolicy).
  apply beyond_step_threshold_abs in Hbig. rewrite Hbig.
  unfold flag_set. rewrite (proj2 (Z.eqb_neq _ _) Hctrl).
  cbn. repeat split.
Qed.

(** C3 (amended).  An instance in the FAULTY state that is given an SHM
    event goes to SLAVE, not to LISTENING: its period is zeroed, the
    event's sequence number and arrival time are recorded (and its
    timestamp, if timestamp processing is enabled), nothing is asked of
    the clock, and the alarms and the good-period count are left as they
    were.  The reset to LISTENING is what a poll that finds no event does
    to a FAULTY instance. *)
Theorem faulty_event_goes_to_slave
    (clock_ctrl : sfptpd_clock_ctrl) (freq_correction : Q)
    (time_now : sfptpd_timespec) (shm : shm_module_t)
    (instance : sfptpd_shm_instance) (seq_num : Z) (time : sfptpd_timespec) :
  state instance = SYNC_MODULE_STATE_FAULTY ->
  (exists i',
     shm_on_shm_event clock_ctrl freq_correction time_now shm instance
       seq_num time = Some (shm, i', []) /\
     state i' = SYNC_MODULE_STATE_SLAVE /\
     shm_period_ns i' = inject_Z 0 /\
     shm_seq_num i' = seq_num /\
     last_shm_time i' = time_now /\
     shm_timestamp i' =
       (if flag_set (ctrl_flags instance) SYNC_MODULE_TIMESTAMP_PROCESSING
        then time else shm_timestamp instance) /\
     alarms i' = alarms instance /\
     consecutive_good_periods i' = consecutive_good_periods instance /\
     outlier_filter i' = outlier_filter instance) /\
  shm_on_no_shm_event time_now instance
    = Some (shm_state_machine_reset instance) /\
  state (shm_state_machine_reset instance) = SYNC_MODULE_STATE_LISTENING.
Proof.
  intros Hst. split; [|split].
  - unfold shm_on_shm_event. rewrite Hst. cbn [mbind option_bind].
    eexists. split; [reflexivity|].
    cbn. destruct (flag_set _ _); cbn; repeat split.
  - unfold shm_on_no_shm_event. by rewrite Hst.
  - reflexivity.
Qed.

(** C6: what [shm_convergence_update] does for an instance in SLAVE with
    an alarm raised, the monotonic clock having been read: nothing.  The
    convergence measure is not reset, and [synchronized] keeps the value it
    had; it is not set to false. *)
Theorem convergence_update_with_alarm_changes_nothing
    (rc : Z) (time : sfptpd_timespec) (instance : sfptpd_shm_instance) :
  0 <= rc ->
  state instance = SYNC_MODULE_STATE_SLAVE ->
  alarms instance <> 0 ->
  shm_convergence_update rc time instance = instance.
Proof.
  intros Hrc Hst Hal. unfold shm_convergence_update.
  rewrite Hst, bool_decide_eq_true_2 by done.
  rewrite (proj2 (Z.ltb_ge _ _) Hrc), (proj2 (Z.eqb_neq _ _) Hal). done.
Qed.

(** C8 (amended).  After a servo update whose [long double] quantities
    are all numbers (the rationals of the model; a NaN, which a
    propagation delay configured as [nan] brings into the offset, fails
    both comparisons of the saturation and is outside the statement),
    with a cap [freq_adjust_max >= 0] that the update leaves as it is:
    when the update runs the filters and the CLOCK_CTRL flag is set, the
    frequency adjustment is saturated,
    [|freq_adjust_ppb| <= freq_adjust_max]; when it runs the filters and the
    flag is clear, the adjustment is the saved [freq_adjust_base], as it
    is; so the bound holds after every update that starts from an
    adjustment and a base within the cap, for a clock whose saved
    correction is within the cap, and the base stays within the cap. *)
Theorem servo_update_freq_adjust_bound
    (clock_ctrl : sfptpd_clock_ctrl) (freq_correction : Q)
    (shm : shm_module_t) (instance : sfptpd_shm_instance)
    (timestamp time_of_day : sfptpd_timespec) :
  let diff_ns := servo_diff_ns instance timestamp time_of_day in
  let stepping :=
    step_allowed clock_ctrl (servo_active instance) diff_ns &&
    beyond_step_threshold diff_ns in
  let i' := (shm_servo_update clock_ctrl freq_correction shm instance
               timestamp time_of_day).1.2 in
  (0 <= freq_adjust_max instance)%Q ->
  freq_adjust_max i' = freq_adjust_max instance /\
  (stepping = false ->
   flag_set (ctrl_flags instance) SYNC_MODULE_CLOCK_CTRL = true ->
   (Qabs (freq_adjust_ppb i') <= freq_adjust_max instance)%Q) /\
  (stepping = false ->
   flag_set (ctrl_flags instance) SYNC_MODULE_CLOCK_CTRL = false ->
   freq_adjust_ppb i' = freq_adjust_base instance) /\
  ((Qabs (freq_adjust_ppb instance) <= freq_adjust_max instance)%Q ->
   (Qabs (freq_adjust_base instance) <= freq_adjust_max instance)%Q ->
   (Qabs freq_correction <= freq_adjust_max instance)%Q ->
   (Qabs (freq_adjust_ppb i') <= freq_adjust_max instance)%Q /\
   (Qabs (freq_adjust_base i') <= freq_adjust_max instance)%Q).
Proof.
  intros diff_ns stepping i' Hcap. subst i'.
  unfold shm_servo_update. fold diff_ns. fold stepping.
  destruct stepping.
  - destruct (flag_set _ _); cbn; repeat split; intros; done.
  - destruct (sfptpd_fir_filter_update _ _) as [fir mean]. cbn.
    destruct (flag_set _ _).
    + destruct (sfptpd_pid_filter_update _ _) as [pid out]. cbn.
      repeat split; intros; try done; by apply saturate_bound.
    + cbn. repeat split; intros; done.
Qed.

(** C10.  A CONTROL message resets the PID filter exactly when it clears
    a CLOCK_CTRL flag that was set, zeroes the stored SHM timestamp exactly
    when it clears a TIMESTAMP_PROCESSING flag that was set, stores the new
    flags, and changes nothing else: FIR filter, outlier filter,
    frequency adjustment and base, offset, state, alarms, counters and the
    rest are as before. *)
Theorem control_clearing_flags_frame
    (instance : sfptpd_shm_instance) (mask flags : Z) :
  let i' := shm_on_control instance mask flags in
  let cleared bit :=
    Z.land (ctrl_flags instance) bit <> 0 /\ Z.land (ctrl_flags i') bit = 0 in
  ctrl_flags i' =
    Z.lor (Z.land (ctrl_flags instance) (Z.lnot mask)) (Z.land flags mask) /\
  (cleared SYNC_MODULE_CLOCK_CTRL ->
   pid_filter i' = sfptpd_pid_filter_reset (pid_filter instance)) /\
  (~ cleared SYNC_MODULE_CLOCK_CTRL -> pid_filter i' = pid_filter instance) /\
  (cleared SYNC_MODULE_TIMESTAMP_PROCESSING ->
   shm_timestamp i' = sfptpd_time_null) /\
  (~ cleared SYNC_MODULE_TIMESTAMP_PROCESSING ->
   shm_timestamp i' = shm_timestamp instance) /\
  fir_filter i' = fir_filter instance /\
  outlier_filter i' = outlier_filter instance /\
  notch_filter i' = notch_filter instance /\
  convergence i' = convergence instance /\
  freq_adjust_ppb i' = freq_adjust_ppb instance /\
  freq_adjust_base i' = freq_adjust_base instance /\
  freq_adjust_max i' = freq_adjust_max instance /\
  offset_from_master_ns i' = offset_from_master_ns instance /\
  state i' = state instance /\
  prev_state i' = prev_state instance /\
  alarms i' = alarms instance /\
  prev_alarms i' = prev_alarms instance /\
  counters i' = counters instance /\
  synchronized i' = synchronized instance /\
  servo_active i' = servo_active instance /\
  step_occurred i' = step_occurred instance /\
  shm_seq_num i' = shm_seq_num instance /\
  shm_period_ns i' = shm_period_ns instance /\
  last_shm_time i' = last_shm_time instance /\
  consecutive_good_periods i' = consecutive_good_periods instance /\
  clustering_score i' = clustering_score instance /\
  clock i' = clock instance /\
  propagation_delay i' = propagation_delay instance.
Proof.
  intros i' cleared. subst i' cleared. unfold shm_on_control.
  set (ctrl := Z.lor _ _).
  destruct (Z.eqb_spec (Z.land (ctrl_flags instance) SYNC_MODULE_CLOCK_CTRL) 0)
    as [Hc|Hc];
  destruct (Z.eqb_spec (Z.land ctrl SYNC_MODULE_CLOCK_CTRL) 0) as [Hc'|Hc'];
  cbn [negb andb set_pid_filter ctrl_flags];
  destruct (Z.eqb_spec (Z.land (ctrl_flags instance)
                          SYNC_MODULE_TIMESTAMP_PROCESSING) 0) as [Ht|Ht];
  destruct (Z.eqb_spec (Z.land ctrl SYNC_MODULE_TIMESTAMP_PROCESSING) 0)
    as [Ht'|Ht'];
  cbn; repeat split; try done; intros; try tauto.
Qed.

End Servo.

(** ** The theorems on the plain kit *)

Lemma servo_update_steps_clock_witness :
  let r := shm_servo_update (bits := plain_bits) (ext := plain_collaborators)
             SFPTPD_CLOCK_CTRL_SLEW_AND_STEP (inject_Z 25) plain_shm
             (plain_instance SYNC_MODULE_STATE_SLAVE 0 true 6 (inject_Z 10))
             (event_time 3500)
             {| sec := 1; nsec := 200000000; nsec_frac := 0 |} in
  clock_steps (counters r.1.2) = 1 /\
  servo_active r.1.2 = true /\
  fir_filter r.1.2 = [] /\
  r.2 = [CLOCK_ADJUST_TIME 3
           {| sec := -2; nsec := 999996500; nsec_frac := 0 |};
         CLOCK_ADJUST_FREQUENCY 3 (inject_Z 25);
         SYNC_MODULE_STEP_CLOCK sfptpd_time_null].
Proof.
  destruct (servo_update_steps_clock (bits := plain_bits)
              (ext := plain_collaborators)
              SFPTPD_CLOCK_CTRL_SLEW_AND_STEP (inject_Z 25) plain_shm
              (plain_instance SYNC_MODULE_STATE_SLAVE 0 true 6 (inject_Z 10))
              (event_time 3500)
              {| sec := 1; nsec := 200000000; nsec_frac := 0 |})
    as (Hev & Hfir & _ & _ & _ & _ & _ & _ & Hsteps & Hact & _).
  - left. reflexivity.
  - vm_compute. discriminate.
  - vm_compute. discriminate.
  - cbv zeta. rewrite Hev, Hfir, Hsteps, Hact. repeat split.
Defined.

(** C3, as stated, fails: a FAULTY instance that is given an event is in
    SLAVE afterwards, not in LISTENING, and its alarms, say, are not
    reset. *)
Lemma faulty_event_as_stated_fails :
  (fun r => (state r.1.2, alarms r.1.2))
    <$> shm_on_shm_event (bits := plain_bits) (ext := plain_collaborators)
          SFPTPD_CLOCK_CTRL_SLEW_AND_STEP (inject_Z 25) (event_time 0)
          plain_shm
          (plain_instance SYNC_MODULE_STATE_FAULTY 4 false 6 (inject_Z 10))
          18 (event_time 3500)
  = Some (SYNC_MODULE_STATE_SLAVE, 4) /\
  SYNC_MODULE_STATE_SLAVE <> SYNC_MODULE_STATE_LISTENING.
Proof. split; [reflexivity | discriminate]. Qed.

Lemma faulty_event_goes_to_slave_witness :
  shm_on_no_shm_event (bits := plain_bits) (ext := plain_collaborators)
    (event_time 0)
    (plain_instance SYNC_MODULE_STATE_FAULTY 4 false 6 (inject_Z 10))
  = Some (shm_state_machine_reset
            (plain_instance SYNC_MODULE_STATE_FAULTY 4 false 6 (inject_Z 10))).
Proof.
  apply (faulty_event_goes_to_slave (bits := plain_bits)
           (ext := plain_collaborators)
           SFPTPD_CLOCK_CTRL_SLEW_AND_STEP (inject_Z 25) (event_time 0)
           plain_shm
           (plain_instance SYNC_MODULE_STATE_FAULTY 4 false 6 (inject_Z 10))
           18 (event_time 3500)).
  reflexivity.
Defined.

(** C6 at the failing input: a synchronized SLAVE instance on which the
    NO_TIME_OF_DAY alarm has been raised is still reported synchronized
    after the convergence update. *)
Lemma convergence_update_with_alarm_changes_nothing_witness :
  synchronized
    (shm_convergence_update (bits := plain_bits) (ext := plain_collaborators)
       0 (event_time 0)
       (plain_instance SYNC_MODULE_STATE_SLAVE
          (@SYNC_MODULE_ALARM_NO_TIME_OF_DAY plain_bits) true 6 (inject_Z 10)))
  = true.
Proof.
  rewrite (convergence_update_with_alarm_changes_nothing (bits := plain_bits)
             (ext := plain_collaborators) 0 (event_time 0)
             (plain_instance SYNC_MODULE_STATE_SLAVE
                (@SYNC_MODULE_ALARM_NO_TIME_OF_DAY plain_bits) true 6
                (inject_Z 10)));
    [reflexivity | reflexivity | reflexivity | discriminate].
Defined.

(** C8, as stated, fails: with CLOCK_CTRL clear the adjustment is the
    saved base, here 2000 ppb against a cap of 1000 ppb. *)
Lemma freq_adjust_bound_as_stated_fails :
  let i' := (shm_servo_update (bits := plain_bits)
               (ext := plain_collaborators)
               SFPTPD_CLOCK_CTRL_SLEW_AND_STEP (inject_Z 25) plain_shm
               (plain_instance SYNC_MODULE_STATE_SLAVE 0 true 2
                  (inject_Z 2000))
               (event_time 3500) sfptpd_time_null).1.2 in
  flag_set (ctrl_flags i') (@SYNC_MODULE_CLOCK_CTRL plain_bits) = false /\
  (freq_adjust_max i' < Qabs (freq_adjust_ppb i'))%Q.
Proof. split; reflexivity. Qed.

Lemma servo_update_freq_adjust_bound_witness :
  let i' := (shm_servo_update (bits := plain_bits)
               (ext := plain_collaborators)
               SFPTPD_CLOCK_CTRL_SLEW_AND_STEP (inject_Z 25) plain_shm
               (plain_instance SYNC_MODULE_STATE_SLAVE 0 true 6
                  (inject_Z 900))
               (event_time 3500) sfptpd_time_null).1.2 in
  (Qabs (freq_adjust_ppb i') <= inject_Z 1000)%Q.
Proof.
  apply (servo_update_freq_adjust_bound (bits := plain_bits)
           (ext := plain_collaborators)
           SFPTPD_CLOCK_CTRL_SLEW_AND_STEP (inject_Z 25) plain_shm
           (plain_instance SYNC_MODULE_STATE_SLAVE 0 true 6 (inject_Z 900))
           (event_time 3500) sfptpd_time_null);
    vm_compute; discriminate.
Defined.

Lemma control_clearing_flags_frame_witness :
  let i := plain_instance SYNC_MODULE_STATE_SLAVE 0 true 6 (inject_Z 10) in
  let i' := shm_on_control (bits := plain_bits) (ext := plain_collaborators)
              i 4 0 in
  ctrl_flags i' = 2 /\
  pid_filter i' = inject_Z 0 /\
  shm_timestamp i' = shm_timestamp i /\
  fir_filter i' = fir_filter i.
Proof.
  destruct (control_clearing_flags_frame (bits := plain_bits)
              (ext := plain_collaborators)
              (plain_instance SYNC_MODULE_STATE_SLAVE 0 true 6 (inject_Z 10))
              4 0)
    as (Hflags & Hpid & _ & _ & Hts & Hfir & _).
  cbv zeta. rewrite Hflags, Hfir. split; [reflexivity|].
  split; [apply Hpid | split; [apply Hts | reflexivity]].
  - split; [discriminate | reflexivity].
  - intros [_ H]. discriminate H.
Defined.

End ShmProps.

(** * More of the clock feed *)

Module ClockfeedExtra.
Import Clockfeed ClockfeedProps.

(** ** The poll timer *)

(** X1.  For a poll period of [2^p] seconds, [-32 <= p <= 31], the timer
    interval [clockfeed_on_startup] computes is [2^p] whole seconds when
    [p >= 0], and [10^9 / 2^-p] nanoseconds (rounded down) when [p < 0];
    down to [p = -9] that is [2^p] seconds exactly. *)
Theorem poll_interval_is_two_to_the_period (p : Z) :
  -32 <= p <= 31 ->
  tv_sec (poll_interval p) = (if 0 <=? p then 2 ^ p else 0) /\
  tv_nsec (poll_interval p)
    = (if 0 <=? p then 0 else 1000000000 / 2 ^ (- p)) /\
  (-9 <= p < 0 -> tv_nsec (poll_interval p) * 2 ^ (- p) = 1000000000).
Proof.
  intros Hp.
  assert (Hall :
    Forall (fun p =>
              tv_sec (poll_interval p) = (if 0 <=? p then 2 ^ p else 0) /\
              tv_nsec (poll_interval p)
                = (if 0 <=? p then 0 else 1000000000 / 2 ^ (- p)) /\
              (-9 <= p < 0 ->
               tv_nsec (poll_interval p) * 2 ^ (- p) = 1000000000))
      (seqZ (-32) 64)).
  { compute_done. }
  rewrite Forall_forall in Hall. apply Hall. apply elem_of_seqZ. lia.
Qed.

Lemma poll_interval_is_two_to_the_period_witness :
  poll_interval (-2) = {| tv_sec := 0; tv_nsec := 250000000 |}.
Proof.
  destruct (poll_interval_is_two_to_the_period (-2) ltac:(lia))
    as (Hs & Hn & _).
  unfold poll_interval in *. cbn [tv_sec tv_nsec] in *.
  rewrite Hs, Hn. reflexivity.
Defined.

Section Ticks.

Context {time_ops : TimeOps}.

(** The loop of [clockfeed_on_timer] over a list without repetition whose
    cells are allocated: every cell of the list is polled once, the others
    are not touched. *)
Lemma poll_sources_lookup m env l heap :
  NoDup l ->
  (forall p, p ∈ l -> is_Some (heap !! p)) ->
  exists heap',
    poll_sources m env l heap = Some heap' /\
    forall p,
      heap' !! p =
        if decide (p ∈ l)
        then (fun s => poll_source m s (env (s_clock s))) <$> heap !! p
        else heap !! p.
Proof.
  intros Hnd. revert heap.
  induction Hnd as [|q l Hq Hnd IH]; intros heap Hheap.
  - exists heap. split; [done|]. intros p.
    rewrite decide_False; [done | apply not_elem_of_nil].
  - destruct (Hheap q) as [sq Hsq]; [by left|].
    destruct (IH (<[q := poll_source m sq (env (s_clock sq))]> heap))
      as (heap' & Hpoll & Hlook).
    { intros p Hp. rewrite lookup_insert_is_Some.
      destruct (decide (q = p)); [by left | right].
      split; [done|]. apply Hheap. by right. }
    exists heap'. cbn. rewrite Hsq. cbn. split; [done|].
    intros p. rewrite Hlook.
    destruct (decide (p = q)) as [->|Hne].
    + rewrite decide_False by done. rewrite decide_True by (by left).
      by rewrite lookup_insert_eq, Hsq.
    + rewrite lookup_insert_ne by done.
      destruct (decide (p ∈ l)) as [Hp|Hp].
      * by rewrite decide_True by (by right).
      * rewrite decide_False; [done|]. by intros [?|?]%elem_of_cons.
Qed.

(** X2.  On a well-formed state a timer tick returns; it polls each
    source on the active list once and nothing else: the lists, the event
    table, the subscriptions and the sources that are not on the active
    list (the removed ones) are as before, and each event goes to a thread
    of the table. *)
Theorem timer_polls_the_active_sources_only
    (st : feed_state) (env : positive -> clock_reading)
    (alloc_ok : nat -> bool) :
  well_formed st ->
  exists st' sent,
    clockfeed_on_timer st env alloc_ok = Some (st', sent) /\
    module st' = module st /\
    subs st' = subs st /\
    (forall p s,
       p ∈ m_active (module st) -> sources st !! p = Some s ->
       sources st' !! p
       = Some (poll_source (module st) s (env (s_clock s)))) /\
    (forall p,
       p ∉ m_active (module st) -> sources st' !! p = sources st !! p) /\
    (forall t, t ∈ sent -> Some t ∈ m_event_subscribers (module st)).
Proof.
  intros Hwf. unfold clockfeed_on_timer.
  destruct (poll_sources_lookup (module st) env (m_active (module st))
              (sources st)) as (heap & -> & Hlook).
  { pose proof (wf_nodup _ Hwf) as Hnd.
    by apply NoDup_app in Hnd as (? & _ & _). }
  { intros p Hp. apply (wf_listed _ Hwf). apply elem_of_app. by left. }
  cbn [mbind option_bind]. eexists _, _. split; [reflexivity|].
  cbn [module sources subs]. split_and!; [done..| | |].
  - intros p s Hp Hs. by rewrite Hlook, decide_True, Hs.
  - intros p Hp. by rewrite Hlook, decide_False.
  - intros t Ht. apply list_elem_of_omap in Ht as ([i slot] & Hin & Hslot).
    apply elem_of_lookup_imap in Hin as (j & slot' & [= -> ->] & Hj).
    destruct (alloc_ok j); [|done]. subst slot'.
    apply lookup_take_Some in Hj as [Hj _].
    by eapply list_elem_of_lookup_2.
Qed.

Lemma cadence_mask_ones (k : Z) :
  0 <= k <= 30 ->
  to_uint64 (to_int (to_int (Z.shiftl 1 (to_int k)) - 1)) = Z.ones k.
Proof.
  intros Hk.
  assert (H30 : 2 ^ k <= 2 ^ 30) by (apply Z.pow_le_mono_r; lia).
  assert (H0 : 0 < 2 ^ k) by (apply Z.pow_pos_nonneg; lia).
  rewrite (to_int_id k) by (unfold INT_MIN, INT_MAX; lia).
  rewrite Z.shiftl_1_l.
  change (2 ^ 30) with 1073741824 in H30.
  rewrite (to_int_id (2 ^ k)) by (unfold INT_MIN, INT_MAX; lia).
  rewrite to_int_id by (unfold INT_MIN, INT_MAX; lia).
  unfold to_uint64. rewrite Z.mod_small by lia.
  rewrite Z.ones_equiv. lia.
Qed.

(** A poll on the cadence writes slot [write_counter mod 16] and counts
    the write. *)
Lemma poll_source_writes
    (m : sfptpd_clockfeed) (s : clockfeed_source) (rd : clock_reading) :
  let k := s_poll_period_log2 s - m_poll_period_log2 m in
  let s' := poll_source m s rd in
  0 <= k <= 30 ->
  s_cycles s mod 2 ^ k = 0 ->
  0 <= write_counter (s_shm s) < 2 ^ 64 - 1 ->
  write_counter (s_shm s') = write_counter (s_shm s) + 1 /\
  samples (s_shm s')
  = <[Z.to_nat (write_counter (s_shm s) mod 16) := polled_sample s rd]>
      (samples (s_shm s)).
Proof.
  intros k s' Hk Hhit Hwc. subst s'. unfold poll_source. fold k.
  rewrite (cadence_mask_ones k Hk), Z.land_ones, Hhit by lia.
  cbn [s_shm Z.eqb write_counter samples]. split.
  - unfold to_uint64. apply Z.mod_small. lia.
  - change index_mask with (Z.ones 4). rewrite Z.land_ones by lia.
    change (2 ^ 4) with 16. unfold to_uint32.
    rewrite (Z.mod_small (_ mod 16)); [done|].
    pose proof (Z.mod_pos_bound (write_counter (s_shm s)) 16). lia.
Qed.

(** X3.  A source whose period is [2^k] times the service's,
    [0 <= k <= 30], is sampled on the ticks on which its count of ticks is
    a multiple of [2^k], and only on them: then the write counter goes
    up by one and the sample lands in slot [write_counter mod 16], stamped
    with the counter; on the other ticks the ring is left as it is.  The
    count of ticks goes up by one either way. *)
Theorem source_is_sampled_on_its_cadence
    (m : sfptpd_clockfeed) (s : clockfeed_source) (rd : clock_reading) :
  let k := s_poll_period_log2 s - m_poll_period_log2 m in
  let s' := poll_source m s rd in
  0 <= k <= 30 ->
  0 <= s_cycles s < 2 ^ 64 - 1 ->
  0 <= write_counter (s_shm s) < 2 ^ 64 - 1 ->
  s_cycles s' = s_cycles s + 1 /\
  (s_cycles s mod 2 ^ k = 0 ->
   write_counter (s_shm s') = write_counter (s_shm s) + 1 /\
   samples (s_shm s')
   = <[Z.to_nat (write_counter (s_shm s) mod 16) := polled_sample s rd]>
       (samples (s_shm s))) /\
  (s_cycles s mod 2 ^ k <> 0 -> s_shm s' = s_shm s).
Proof.
  intros k s' Hk Hcyc Hwc. split_and!.
  - subst s'. unfold poll_source. cbn [s_cycles].
    unfold to_uint64. apply Z.mod_small. lia.
  - intros Hhit. by apply poll_source_writes.
  - intros Hne. subst s'. unfold poll_source. fold k.
    rewrite (cadence_mask_ones k Hk), Z.land_ones by lia. cbn [s_shm].
    by destruct (Z.eqb_spec (s_cycles s mod 2 ^ k) 0).
Qed.





End Ticks.

Section Reads.

Context {time_ops : TimeOps}.

(** X5.  What a read may change.  Every read returns one of 0,
    [EOWNERDEAD], [ENOENT], [EAGAIN], [ENODATA] and [ESTALE]; of the
    subscription it changes the read counter at most; and a read that
    returns an error writes none of the three time buffers and leaves the
    subscription as it was.  The difference is written on every read: it
    is zeroed on entry and stays zero when the source is inactive, the
    clock is not active, nothing has been written or the sample carries
    an error; otherwise it is the sample's difference, also when the read
    then fails, so a read that returns [EOWNERDEAD] or [ENOENT] leaves
    zero and one that returns [ENODATA] or [ESTALE] leaves the difference
    of the sample it rejects.  The read counter moves only on a read that
    returns 0, to the snapshot of the write counter. *)
Theorem read_changes_the_read_counter_only
    (src : clockfeed_source) (sub : sfptpd_clockfeed_sub) (clock_active : bool)
    (counter_reread : Z) (now_mono t1 t2 mono_time : option timespec) :
  let o := clockfeed_compare_to_sys src sub clock_active counter_reread
             now_mono t1 t2 mono_time in
  let sample := newest_sample src in
  let computed := sfptpd_time_subtract (snapshot sample) (system sample) in
  out_rc o ∈ [0; EOWNERDEAD; ENOENT; EAGAIN; ENODATA; ESTALE] /\
  (source (out_sub o) = source sub /\
   min_counter (out_sub o) = min_counter sub /\
   have_max_age (out_sub o) = have_max_age sub /\
   max_age (out_sub o) = max_age sub /\
   have_max_age_diff (out_sub o) = have_max_age_diff sub /\
   max_age_diff (out_sub o) = max_age_diff sub) /\
  (out_rc o <> 0 ->
   out_sub o = sub /\ out_t1 o = t1 /\ out_t2 o = t2 /\
   out_mono o = mono_time) /\
  out_diff o =
    (if s_inactive src || negb clock_active ||
        (to_int (write_counter (s_shm src)) =? 0) || negb (rc sample =? 0)
     then timespec_zero else computed) /\
  (out_rc o = EOWNERDEAD \/ out_rc o = ENOENT -> out_diff o = timespec_zero) /\
  (out_rc o = ENODATA \/ out_rc o = ESTALE -> out_diff o = computed) /\
  (read_counter (out_sub o) <> read_counter sub ->
   out_rc o = 0 /\
   read_counter (out_sub o) = to_int (write_counter (s_shm src))).
Proof.
  cbv zeta. unfold clockfeed_compare_to_sys.
  fold (newest_sample src).
  repeat case_match; simplify_eq;
    cbn [out_rc out_sub out_t1 out_t2 out_mono out_diff
    source min_counter have_max_age max_age have_max_age_diff max_age_diff
    read_counter orb negb];
    (split; [unfold EOWNERDEAD, ENOENT, EAGAIN, ENODATA, ESTALE;
             set_solver|]);
    split_and!; try done; try congruence;
    unfold EOWNERDEAD, ENOENT, EAGAIN, ENODATA, ESTALE;
    intros [?|?]; congruence.
Qed.

(** X6.  After a successful read of a good sample,
    [sfptpd_clockfeed_require_fresh] makes the next read of the same
    sample fail: with [ESTALE], or with [ENODATA] if the writer has lapped
    the ring meanwhile.  The failed read leaves the subscription and the
    three time buffers as they are, but it has already stored the
    sample's difference: the caller finds the difference of the rejected
    sample beside the error.  A read of a source that has been written
    since (a good sample, not overrun, no age limit) is accepted and
    records the new counter. *)
Theorem require_fresh_rejects_the_sample_already_read
    (src src2 : clockfeed_source) (sub : sfptpd_clockfeed_sub)
    (rr1 rr2 rr3 : Z) (now1 now2 now3 : option timespec)
    (t1 t2 mono_time : option timespec) :
  let w := write_counter (s_shm src) in
  let w2 := write_counter (s_shm src2) in
  let o1 := clockfeed_compare_to_sys src sub true rr1 now1 t1 t2 mono_time in
  let sub' := sfptpd_clockfeed_require_fresh (out_sub o1) in
  0 < w -> w + MAX_CLOCK_SAMPLES <= INT_MAX ->
  rc (newest_sample src) = 0 ->
  out_rc o1 = 0 ->
  (let o2 := clockfeed_compare_to_sys src sub' true rr2 now2
               t1 t2 mono_time in
   out_rc o2 = (if to_int rr2 >=? w + 15 then ENODATA else ESTALE) /\
   out_diff o2 = sfptpd_time_subtract (snapshot (newest_sample src))
                   (system (newest_sample src)) /\
   out_sub o2 = sub' /\ out_t1 o2 = t1 /\ out_t2 o2 = t2 /\
   out_mono o2 = mono_time) /\
  (s_inactive src2 = false -> w < w2 -> w2 + MAX_CLOCK_SAMPLES <= INT_MAX ->
   rc (newest_sample src2) = 0 -> to_int rr3 < w2 + 15 ->
   have_max_age sub = false ->
   let o3 := clockfeed_compare_to_sys src2 sub' true rr3 now3
               t1 t2 mono_time in
   out_rc o3 = 0 /\ read_counter (out_sub o3) = w2).
Proof.
  intros w w2 o1 sub' Hw Hmax Hrc Hok.
  change MAX_CLOCK_SAMPLES with 16 in *. unfold INT_MAX in *.
  assert (Hwi : to_int w = w) by (apply to_int_id; unfold INT_MIN, INT_MAX; lia).
  assert (Hread : s_inactive src = false /\ read_counter (out_sub o1) = w /\
                  have_max_age (out_sub o1) = have_max_age sub).
  { subst o1. revert Hok. unfold clockfeed_compare_to_sys.
    fold (newest_sample src). fold w. rewrite Hrc, Hwi.
    destruct (s_inactive src); [discriminate|].
    cbn [negb Z.eqb]. destruct (Z.eqb_spec w 0); [lia|].
    repeat case_match; simplify_eq; cbn;
      try (intros Hz; unfold EAGAIN, ESTALE, ENODATA in Hz; discriminate Hz);
      done. }
  destruct Hread as (Hact & Hcnt & Hage).
  assert (Hmin : min_counter sub' = w + 1) by (subst sub'; cbn; lia).
  split.
  - cbv zeta. unfold clockfeed_compare_to_sys.
    fold (newest_sample src). fold w. rewrite Hact, Hrc, Hwi, Hmin.
    cbn [negb Z.eqb]. destruct (Z.eqb_spec w 0); [lia|].
    change MAX_CLOCK_SAMPLES with 16.
    rewrite (to_int_id (w + 16)) by (unfold INT_MIN, INT_MAX; lia).
    rewrite (to_int_id (w + 16 - 1)) by (unfold INT_MIN, INT_MAX; lia).
    replace (w + 16 - 1) with (w + 15) by lia.
    destruct (to_int rr2 >=? w + 15); [done|].
    destruct (Z.ltb_spec w (w + 1)); [done | lia].
  - intros Hact2 Hlt Hmax2 Hrc2 Hrr Hnoage. cbv zeta.
    assert (Hwi2 : to_int w2 = w2)
      by (apply to_int_id; unfold INT_MIN, INT_MAX; lia).
    unfold clockfeed_compare_to_sys.
    fold (newest_sample src2). fold w2.
    rewrite Hact2, Hrc2, Hwi2, Hmin.
    cbn [negb Z.eqb]. destruct (Z.eqb_spec w2 0); [lia|].
    change MAX_CLOCK_SAMPLES with 16.
    rewrite (to_int_id (w2 + 16)) by (unfold INT_MIN, INT_MAX; lia).
    rewrite (to_int_id (w2 + 16 - 1)) by (unfold INT_MIN, INT_MAX; lia).
    destruct (Z.geb_spec (to_int rr3) (w2 + 16 - 1)); [lia|].
    destruct (Z.ltb_spec w2 (w + 1)); [lia|].
    assert (Hage' : have_max_age sub' = false)
      by (subst sub'; cbn; congruence).
    rewrite Hage'. done.
Qed.

(** A read that returns an error writes none of the time buffers. *)
Lemma read_error_frame (r : reading) (a b c : option timespec) :
  out_rc (read_leg r None None None) <> 0 ->
  let o := read_leg r a b c in
  out_rc o = out_rc (read_leg r None None None) /\
  out_sub o = r_sub r /\ out_t1 o = a /\ out_t2 o = b /\ out_mono o = c.
Proof.
  cbv zeta. unfold read_leg, clockfeed_compare_to_sys.
  repeat case_match; simplify_eq; cbn; intros; split_and!; done.
Qed.

(** A read that succeeds on a good sample hands the sample's three times
    to the buffers given. *)
Lemma read_success_buffers (r : reading) (a b c : option timespec) :
  out_rc (read_leg r None None None) = 0 ->
  rc (newest_sample (r_src r)) = 0 ->
  let o := read_leg r a b c in
  let sample := newest_sample (r_src r) in
  out_rc o = 0 /\
  out_diff o = out_diff (read_leg r None None None) /\
  out_t1 o = (fun _ => snapshot sample) <$> a /\
  out_t2 o = (fun _ => system sample) <$> b /\
  out_mono o = (fun _ => mono sample) <$> c.
Proof.
  cbv zeta. unfold read_leg, clockfeed_compare_to_sys.
  fold (newest_sample (r_src r)). intros Hok Hrc. revert Hok. rewrite Hrc.
  cbn [Z.eqb negb].
  repeat case_match; simplify_eq; cbn;
    try (intros Hz; unfold EOWNERDEAD, ENOENT, EAGAIN, ESTALE, ENODATA in Hz;
         discriminate Hz);
    intros; split_and!; done.
Qed.

(** X7.  A comparison of two clocks stops at the first leg that fails:
    when the read of the first subscription returns an error, the
    comparison returns that error, the second subscription is not read
    (its read counter stays), the first is left as it was, and none of the
    caller's time buffers is written. *)
Theorem compare_stops_at_the_first_failed_leg
    (r1 : reading) (leg2 : option reading) (t1 t2 mono : option timespec)
    (stack_mono1 stack_mono2 : timespec) :
  let c := sfptpd_clockfeed_compare (Some r1) leg2 t1 t2 mono
             stack_mono1 stack_mono2 in
  out_rc (read_leg r1 None None None) <> 0 ->
  cr_rc c = out_rc (read_leg r1 None None None) /\
  cr_sub1 c = Some (r_sub r1) /\
  cr_sub2 c = r_sub <$> leg2 /\
  cr_t1 c = t1 /\ cr_t2 c = t2 /\ cr_mono c = mono.
Proof.
  intros c Hne. subst c. unfold sfptpd_clockfeed_compare.
  set (mp := match mono with
             | Some _ => mono
             | None => _
             end).
  set (b2 := if non_null leg2 then None else t2).
  destruct (read_error_frame r1 t1 b2 mp Hne) as (-> & -> & -> & H2 & ->).
  apply Z.eqb_neq in Hne. rewrite H2.
  assert (Hmono : (if non_null mono then mp else None) = mono).
  { subst mp. destruct mono; cbn; [done|]. by destruct (choose_max_age_diff _ _). }
  destruct leg2 as [r2|]; cbn [non_null fmap option_fmap option_map] in *;
    rewrite ?Hne; cbn [cr_rc cr_sub1 cr_sub2 cr_t1 cr_t2 cr_mono];
    rewrite ?Hne, Hmono; subst b2;
    destruct (choose_max_age_diff _ _); done.
Qed.

(** X8.  Which monotonic time a two-clock comparison reports.  When both
    reads succeed on good samples and the caller asks for the monotonic
    time, the difference is the first leg's minus the second's, and the
    time reported is the second sample's exactly when its [tv_sec] is
    smaller than the first's, or its [tv_sec] equals the first's
    [tv_nsec] and its [tv_nsec] is smaller; otherwise the first's.  So
    for two samples taken in the same second (whose number differs from
    the first's nanoseconds) the first sample's time is reported, also
    when the second sample is the earlier one. *)
Theorem compare_reports_the_monotonic_time
    (r1 r2 : reading) (t1 t2 : option timespec) (m : timespec)
    (stack_mono1 stack_mono2 : timespec) :
  let c := sfptpd_clockfeed_compare (Some r1) (Some r2) t1 t2 (Some m)
             stack_mono1 stack_mono2 in
  let m1 := mono (newest_sample (r_src r1)) in
  let m2 := mono (newest_sample (r_src r2)) in
  out_rc (read_leg r1 None None None) = 0 ->
  out_rc (read_leg r2 None None None) = 0 ->
  rc (newest_sample (r_src r1)) = 0 ->
  rc (newest_sample (r_src r2)) = 0 ->
  cr_rc c ∈ [0; ESTALE] /\
  cr_diff c = sfptpd_time_subtract (out_diff (read_leg r1 None None None))
                (out_diff (read_leg r2 None None None)) /\
  cr_t1 c = (fun _ => snapshot (newest_sample (r_src r1))) <$> t1 /\
  cr_t2 c = (fun _ => snapshot (newest_sample (r_src r2))) <$> t2 /\
  cr_mono c
  = Some (if (tv_sec m2 <? tv_sec m1) ||
             ((tv_sec m2 =? tv_nsec m1) && (tv_nsec m2 <? tv_nsec m1))
          then m2 else m1) /\
  (tv_sec m2 = tv_sec m1 -> tv_sec m1 <> tv_nsec m1 -> cr_mono c = Some m1).
Proof.
  intros c m1 m2 Hok1 Hok2 Hrc1 Hrc2.
  assert (Hmono : cr_mono c
    = Some (if (tv_sec m2 <? tv_sec m1) ||
               ((tv_sec m2 =? tv_nsec m1) && (tv_nsec m2 <? tv_nsec m1))
            then m2 else m1) /\
    cr_rc c ∈ [0; ESTALE] /\
    cr_diff c = sfptpd_time_subtract (out_diff (read_leg r1 None None None))
                  (out_diff (read_leg r2 None None None)) /\
    cr_t1 c = (fun _ => snapshot (newest_sample (r_src r1))) <$> t1 /\
    cr_t2 c = (fun _ => snapshot (newest_sample (r_src r2))) <$> t2).
  { subst c. unfold sfptpd_clockfeed_compare. cbn [non_null].
    cbv beta iota.
    destruct (read_success_buffers r1 t1 None (Some m) Hok1 Hrc1)
      as (-> & -> & -> & _ & ->).
    cbn [Z.eqb fmap option_fmap option_map].
    destruct (read_success_buffers r2 t2 None (Some stack_mono2) Hok2 Hrc2)
      as (-> & -> & -> & _ & ->).
    cbn [Z.eqb fmap option_fmap option_map default].
    fold m1 m2.
    destruct (choose_max_age_diff _ _);
      cbn [cr_rc cr_diff cr_t1 cr_t2 cr_mono Z.eqb];
      repeat case_match; unfold id in *; split_and!; try done;
      try congruence; unfold ESTALE; set_solver. }
  destruct Hmono as (Hm & Hrc & Hd & Ht1 & Ht2).
  split_and!; try done.
  intros Hsec Hne. rewrite Hm, Hsec, Z.ltb_irrefl.
  destruct (Z.eqb_spec (tv_sec m1) (tv_nsec m1)); [contradiction|]. done.
Qed.

End Reads.

(** ** Shut-down *)

Lemma mark_all_inactive_lookup l heap :
  NoDup l ->
  (forall p, p ∈ l -> exists s, heap !! p = Some s /\ s_inactive s = false) ->
  exists heap',
    mark_all_inactive l heap = Some heap' /\
    forall p, heap' !! p
              = if decide (p ∈ l)
                then (fun s => set_inactive s true) <$> heap !! p
                else heap !! p.
Proof.
  revert heap. induction l as [|p0 l IH]; intros heap Hnd Hin.
  - exists heap. split; [done|]. intros p. by rewrite decide_False by set_solver.
  - apply NoDup_cons in Hnd as [Hp0 Hnd].
    destruct (Hin p0) as (s0 & Hs0 & Hf0); [set_solver|].
    cbn [mark_all_inactive]. rewrite Hs0. cbn [mbind option_bind]. rewrite Hf0.
    destruct (IH (<[p0 := set_inactive s0 true]> heap) Hnd) as (heap' & -> & Hl).
    { intros p Hp. assert (p <> p0) by set_solver.
      rewrite lookup_insert_ne by done. apply Hin. set_solver. }
    exists heap'. split; [done|]. intros p. rewrite Hl.
    destruct (decide (p = p0)) as [->|Hne].
    + rewrite decide_False by done. rewrite decide_True by set_solver.
      by rewrite lookup_insert_eq, Hs0.
    + rewrite lookup_insert_ne by done.
      destruct (decide (p ∈ l)).
      * by rewrite decide_True by set_solver.
      * by rewrite decide_False by set_solver.
Qed.

Lemma reap_walk_all_subscribed st l :
  (forall p, p ∈ l ->
     exists s, sources st !! p = Some s /\ s_subscribers s <> []) ->
  reap_walk st l = Some st.
Proof.
  induction l as [|p0 l IH]; intros Hin; [done|].
  destruct (Hin p0) as (s0 & Hs0 & Hsub); [set_solver|].
  cbn [reap_walk]. unfold clockfeed_reap_zombies. rewrite Hs0.
  cbn [mbind option_bind].
  rewrite (bool_decide_eq_false_2 _ Hsub), andb_false_r.
  cbn [mbind option_bind]. rewrite Hs0. cbn [mbind option_bind].
  apply IH. intros p Hp. apply Hin. set_solver.
Qed.

Lemma reap_walk_reads_freed_source st l p s :
  (forall x, x ∈ l -> exists sx, sources st !! x = Some sx /\ s_inactive sx = true) ->
  p ∈ l -> sources st !! p = Some s -> s_subscribers s = [] ->
  reap_walk st l = None.
Proof.
  induction l as [|p0 l IH]; intros Hin Hp Hs Hsub;
    [by apply elem_of_nil in Hp|].
  destruct (Hin p0) as (s0 & Hs0 & Hi0); [apply elem_of_cons; by left|].
  cbn [reap_walk]. unfold clockfeed_reap_zombies. rewrite Hs0.
  cbn [mbind option_bind]. rewrite Hi0. cbn [andb].
  destruct (decide (s_subscribers s0 = [])) as [He|Hne].
  - rewrite (bool_decide_eq_true_2 _ He).
    destruct (walk _ _) as [[pre [|q post]]|]; cbn [mbind option_bind]; try done.
    cbn [sources]. by rewrite lookup_delete_eq.
  - rewrite (bool_decide_eq_false_2 _ Hne). cbn [mbind option_bind].
    rewrite Hs0. cbn [mbind option_bind].
    apply IH; try done.
    + intros x Hx. apply Hin. apply elem_of_cons. by right.
    + apply elem_of_cons in Hp as [->|Hp]; [congruence | done].
Qed.

(** X9.  Shut-down of a well-formed service.  If every source still has
    a subscriber, the handler marks each source inactive, splices the
    active list in front of the inactive one and frees nothing.  If some
    source has no subscriber, the handler does not run to its end: the
    last loop calls [clockfeed_reap_zombies] on the source, which frees
    it, and then takes the source's [next] pointer from the freed
    cell. *)
Theorem shutdown_completes_only_if_every_source_is_subscribed
    (st : feed_state) :
  well_formed st ->
  ((forall p s, sources st !! p = Some s -> s_subscribers s <> []) ->
   clockfeed_on_shutdown st
   = Some {| module :=
               set_lists (module st) []
                 (m_active (module st) ++ m_inactive (module st));
             sources := (fun s => set_inactive s true) <$> sources st;
             subs := subs st |}) /\
  (forall p s, sources st !! p = Some s -> s_subscribers s = [] ->
   clockfeed_on_shutdown st = None).
Proof.
  intros Hwf.
  assert (Hnd : NoDup (m_active (module st))).
  { pose proof (wf_nodup _ Hwf) as H. by apply NoDup_app in H as (? & _ & _). }
  assert (Hact : forall p, p ∈ m_active (module st) ->
            exists s, sources st !! p = Some s /\ s_inactive s = false).
  { intros p Hp.
    destruct (proj2 (wf_listed _ Hwf p)) as [s Hs]; [set_solver|].
    exists s. split; [done|].
    destruct (s_inactive s) eqn:Hi; [|done].
    apply (wf_flag _ Hwf p s Hs) in Hi.
    pose proof (wf_nodup _ Hwf) as H.
    apply NoDup_app in H as (_ & Hdisj & _). by destruct (Hdisj p). }
  destruct (mark_all_inactive_lookup _ _ Hnd Hact) as (heap & Hmark & Hheap).
  assert (Hmarked : heap = (fun s => set_inactive s true) <$> sources st).
  { apply map_eq. intros p. rewrite Hheap, lookup_fmap.
    destruct (decide (p ∈ m_active (module st))); [done|].
    destruct (sources st !! p) as [s|] eqn:Hs; [|done]. cbn. f_equal.
    assert (Hi : s_inactive s = true).
    { apply (wf_flag _ Hwf p s Hs).
      pose proof (proj1 (wf_listed _ Hwf p) (mk_is_Some _ _ Hs)) as Hin.
      apply elem_of_app in Hin as [?|?]; done. }
    destruct s; cbn in *; by subst. }
  subst heap. unfold clockfeed_on_shutdown. rewrite Hmark.
  cbn [mbind option_bind]. split.
  - intros Hall. apply reap_walk_all_subscribed. intros p Hp.
    cbn [sources]. rewrite lookup_fmap.
    destruct (proj2 (wf_listed _ Hwf p) Hp) as [s Hs]. rewrite Hs.
    eexists. split; [done|]. cbn. by apply (Hall p).
  - intros p s Hs Hsub.
    apply (reap_walk_reads_freed_source _ _ p (set_inactive s true)).
    + intros x Hx. cbn [sources]. rewrite lookup_fmap.
      destruct (proj2 (wf_listed _ Hwf x) Hx) as [sx ->]. by eexists.
    + apply (wf_listed _ Hwf p). by eexists.
    + cbn [sources]. by rewrite lookup_fmap, Hs.
    + done.
Qed.

(** ** Two invariants of the reachable states *)

Lemma reap_cases st p st' :
  clockfeed_reap_zombies st p = Some st' ->
  m_poll_period_log2 (module st') = m_poll_period_log2 (module st) /\
  ((st' = st /\
    forall s, sources st !! p = Some s ->
              s_inactive s = true -> s_subscribers s <> []) \/
   sources st' = delete p (sources st)).
Proof.
  unfold clockfeed_reap_zombies.
  destruct (sources st !! p) as [s|] eqn:Hs; [|done]. cbn [mbind option_bind].
  destruct (s_inactive s && bool_decide (s_subscribers s = [])) eqn:Hz.
  - destruct (walk _ _) as [[pre [|q post]]|]; cbn; try done.
    intros [= <-]. cbn. auto.
  - intros [= <-]. split; [done|]. left. split; [done|].
    intros s' [= <-] Hi. rewrite Hi in Hz. cbn in Hz.
    by apply bool_decide_eq_false_1 in Hz.
Qed.

Lemma reap_invariants st p st' :
  clockfeed_reap_zombies st p = Some st' ->
  cadence_ok st ->
  (forall x s, x <> p -> sources st !! x = Some s ->
               s_inactive s = true -> s_subscribers s <> []) ->
  no_zombies st' /\ cadence_ok st'.
Proof.
  intros (Hper & [[-> Hp]|Hdel])%reap_cases Hcad Hothers.
  - split; [|done]. intros x s Hs Hi.
    destruct (decide (x = p)) as [->|Hne]; [by eapply Hp | by eapply Hothers].
  - split.
    + intros x s. rewrite Hdel. intros [Hne Hs]%lookup_delete_Some.
      by eapply Hothers.
    + intros x s. rewrite Hdel, Hper. intros [_ Hs]%lookup_delete_Some.
      by eapply Hcad.
Qed.

Lemma on_message_invariants st r st' :
  clockfeed_on_message st r = Some st' ->
  no_zombies st -> cadence_ok st ->
  no_zombies st' /\ cadence_ok st'.
Proof.
  intros Hstep Hz Hcad.
  destruct r as [c l p|c|c q|q]; cbn [clockfeed_on_message] in Hstep.
  - injection Hstep as <-. unfold clockfeed_on_add_clock. split.
    + intros x s. cbn [sources].
      intros [[_ <-]|[_ Hs]]%lookup_insert_Some; [done | by eapply Hz].
    + intros x s. cbn [sources module set_lists m_poll_period_log2].
      intros [[_ <-]|[_ Hs]]%lookup_insert_Some; [|by eapply Hcad].
      cbn [s_poll_period_log2]. destruct (Z.ltb_spec l (m_poll_period_log2 (module st))); lia.
  - unfold clockfeed_on_remove_clock in Hstep.
    destruct (walk _ _) as [[pre [|p post]]|]; cbn [mbind option_bind] in Hstep;
      [injection Hstep as <-; by split| |done].
    destruct (sources st !! p) as [s|] eqn:Hs; [|done].
    cbn [mbind option_bind] in Hstep.
    apply reap_invariants in Hstep; [done|..].
    + intros x sx. cbn [sources module set_lists m_poll_period_log2].
      intros [[<- <-]|[_ Hx]]%lookup_insert_Some;
        [unfold set_inactive, set_subscribers; cbn [s_poll_period_log2] |];
        by eapply Hcad.
    + intros x sx Hne. cbn [sources]. rewrite lookup_insert_ne by done.
      by apply Hz.
  - unfold clockfeed_on_subscribe in Hstep.
    destruct (walk _ (m_active _)) as [[pre post]|];
      cbn [mbind option_bind fmap option_fmap option_map] in Hstep; [|done].
    destruct (match post with [] => _ | _ => _ end) as [[p|]|];
      cbn [mbind option_bind fmap option_fmap option_map] in Hstep;
      [|injection Hstep as <-; by split|done].
    destruct (sources st !! p) as [s|] eqn:Hs; [|done].
    cbn in Hstep. injection Hstep as <-. split.
    + intros x sx. cbn [sources].
      intros [[_ <-]|[_ Hx]]%lookup_insert_Some; [done | by eapply Hz].
    + intros x sx. cbn [sources module].
      intros [[<- <-]|[_ Hx]]%lookup_insert_Some;
        [unfold set_inactive, set_subscribers; cbn [s_poll_period_log2] |];
        by eapply Hcad.
  - unfold clockfeed_on_unsubscribe in Hstep.
    destruct (subs st !! q) as [sub|]; [|done]. cbn [mbind option_bind] in Hstep.
    destruct (sources st !! source sub) as [s|] eqn:Hs; [|done].
    cbn [mbind option_bind] in Hstep.
    destruct (walk _ _) as [[pre [|q' post]]|]; cbn [mbind option_bind] in Hstep;
      [done| |done].
    destruct (clockfeed_reap_zombies _ _) as [st1|] eqn:Hreap; [|done].
    cbn in Hstep. injection Hstep as <-.
    apply reap_invariants in Hreap as [Hz1 Hcad1]; [done|..].
    + intros x sx. cbn [sources module].
      intros [[<- <-]|[_ Hx]]%lookup_insert_Some;
        [unfold set_inactive, set_subscribers; cbn [s_poll_period_log2] |];
        by eapply Hcad.
    + intros x sx Hne. cbn [sources]. rewrite lookup_insert_ne by done.
      by apply Hz.
Qed.

Section Invariants.

Context {time_ops : TimeOps}.

Lemma poll_sources_fields m env l heap heap' :
  poll_sources m env l heap = Some heap' ->
  forall p s', heap' !! p = Some s' ->
    exists s, heap !! p = Some s /\
              s_subscribers s' = s_subscribers s /\
              s_inactive s' = s_inactive s /\
              s_poll_period_log2 s' = s_poll_period_log2 s /\
              s_clock s' = s_clock s.
Proof.
  revert heap. induction l as [|q l IH]; intros heap; cbn [poll_sources].
  - intros [= <-] p s' Hs'. by exists s'.
  - destruct (heap !! q) as [sq|] eqn:Hq; cbn [mbind option_bind]; [|done].
    intros Hpoll p s' Hs'.
    destruct (IH _ Hpoll p s' Hs') as (s & Hs & H1 & H2 & H3 & H4).
    apply lookup_insert_Some in Hs as [[<- <-]|[_ Hs]].
    + exists sq. by rewrite H1, H2, H3, H4.
    + by exists s.
Qed.

(** X10.  In every state the service reaches from its creation, a source
    marked inactive has at least one subscriber (a removed source is
    freed as soon as its last subscriber leaves, or at once if it has
    none), and no source has a poll period shorter than the service's
    (so the cadence of the tick handler is never negative). *)
Theorem reachable_has_no_zombie_and_no_fast_source (st : feed_state) :
  reachable st -> no_zombies st /\ cadence_ok st.
Proof.
  induction 1 as [l|st r st' _ [IHz IHc] Hvalid Hstep
                  |st env alloc_ok st' sent _ [IHz IHc] Htick
                  |st q sub' st' _ [IHz IHc] Hread].
  - split; intros p s; cbn; by rewrite lookup_empty.
  - by eapply on_message_invariants.
  - unfold clockfeed_on_timer in Htick.
    destruct (poll_sources _ _ _ _) as [heap|] eqn:Hpoll; [|done].
    cbn in Htick. injection Htick as <- _.
    pose proof (poll_sources_fields _ _ _ _ _ Hpoll) as Hf. split.
    + intros p s' (s & Hs & -> & -> & _)%Hf. by eapply IHz.
    + intros p s' (s & Hs & _ & _ & -> & _)%Hf. by eapply IHc.
  - unfold touch_sub in Hread.
    destruct (subs st !! q) as [sub|]; [|done]. cbn in Hread.
    destruct (decide _); [|done]. by injection Hread as <-.
Qed.

End Invariants.

(** ** Subscriptions *)

Lemma busy_state_no_zombies : no_zombies busy_state.
Proof.
  intros p s. unfold busy_state. cbn [sources]. intros Hs.
  apply lookup_insert_Some in Hs as [[_ <-]|[_ Hs]]; [done|].
  apply lookup_insert_Some in Hs as [[_ <-]|[_ Hs]]; [done|].
  by rewrite lookup_empty in Hs.
Qed.

(** X11.  Subscribing and then unsubscribing gives back the state: when
    a subscribe request is answered with a subscription, the
    subscription is the cell allocated for it, and unsubscribing it
    restores the whole service state, heap included.  (The cell is fresh,
    and no removed source without subscribers is lying about.) *)
Theorem subscribe_then_unsubscribe_restores
    (st st1 : feed_state) (c : clock_t) (q r : positive) :
  no_zombies st ->
  subs st !! q = None ->
  clockfeed_on_subscribe st c q = Some (st1, Some r) ->
  r = q /\ clockfeed_on_unsubscribe st1 q = Some st.
Proof.
  intros Hz Hfresh Hsub. unfold clockfeed_on_subscribe in Hsub.
  destruct (walk _ (m_active _)) as [[pre post]|];
    cbn [mbind option_bind] in Hsub; [|done].
  destruct (match post with [] => _ | _ => _ end) as [[p|]|];
    cbn [mbind option_bind] in Hsub; [|done..].
  destruct (sources st !! p) as [s|] eqn:Hs; [|done].
  cbn [mbind option_bind] in Hsub. injection Hsub as <- <-.
  split; [done|].
  unfold clockfeed_on_unsubscribe. cbn [subs sources module].
  rewrite lookup_insert_eq. cbn [mbind option_bind new_sub source].
  rewrite lookup_insert_eq. cbn [mbind option_bind].
  change (s_subscribers (set_subscribers s (q :: s_subscribers s)))
    with (q :: s_subscribers s).
  rewrite walk_stops_at_head
    by (unfold stop_at; by rewrite decide_True).
  cbn [mbind option_bind app]. rewrite insert_insert_eq.
  assert (Hback : set_subscribers (set_subscribers s (q :: s_subscribers s))
                    (s_subscribers s) = s) by (by destruct s).
  rewrite Hback, (insert_id _ _ _ Hs).
  unfold clockfeed_reap_zombies. cbn [sources]. rewrite Hs.
  cbn [mbind option_bind].
  assert (Hlive : s_inactive s && bool_decide (s_subscribers s = []) = false).
  { destruct (s_inactive s) eqn:Hi; [|done]. cbn.
    apply bool_decide_eq_false_2. by eapply Hz. }
  rewrite Hlive. cbn [mbind option_bind module sources subs].
  rewrite delete_insert_id by done. by destruct st.
Qed.

Lemma walk_clock_none heap c l :
  (forall p, p ∈ l -> exists s, heap !! p = Some s /\ s_clock s <> c) ->
  walk (stop_at_clock heap c) l = Some (l, []).
Proof.
  induction l as [|p l IH]; intros Hin; [done|].
  destruct (Hin p) as (s & Hs & Hc); [set_solver|].
  assert (Hstop : stop_at_clock heap c p = Some false).
  { unfold stop_at_clock. rewrite Hs. cbn [mbind option_bind].
    by rewrite (bool_decide_eq_false_2 _ Hc). }
  cbn [walk]. rewrite Hstop. cbn [mbind option_bind]. rewrite IH; [done|].
  intros x Hx. apply Hin. set_solver.
Qed.

(** X12.  Requests for a clock the service does not know.  On
    a well-formed state, removing a clock that no active source feeds
    leaves the state as it is (so a clock can be removed once only), and
    subscribing to a clock that no source at all feeds leaves the state as
    it is and answers with a NULL subscription. *)
Theorem unknown_clock_is_ignored
    (st : feed_state) (c : clock_t) (q : positive) :
  well_formed st ->
  (forall p s, p ∈ m_active (module st) -> sources st !! p = Some s ->
               s_clock s <> c) ->
  clockfeed_on_remove_clock st c = Some st /\
  ((forall p s, p ∈ m_inactive (module st) -> sources st !! p = Some s ->
                s_clock s <> c) ->
   clockfeed_on_subscribe st c q = Some (st, None)).
Proof.
  intros Hwf Hact.
  assert (Hwalk : forall l,
    (forall p, p ∈ l -> p ∈ m_active (module st) ++ m_inactive (module st)) ->
    (forall p s, p ∈ l -> sources st !! p = Some s -> s_clock s <> c) ->
    walk (stop_at_clock (sources st) c) l = Some (l, [])).
  { intros l Hl Hc. apply walk_clock_none. intros p Hp.
    destruct (proj2 (wf_listed _ Hwf p) (Hl p Hp)) as [s Hs].
    exists s. split; [done|]. by eapply Hc. }
  assert (Ha : walk (stop_at_clock (sources st) c) (m_active (module st))
               = Some (m_active (module st), [])).
  { apply Hwalk; [set_solver | done]. }
  split.
  - unfold clockfeed_on_remove_clock. by rewrite Ha.
  - intros Hinact. unfold clockfeed_on_subscribe. rewrite Ha.
    cbn [mbind option_bind]. rewrite Hwalk; [done | set_solver | done].
Qed.

(** X13.  Removing a clock that has a subscriber.  When a subscription
    points to the only active source of a clock, removing the clock keeps
    the source allocated and marks it inactive, the subscription is left
    as it is, and from then on every read through it returns
    [EOWNERDEAD]: it zeroes the difference and writes nothing else. *)
Theorem removed_clock_reads_owner_dead {time_ops : TimeOps}
    (st : feed_state) (q : positive) (sub : sfptpd_clockfeed_sub)
    (s : clockfeed_source) :
  well_formed st ->
  subs st !! q = Some sub ->
  sources st !! source sub = Some s ->
  s_inactive s = false ->
  (forall p' s', p' ∈ m_active (module st) -> sources st !! p' = Some s' ->
                 s_clock s' = s_clock s -> p' = source sub) ->
  exists st',
    clockfeed_on_remove_clock st (s_clock s) = Some st' /\
    subs st' = subs st /\
    sources st' = <[source sub := set_inactive s true]> (sources st) /\
    source sub ∈ m_inactive (module st') /\
    forall clock_active counter_reread now_mono t1 t2 mono_time,
      let o := clockfeed_compare_to_sys (set_inactive s true) sub clock_active
                 counter_reread now_mono t1 t2 mono_time in
      out_rc o = EOWNERDEAD /\ out_diff o = timespec_zero /\
      out_sub o = sub /\
      out_t1 o = t1 /\ out_t2 o = t2 /\ out_mono o = mono_time.
Proof.
  intros Hwf Hq Hs Hact Huniq. set (p := source sub) in *.
  assert (Hin : p ∈ m_active (module st)).
  { pose proof (proj1 (wf_listed _ Hwf p) (mk_is_Some _ _ Hs)) as Hi.
    apply elem_of_app in Hi as [?|Hi]; [done|].
    apply (wf_flag _ Hwf p s Hs) in Hi. congruence. }
  destruct (walk_clock_result (sources st) (s_clock s) (m_active (module st)))
    as (pre & post & Hw & Hl & Hpost).
  { intros x Hx. apply (wf_listed _ Hwf). set_solver. }
  destruct (walk_split _ _ _ _ Hw) as (_ & Hpre & _).
  destruct post as [|p' post].
  { rewrite app_nil_r in Hl. subst pre.
    rewrite Forall_forall in Hpre. specialize (Hpre p Hin).
    unfold stop_at_clock in Hpre. rewrite Hs in Hpre. cbn in Hpre.
    by rewrite bool_decide_eq_true_2 in Hpre. }
  destruct Hpost as (s' & Hs' & Hc').
  assert (p' = p) as -> by (apply (Huniq p' s'); [rewrite Hl; set_solver|done..]).
  assert (Hsub : s_subscribers s <> []).
  { destruct (wf_sub_source _ Hwf q sub Hq) as (s0 & Hs0 & Hmem).
    fold p in Hs0. assert (s0 = s) as -> by congruence.
    intros E. rewrite E in Hmem. by apply elem_of_nil in Hmem. }
  eexists. unfold clockfeed_on_remove_clock. rewrite Hw.
  cbn [mbind option_bind]. rewrite Hs. cbn [mbind option_bind].
  unfold clockfeed_reap_zombies. cbn [sources]. rewrite lookup_insert_eq.
  cbn [mbind option_bind set_inactive s_inactive s_subscribers andb].
  rewrite (bool_decide_eq_false_2 _ Hsub).
  split_and!; [done..| cbn; set_solver |].
  intros. unfold clockfeed_compare_to_sys. cbn. done.
Qed.

(** ** Event subscribers *)

(** The threads a tick sends the sync event to are those of the table. *)
Lemma timer_sent_from_table {time_ops : TimeOps} st env alloc_ok st' sent t :
  clockfeed_on_timer st env alloc_ok = Some (st', sent) ->
  t ∈ sent -> Some t ∈ m_event_subscribers (module st).
Proof.
  unfold clockfeed_on_timer.
  destruct (poll_sources _ _ _ _); cbn [mbind option_bind]; [|done].
  intros [= _ <-] Ht.
  apply list_elem_of_omap in Ht as ([i slot] & Hin & Hslot).
  apply elem_of_lookup_imap in Hin as (j & slot' & [= -> ->] & Hj).
  apply lookup_take_Some in Hj as [Hj _].
  destruct (alloc_ok j); [|done]. subst slot'.
  by eapply list_elem_of_lookup_2.
Qed.

(** X14.  Subscribing a thread to the sync events and unsubscribing it.
    With the table of [MAX_EVENT_SUBSCRIBERS] slots not full and the
    thread not in it: before, no tick sends the thread an event; the
    subscribe request is replied to and puts the thread in the table;
    from then on every tick whose message allocations succeed sends it the
    sync event; and unsubscribing gives back the state there was. *)
Theorem event_subscription_round_trip {time_ops : TimeOps}
    (st : feed_state) (thread : thread_t) :
  let tbl := m_event_subscribers (module st) in
  length tbl = MAX_EVENT_SUBSCRIBERS ->
  None ∈ tbl ->
  Some thread ∉ tbl ->
  (forall env alloc_ok st' sent,
     clockfeed_on_timer st env alloc_ok = Some (st', sent) ->
     thread ∉ sent) /\
  exists st1,
    clockfeed_on_subscribe_events st thread = (st1, MSG_REPLY) /\
    Some thread ∈ m_event_subscribers (module st1) /\
    (forall env st' sent,
       clockfeed_on_timer st1 env (fun _ => true) = Some (st', sent) ->
       thread ∈ sent) /\
    clockfeed_on_unsubscribe_events st1 thread = (st, MSG_REPLY).
Proof.
  intros tbl Hlen Hfree Hnew. split.
  { intros env alloc_ok st' sent Htick Hin. apply Hnew.
    by eapply timer_sent_from_table. }
  unfold clockfeed_on_subscribe_events. fold tbl.
  rewrite (take_ge tbl) by lia.
  destruct (list_find_elem_of (fun slot => slot = None) tbl None Hfree eq_refl)
    as [[i x] Hfind].
  rewrite Hfind. apply list_find_Some in Hfind as (Hi & -> & _).
  assert (Hlt : (i < length tbl)%nat) by (by eapply lookup_lt_Some).
  eexists. split; [done|].
  cbn [module set_event_subscribers m_event_subscribers]. split_and!.
  - by apply list_elem_of_insert.
  - intros env st' sent. unfold clockfeed_on_timer.
    destruct (poll_sources _ _ _ _); cbn [mbind option_bind]; [|done].
    intros [= _ <-]. cbn [module set_event_subscribers m_event_subscribers].
    apply list_elem_of_omap. exists (i, Some thread). split; [|done].
    apply (elem_of_lookup_imap_2 (fun i slot => (i, slot))).
    rewrite lookup_take_lt by (unfold MAX_EVENT_SUBSCRIBERS in *; lia).
    by apply list_lookup_insert_eq.
  - unfold clockfeed_on_unsubscribe_events.
    cbn [module sources subs set_event_subscribers m_event_subscribers
         m_poll_period_log2 m_running_phase m_active m_inactive].
    rewrite take_ge, drop_ge, app_nil_r by (rewrite length_insert; lia).
    assert (Htbl : (fun slot => if decide (slot = Some thread)
                                then None else slot)
                     <$> <[i := Some thread]> tbl = tbl).
    { apply list_eq. intros j. rewrite list_lookup_fmap.
      destruct (decide (i = j)) as [<-|Hne].
      - rewrite list_lookup_insert_eq by done. cbn.
        by rewrite decide_True, Hi.
      - rewrite list_lookup_insert_ne by done.
        destruct (tbl !! j) as [slot|] eqn:Hj; [|done]. cbn.
        rewrite decide_False; [done|]. intros ->.
        apply Hnew. by eapply list_elem_of_lookup_2. }
    rewrite Htbl. subst tbl. by destruct st as [[] ? ?].
Qed.

(** The reply to a subscribe request says whether a source feeds the
    clock. *)
Lemma subscribe_reply st c q :
  well_formed st ->
  exists st' r,
    clockfeed_on_subscribe st c q = Some (st', r) /\
    match r with
    | None =>
        st' = st /\ forall p s, sources st !! p = Some s -> s_clock s <> c
    | Some r' =>
        r' = q /\
        exists p s,
          sources st !! p = Some s /\ s_clock s = c /\
          st' = {| module := module st;
                   sources :=
                     <[p := set_subscribers s (q :: s_subscribers s)]>
                       (sources st);
                   subs := <[q := new_sub p]> (subs st) |}
    end.
Proof.
  intros Hwf.
  destruct (walk_clock_result (sources st) c (m_active (module st)))
    as (pre & post & Hw & Hl & Hpost).
  { intros x Hx. apply (wf_listed _ Hwf). set_solver. }
  unfold clockfeed_on_subscribe. rewrite Hw. cbn [mbind option_bind].
  destruct post as [|p post].
  - destruct (walk_clock_result (sources st) c (m_inactive (module st)))
      as (pre' & post' & Hw' & Hl' & Hpost').
    { intros x Hx. apply (wf_listed _ Hwf). set_solver. }
    rewrite Hw'. cbn [mbind option_bind].
    destruct post' as [|p post']; cbn [head mbind option_bind].
    + exists st, None. split; [done|]. split; [done|].
      intros x s Hs Hc.
      apply walk_split in Hw as (_ & Hpre & _).
      apply walk_split in Hw' as (_ & Hpre' & _).
      rewrite app_nil_r in Hl, Hl'. subst pre pre'.
      assert (Hx : x ∈ m_active (module st) ++ m_inactive (module st))
        by (apply (wf_listed _ Hwf); by eexists).
      assert (Hstop : stop_at_clock (sources st) c x = Some false).
      { rewrite Forall_forall in Hpre, Hpre'.
        apply elem_of_app in Hx as [Hx|Hx]; [by apply Hpre | by apply Hpre']. }
      unfold stop_at_clock in Hstop. rewrite Hs in Hstop. cbn in Hstop.
      by rewrite bool_decide_eq_true_2 in Hstop.
    + destruct Hpost' as (s & Hs & Hc). do 2 eexists. rewrite Hs.
      cbn [mbind option_bind]. split; [reflexivity|]. split; [done|].
      by exists p, s.
  - destruct Hpost as (s & Hs & Hc). cbn [mbind option_bind].
    do 2 eexists. rewrite Hs.
    cbn [mbind option_bind]. split; [reflexivity|]. split; [done|].
    by exists p, s.
Qed.

(** X30.  The caller's side of a subscription, on a well-formed state.
    For the system clock [sfptpd_clockfeed_subscribe] returns 0 with a
    NULL subscription and the feed is not asked.  For another clock,
    once the request has been handled: if no source feeds the clock, the
    handler replies NULL and the caller's [assert] on the reply fails;
    if a source feeds it, the call returns 0 with the new subscription,
    which points to a source of that clock, and the state stays well
    formed. *)
Theorem subscribing_to_an_unknown_clock_aborts
    (st : feed_state) (c : clock_t) (q : positive)
    (sub_before : option positive) :
  well_formed st ->
  subs st !! q = None ->
  (forall msg_ok send_rc,
     sfptpd_clockfeed_subscribe true msg_ok send_rc st c q sub_before
     = Some (st, 0, None)) /\
  ((forall p s, sources st !! p = Some s -> s_clock s <> c) ->
   sfptpd_clockfeed_subscribe false true 0 st c q sub_before = None) /\
  (forall p0 s0, sources st !! p0 = Some s0 -> s_clock s0 = c ->
   exists st' p s,
     sfptpd_clockfeed_subscribe false true 0 st c q sub_before
     = Some (st', 0, Some q) /\
     well_formed st' /\
     subs st' !! q = Some (new_sub p) /\
     sources st !! p = Some s /\ s_clock s = c /\
     sources st' !! p = Some (set_subscribers s (q :: s_subscribers s))).
Proof.
  intros Hwf Hfresh.
  destruct (subscribe_reply st c q Hwf) as (st' & r & Hsub & Hr).
  split_and!.
  - done.
  - intros Hnone. unfold sfptpd_clockfeed_subscribe. cbn [negb Z.eqb].
    rewrite Hsub. cbn [mbind option_bind].
    destruct r as [r|]; [|done].
    destruct Hr as (_ & p & s & Hs & Hc & _). by destruct (Hnone p s).
  - intros p0 s0 Hs0 Hc0. unfold sfptpd_clockfeed_subscribe.
    cbn [negb Z.eqb]. rewrite Hsub. cbn [mbind option_bind].
    destruct r as [r|]; [|by destruct Hr as [_ Hr]; destruct (Hr p0 s0)].
    destruct Hr as (-> & p & s & Hs & Hc & ->).
    eexists _, p, s. split; [reflexivity|]. split_and!; try done.
    + by apply link_subscriber_well_formed.
    + cbn [subs]. by rewrite lookup_insert_eq.
    + cbn [sources]. by rewrite lookup_insert_eq.
Qed.

Lemma timer_polls_the_active_sources_only_witness :
  exists st' sent,
    clockfeed_on_timer (time_ops := plain_time_ops) busy_state
      (fun _ => {| cmp_rc := 0; cmp_diff := timespec_zero;
                   now_monotonic := timespec_zero;
                   now_realtime := timespec_zero |})
      (fun _ => true) = Some (st', sent) /\
    module st' = module busy_state /\ subs st' = subs busy_state.
Proof.
  destruct (timer_polls_the_active_sources_only (time_ops := plain_time_ops)
              busy_state
              (fun _ => {| cmp_rc := 0; cmp_diff := timespec_zero;
                           now_monotonic := timespec_zero;
                           now_realtime := timespec_zero |})
              (fun _ => true) busy_state_well_formed)
    as (st' & sent & H1 & H2 & H3 & _).
  exists st', sent. split; [exact H1 | split; [exact H2 | exact H3]].
Defined.

Lemma source_is_sampled_on_its_cadence_witness :
  let s := source_with (good_sample 2) 3 false in
  s_shm (poll_source (time_ops := plain_time_ops)
           {| m_poll_period_log2 := -1; m_running_phase := true;
              m_active := []; m_inactive := [];
              m_event_subscribers := [] |} s
          {| cmp_rc := 0; cmp_diff := {| tv_sec := 0; tv_nsec := 250 |};
             now_monotonic := {| tv_sec := 51; tv_nsec := 0 |};
             now_realtime := {| tv_sec := 101; tv_nsec := 0 |} |})
  = s_shm s.
Proof.
  cbv zeta.
  refine (proj2 (proj2 (source_is_sampled_on_its_cadence
           (time_ops := plain_time_ops)
           {| m_poll_period_log2 := -1; m_running_phase := true;
              m_active := []; m_inactive := [];
              m_event_subscribers := [] |}
           (source_with (good_sample 2) 3 false)
           {| cmp_rc := 0; cmp_diff := {| tv_sec := 0; tv_nsec := 250 |};
              now_monotonic := {| tv_sec := 51; tv_nsec := 0 |};
              now_realtime := {| tv_sec := 101; tv_nsec := 0 |} |} _ _ _)) _);
    vm_compute; try split; solve [reflexivity | discriminate].
Defined.


Lemma require_fresh_rejects_the_sample_already_read_witness :
  let src := source_with (good_sample 3) 3 false in
  let o1 := clockfeed_compare_to_sys (time_ops := plain_time_ops) src
              (new_sub 10) true 3 None None None None in
  out_rc (clockfeed_compare_to_sys (time_ops := plain_time_ops) src
            (sfptpd_clockfeed_require_fresh (out_sub o1)) true 3
            None None None None) = ESTALE.
Proof.
  cbv zeta.
  refine (proj1 (proj1
    (require_fresh_rejects_the_sample_already_read
       (time_ops := plain_time_ops)
       (source_with (good_sample 3) 3 false)
       (source_with (good_sample 4) 4 false)
       (new_sub 10) 3 3 4 None None None None None None _ _ _ _)));
    vm_compute; solve [reflexivity | discriminate].
Defined.

Lemma compare_stops_at_the_first_failed_leg_witness :
  cr_rc (sfptpd_clockfeed_compare (time_ops := plain_time_ops)
           (Some {| r_sub := new_sub 11;
                    r_src := source_with (good_sample 3) 3 true;
                    r_clock_active := true; r_reread := 3; r_now := None |})
           (Some {| r_sub := new_sub 10;
                    r_src := source_with (good_sample 3) 3 false;
                    r_clock_active := true; r_reread := 3; r_now := None |})
           None None None timespec_zero timespec_zero)
  = EOWNERDEAD.
Proof.
  refine (proj1
    (compare_stops_at_the_first_failed_leg (time_ops := plain_time_ops)
       {| r_sub := new_sub 11;
          r_src := source_with (good_sample 3) 3 true;
          r_clock_active := true; r_reread := 3; r_now := None |}
       (Some {| r_sub := new_sub 10;
                r_src := source_with (good_sample 3) 3 false;
                r_clock_active := true; r_reread := 3; r_now := None |})
       None None None timespec_zero timespec_zero _));
    vm_compute; discriminate.
Defined.

Lemma compare_reports_the_monotonic_time_witness :
  cr_mono (sfptpd_clockfeed_compare (time_ops := plain_time_ops)
             (Some {| r_sub := new_sub 11;
                      r_src := source_with (good_sample 5) 5 false;
                      r_clock_active := true; r_reread := 5; r_now := None |})
             (Some {| r_sub := new_sub 10;
                      r_src := source_with (good_sample 3) 3 false;
                      r_clock_active := true; r_reread := 3; r_now := None |})
             None None (Some timespec_zero) timespec_zero timespec_zero)
  = Some {| tv_sec := 50; tv_nsec := 0 |}.
Proof.
  refine (proj2 (proj2 (proj2 (proj2 (proj2
    (compare_reports_the_monotonic_time (time_ops := plain_time_ops)
       {| r_sub := new_sub 11;
          r_src := source_with (good_sample 5) 5 false;
          r_clock_active := true; r_reread := 5; r_now := None |}
       {| r_sub := new_sub 10;
          r_src := source_with (good_sample 3) 3 false;
          r_clock_active := true; r_reread := 3; r_now := None |}
       None None timespec_zero timespec_zero timespec_zero _ _ _ _))))) _ _);
    vm_compute; solve [reflexivity | discriminate].
Defined.

Lemma shutdown_completes_only_if_every_source_is_subscribed_witness :
  clockfeed_on_shutdown busy_state
  = Some {| module := module_with [] [10%positive; 11%positive]
                        [Some 1%positive; Some 2%positive; Some 3%positive;
                         Some 4%positive];
            sources := (fun s => set_inactive s true) <$> sources busy_state;
            subs := subs busy_state |}.
Proof.
  refine (proj1 (shutdown_completes_only_if_every_source_is_subscribed
                   busy_state busy_state_well_formed) _).
  intros p s. unfold busy_state. cbn [sources].
  intros Hs.
  apply lookup_insert_Some in Hs as [[_ <-]|[_ Hs]]; [done|].
  apply lookup_insert_Some in Hs as [[_ <-]|[_ Hs]]; [done|].
  by rewrite lookup_empty in Hs.
Defined.

Lemma reachable_has_no_zombie_and_no_fast_source_witness :
  no_zombies (clockfeed_on_add_clock (initial_state 0) 7 (-3) 10) /\
  cadence_ok (clockfeed_on_add_clock (initial_state 0) 7 (-3) 10).
Proof.
  apply (reachable_has_no_zombie_and_no_fast_source
           (time_ops := plain_time_ops)).
  apply (reachable_step (initial_state 0) (ADD_CLOCK 7 (-3) 10));
    [apply reachable_initial | reflexivity | reflexivity].
Defined.

Lemma subscribe_then_unsubscribe_restores_witness :
  exists st1,
    clockfeed_on_subscribe busy_state 7 22 = Some (st1, Some 22%positive) /\
    clockfeed_on_unsubscribe st1 22 = Some busy_state.
Proof.
  eexists. split; [vm_compute; reflexivity|].
  refine (proj2 (subscribe_then_unsubscribe_restores busy_state _ 7 22 22
                   busy_state_no_zombies _ _));
    vm_compute; reflexivity.
Defined.

Lemma unknown_clock_is_ignored_witness :
  clockfeed_on_remove_clock busy_state 9 = Some busy_state.
Proof.
  refine (proj1 (unknown_clock_is_ignored busy_state 9 22
                   busy_state_well_formed _)).
  intros p s Hp. apply list_elem_of_singleton in Hp as ->.
  unfold busy_state. cbn [sources]. rewrite lookup_insert_eq.
  intros [= <-]. discriminate.
Defined.

Lemma removed_clock_reads_owner_dead_witness :
  exists st',
    clockfeed_on_remove_clock busy_state 7 = Some st' /\
    subs st' = subs busy_state.
Proof.
  destruct (removed_clock_reads_owner_dead (time_ops := plain_time_ops)
              busy_state 20 (new_sub 10)
              (source_with (good_sample 2) 3 false)
              busy_state_well_formed eq_refl eq_refl eq_refl)
    as (st' & H1 & H2 & _).
  - intros p' s' Hp _ _. by apply list_elem_of_singleton in Hp.
  - exists st'. split; [exact H1 | exact H2].
Defined.

Lemma event_subscription_round_trip_witness :
  exists st1,
    clockfeed_on_subscribe_events (initial_state 0) 5 = (st1, MSG_REPLY) /\
    clockfeed_on_unsubscribe_events st1 5 = (initial_state 0, MSG_REPLY).
Proof.
  destruct (event_subscription_round_trip (time_ops := plain_time_ops)
              (initial_state 0) 5 eq_refl)
    as (_ & st1 & H1 & _ & _ & H2).
  - apply list_elem_of_here.
  - intros Hin. cbn in Hin.
    repeat (apply elem_of_cons in Hin as [Hin|Hin]; [discriminate Hin|]).
    by apply elem_of_nil in Hin.
  - exists st1. split; [exact H1 | exact H2].
Defined.

Lemma subscribing_to_an_unknown_clock_aborts_witness :
  sfptpd_clockfeed_subscribe false true 0 busy_state 9 22 None = None.
Proof.
  refine (proj1 (proj2 (subscribing_to_an_unknown_clock_aborts busy_state 9 22
                          None busy_state_well_formed eq_refl)) _).
  intros p s. unfold busy_state. cbn [sources]. intros Hs.
  apply lookup_insert_Some in Hs as [[_ <-]|[_ Hs]]; [discriminate|].
  apply lookup_insert_Some in Hs as [[_ <-]|[_ Hs]]; [discriminate|].
  by rewrite lookup_empty in Hs.
Defined.

End ClockfeedExtra.

(** * More properties of the SHM servo instance *)

Module ShmExtra.
Import Shm ShmProps.

(** Bit facts for the flag and alarm words. *)
Lemma land_lor_same (a b : Z) : Z.land (Z.lor a b) b = b.
Proof.
  apply Z.bits_inj'. intros n _. rewrite Z.land_spec, Z.lor_spec.
  destruct (Z.testbit a n), (Z.testbit b n); done.
Qed.

Lemma land_ldiff_same (a b : Z) : Z.land (Z.ldiff a b) b = 0.
Proof.
  apply Z.bits_inj'. intros n Hn.
  rewrite Z.land_spec, Z.ldiff_spec, Z.bits_0.
  destruct (Z.testbit a n), (Z.testbit b n); done.
Qed.

Lemma land_lor_disjoint (a c b : Z) :
  Z.land c b = 0 -> Z.land (Z.lor a c) b = Z.land a b.
Proof. intros H. by rewrite Z.land_lor_distr_l, H, Z.lor_0_r. Qed.

Lemma land_ldiff_disjoint (a c b : Z) :
  Z.land c b = 0 -> Z.land (Z.ldiff a c) b = Z.land a b.
Proof.
  intros H. apply Z.bits_inj'. intros n Hn.
  rewrite !Z.land_spec, Z.ldiff_spec.
  assert (Hn0 : Z.testbit c n && Z.testbit b n = false)
    by (by rewrite <- Z.land_spec, H, Z.bits_0).
  destruct (Z.testbit a n), (Z.testbit b n), (Z.testbit c n); done.
Qed.

Lemma masked_update_twice (c m f : Z) :
  let c' := Z.lor (Z.land c (Z.lnot m)) (Z.land f m) in
  Z.lor (Z.land c' (Z.lnot m)) (Z.land f m) = c' /\
  Z.land c' m = Z.land f m /\
  Z.land c' (Z.lnot m) = Z.land c (Z.lnot m).
Proof.
  cbv zeta. split_and!; apply Z.bits_inj'; intros n Hn;
    rewrite ?Z.lor_spec, ?Z.land_spec, ?Z.lor_spec, ?Z.land_spec,
      ?Z.lnot_spec by done;
    destruct (Z.testbit c n), (Z.testbit m n), (Z.testbit f n); done.
Qed.

Section Servo.

Context {bits : SyncModuleBits} {ext : Collaborators}.

(** The servo update case by case: what it leaves alone in each. *)
Lemma servo_update_cases (clock_ctrl : sfptpd_clock_ctrl) (freq_correction : Q)
    (shm : shm_module_t) (i : sfptpd_shm_instance)
    (timestamp time_of_day : sfptpd_timespec) :
  let r := shm_servo_update clock_ctrl freq_correction shm i timestamp
             time_of_day in
  let d := servo_diff_ns i timestamp time_of_day in
  let wants_step := step_allowed clock_ctrl (servo_active i) d &&
                    beyond_step_threshold d in
  ctrl_flags r.1.2 = ctrl_flags i /\ state r.1.2 = state i /\
  alarms r.1.2 = alarms i /\ clock r.1.2 = clock i /\
  consecutive_good_periods r.1.2 = consecutive_good_periods i /\
  shm_seq_num r.1.2 = shm_seq_num i /\
  seq_num_errors (counters r.1.2) = seq_num_errors (counters i) /\
  bad_signal_errors (counters r.1.2) = bad_signal_errors (counters i) /\
  outliers (counters r.1.2) = outliers (counters i) /\
  if flag_set (ctrl_flags i) SYNC_MODULE_CLOCK_CTRL then
    servo_active r.1.2 = true /\
    if wants_step then
      r.2 = [CLOCK_ADJUST_TIME (clock i)
               (sfptpd_time_subtract sfptpd_time_null
                  (servo_diff timestamp time_of_day));
             CLOCK_ADJUST_FREQUENCY (clock i) freq_correction;
             SYNC_MODULE_STEP_CLOCK sfptpd_time_null]
    else exists ppb, r.2 = [CLOCK_ADJUST_FREQUENCY (clock i) ppb]
  else
    r.2 = [] /\ r.1.1 = shm /\ pid_filter r.1.2 = pid_filter i /\
    servo_active r.1.2 = servo_active i /\ counters r.1.2 = counters i /\
    step_occurred r.1.2 = step_occurred i /\
    shm_timestamp r.1.2 = shm_timestamp i /\
    if wants_step then r.1.2 = i
    else freq_adjust_ppb r.1.2 = freq_adjust_base i.
Proof.
  cbv zeta. unfold shm_servo_update.
  destruct (step_allowed _ _ _ && beyond_step_threshold _);
    destruct (flag_set (ctrl_flags i) SYNC_MODULE_CLOCK_CTRL) eqn:Hctl.
  - cbn. split_and!; done.
  - cbn. split_and!; done.
  - destruct (sfptpd_fir_filter_update _ _) as [fir mean].
    cbn [ctrl_flags set_fir_filter set_offset_from_master_ns
         set_freq_adjust_ppb]. rewrite Hctl.
    destruct (sfptpd_pid_filter_update _ _) as [pid out].
    cbn. split_and!; try done. by eexists.
  - destruct (sfptpd_fir_filter_update _ _) as [fir mean].
    cbn [ctrl_flags set_fir_filter set_offset_from_master_ns
         set_freq_adjust_ppb]. rewrite Hctl.
    cbn. split_and!; done.
Qed.

(** X16.  A servo that does not control its clock commands nothing: with
    the CLOCK_CTRL flag clear a servo update issues no clock adjustment
    and no step, leaves the PID filter, the servo-active mark, the
    counters and the time-of-day offset alone, and either changes nothing
    at all (when the offset calls for a step) or sets the frequency
    adjustment to the saved base. *)
Theorem servo_without_clock_control_commands_nothing
    (clock_ctrl : sfptpd_clock_ctrl) (freq_correction : Q)
    (shm : shm_module_t) (i : sfptpd_shm_instance)
    (timestamp time_of_day : sfptpd_timespec) :
  let r := shm_servo_update clock_ctrl freq_correction shm i timestamp
             time_of_day in
  let d := servo_diff_ns i timestamp time_of_day in
  flag_set (ctrl_flags i) SYNC_MODULE_CLOCK_CTRL = false ->
  r.2 = [] /\ r.1.1 = shm /\ pid_filter r.1.2 = pid_filter i /\
  servo_active r.1.2 = servo_active i /\ counters r.1.2 = counters i /\
  if step_allowed clock_ctrl (servo_active i) d && beyond_step_threshold d
  then r.1.2 = i
  else freq_adjust_ppb r.1.2 = freq_adjust_base i.
Proof.
  intros r d Hctl.
  pose proof (servo_update_cases clock_ctrl freq_correction shm i timestamp
                time_of_day) as H.
  cbv zeta in H. rewrite Hctl in H.
  destruct H as (_ & _ & _ & _ & _ & _ & _ & _ & _ & H1 & H2 & H3 & H4 & H5 &
                 _ & _ & H6).
  by split_and!.
Qed.


(** X18.  Under STEP_AT_STARTUP the servo steps at most once.  With the
    CLOCK_CTRL flag set, a servo update leaves the servo marked active,
    and the update after it asks for no step, however large the
    offset. *)
Theorem step_at_startup_steps_once
    (freq1 freq2 : Q) (shm : shm_module_t) (i : sfptpd_shm_instance)
    (timestamp1 time_of_day1 timestamp2 time_of_day2 : sfptpd_timespec)
    (c : positive) (offset : sfptpd_timespec) :
  let r1 := shm_servo_update SFPTPD_CLOCK_CTRL_STEP_AT_STARTUP freq1 shm i
              timestamp1 time_of_day1 in
  let r2 := shm_servo_update SFPTPD_CLOCK_CTRL_STEP_AT_STARTUP freq2
              r1.1.1 r1.1.2 timestamp2 time_of_day2 in
  flag_set (ctrl_flags i) SYNC_MODULE_CLOCK_CTRL = true ->
  servo_active r1.1.2 = true /\
  servo_active r2.1.2 = true /\
  CLOCK_ADJUST_TIME c offset ∉ r2.2.
Proof.
  intros r1 r2 Hctl.
  pose proof (servo_update_cases SFPTPD_CLOCK_CTRL_STEP_AT_STARTUP freq1 shm i
                timestamp1 time_of_day1) as H1.
  cbv zeta in H1. fold r1 in H1. rewrite Hctl in H1.
  destruct H1 as (Hflags & _ & _ & _ & _ & _ & _ & _ & _ & Hactive & _).
  pose proof (servo_update_cases SFPTPD_CLOCK_CTRL_STEP_AT_STARTUP freq2
                r1.1.1 r1.1.2 timestamp2 time_of_day2) as H2.
  cbv zeta in H2. fold r2 in H2. rewrite Hflags, Hctl, Hactive in H2.
  destruct H2 as (_ & _ & _ & _ & _ & _ & _ & _ & _ & Hactive2 & Hevs).
  split_and!; [done..|].
  unfold step_allowed in Hevs. cbn in Hevs. destruct Hevs as [ppb ->].
  intros Hin. apply elem_of_cons in Hin as [[=]|Hin].
  by apply elem_of_nil in Hin.
Qed.

(** One SHM event in the slave state, case by case. *)
Lemma slave_event_facts (clock_ctrl : sfptpd_clock_ctrl) (freq_correction : Q)
    (shm : shm_module_t) (i : sfptpd_shm_instance) (seq_num : Z)
    (time : sfptpd_timespec) :
  let r := shm_on_shm_event_slave clock_ctrl freq_correction shm i seq_num
             time in
  let seq_bad := negb (seq_num =? UINT32_MAX) &&
                 negb (seq_num =? to_uint32 (shm_seq_num i + 1)) in
  let a1 := SYNC_MODULE_ALARM_CLEAR (alarms i)
              SYNC_MODULE_ALARM_SHM_NO_SIGNAL in
  let a2 := if seq_bad
            then SYNC_MODULE_ALARM_SET a1 SYNC_MODULE_ALARM_SHM_SEQ_NUM_ERROR
            else SYNC_MODULE_ALARM_CLEAR a1
                   SYNC_MODULE_ALARM_SHM_SEQ_NUM_ERROR in
  let period := sfptpd_time_timespec_to_float_ns
                  (sfptpd_time_subtract time (shm_timestamp i)) in
  let processed := negb (Z.land (ctrl_flags i)
                           SYNC_MODULE_TIMESTAMP_PROCESSING =? 0) &&
                   negb (step_occurred i) in
  let measured := processed && negb (sec (shm_timestamp i) =? 0) in
  let bad := negb (sfptpd_notch_filter_update (notch_filter i) period =? 0) in
  state r.1.2 = state i /\
  ctrl_flags r.1.2 = ctrl_flags i /\
  clock r.1.2 = clock i /\
  seq_num_errors (counters r.1.2)
  = (if seq_bad then to_uint32 (seq_num_errors (counters i) + 1)
     else seq_num_errors (counters i)) /\
  alarms r.1.2
  = (if measured && bad
     then SYNC_MODULE_ALARM_SET a2 SYNC_MODULE_ALARM_SHM_BAD_SIGNAL
     else if processed &&
             (consecutive_good_periods r.1.2 >=? SHM_REQUIRED_GOOD_PERIODS)
     then SYNC_MODULE_ALARM_CLEAR a2 SYNC_MODULE_ALARM_SHM_BAD_SIGNAL
     else a2) /\
  consecutive_good_periods r.1.2
  = (if measured
     then if bad then 0 else to_uint64 (consecutive_good_periods i + 1)
     else consecutive_good_periods i) /\
  bad_signal_errors (counters r.1.2)
  = (if measured && bad then to_uint32 (bad_signal_errors (counters i) + 1)
     else bad_signal_errors (counters i)) /\
  (r.2 <> [] ->
   processed = true /\
   (consecutive_good_periods r.1.2 >=? SHM_REQUIRED_GOOD_PERIODS) = true /\
   last r.2 = Some SEND_RT_STATS_UPDATE) /\
  (r.2 = [] -> r.1.1 = shm).
Proof.
  cbv zeta. unfold shm_on_shm_event_slave.
  set (seq_bad := negb _ && negb _).
  set (i2 := if seq_bad then _ else _).
  assert (H2 : state i2 = state i /\ ctrl_flags i2 = ctrl_flags i /\
               clock i2 = clock i /\
               seq_num_errors (counters i2)
               = (if seq_bad then to_uint32 (seq_num_errors (counters i) + 1)
                  else seq_num_errors (counters i)) /\
               alarms i2
               = (if seq_bad
                  then SYNC_MODULE_ALARM_SET
                         (SYNC_MODULE_ALARM_CLEAR (alarms i)
                            SYNC_MODULE_ALARM_SHM_NO_SIGNAL)
                         SYNC_MODULE_ALARM_SHM_SEQ_NUM_ERROR
                  else SYNC_MODULE_ALARM_CLEAR
                         (SYNC_MODULE_ALARM_CLEAR (alarms i)
                            SYNC_MODULE_ALARM_SHM_NO_SIGNAL)
                         SYNC_MODULE_ALARM_SHM_SEQ_NUM_ERROR) /\
               consecutive_good_periods i2 = consecutive_good_periods i /\
               bad_signal_errors (counters i2)
               = bad_signal_errors (counters i) /\
               step_occurred i2 = step_occurred i /\
               shm_timestamp i2 = shm_timestamp i /\
               notch_filter i2 = notch_filter i).
  { subst i2. destruct seq_bad; cbn; done. }
  destruct H2 as (Hst & Hfl & Hck & Hseq & Hal & Hcg & Hbs & Hso & Hts & Hnf).
  clearbody i2. rewrite <- Hfl, <- Hso, <- Hts, <- Hnf, <- Hcg, <- Hbs, <- Hal.
  destruct (Z.land (ctrl_flags i2) SYNC_MODULE_TIMESTAMP_PROCESSING =? 0)
    eqn:Hproc.
  { cbn. split_and!; done. }
  destruct (step_occurred i2) eqn:Hstep.
  { cbn. split_and!; done. }
  cbn [negb andb].
  (* the instance after the period measurement *)
  set (i3 := if negb (sec (shm_timestamp i2) =? 0) then _ else i2).
  set (bad := negb (sfptpd_notch_filter_update (notch_filter i2) _ =? 0)).
  assert (H3 : state i3 = state i2 /\ ctrl_flags i3 = ctrl_flags i2 /\
               clock i3 = clock i2 /\
               seq_num_errors (counters i3) = seq_num_errors (counters i2) /\
               alarms i3
               = (if negb (sec (shm_timestamp i2) =? 0) && bad
                  then SYNC_MODULE_ALARM_SET (alarms i2)
                         SYNC_MODULE_ALARM_SHM_BAD_SIGNAL
                  else alarms i2) /\
               consecutive_good_periods i3
               = (if negb (sec (shm_timestamp i2) =? 0)
                  then if bad then 0
                       else to_uint64 (consecutive_good_periods i2 + 1)
                  else consecutive_good_periods i2) /\
               bad_signal_errors (counters i3)
               = (if negb (sec (shm_timestamp i2) =? 0) && bad
                  then to_uint32 (bad_signal_errors (counters i2) + 1)
                  else bad_signal_errors (counters i2)) /\
               (negb (sec (shm_timestamp i2) =? 0) && bad = true ->
                consecutive_good_periods i3 = 0)).
  { subst i3 bad. destruct (sec (shm_timestamp i2) =? 0); cbn [negb andb];
      [split_and!; done|].
    cbn [shm_period_ns set_shm_period_ns notch_filter].
    destruct (sfptpd_notch_filter_update _ _ =? 0); cbn; split_and!; done. }
  destruct H3 as (H3a & H3b & H3c & H3d & H3e & H3f & H3g & H3h).
  clearbody i3. rewrite <- H3f, <- H3g.
  destruct (consecutive_good_periods i3 >=? SHM_REQUIRED_GOOD_PERIODS)
    eqn:Hcount.
  2:{ cbn [fst snd]. rewrite ?Hcount, ?H3a, ?H3b, ?H3c, ?H3d, ?H3e.
      split_and!; done. }
  assert (Hgood : negb (sec (shm_timestamp i2) =? 0) && bad = false).
  { destruct (negb _ && bad); [|done]. rewrite H3h in Hcount; done. }
  rewrite Hgood in *.
  set (i4 := set_alarms _ i3).
  destruct (match outlier_filter i4 with Some _ => _ | None => _ end)
    as [i5 rc] eqn:Hout.
  assert (H5 : state i5 = state i3 /\ ctrl_flags i5 = ctrl_flags i3 /\
               clock i5 = clock i3 /\
               seq_num_errors (counters i5) = seq_num_errors (counters i3) /\
               alarms i5 = alarms i4 /\
               consecutive_good_periods i5 = consecutive_good_periods i3 /\
               bad_signal_errors (counters i5)
               = bad_signal_errors (counters i3)).
  { destruct (outlier_filter i4) as [f|]; [|by injection Hout as <- <-].
    destruct (sfptpd_peirce_filter_update _ _) as [f' rc'].
    destruct (rc' =? 0); by injection Hout as <- <-. }
  destruct H5 as (H5a & H5b & H5c & H5d & H5e & H5f & H5g).
  assert (H4 : alarms i4 = SYNC_MODULE_ALARM_CLEAR (alarms i2)
                             SYNC_MODULE_ALARM_SHM_BAD_SIGNAL).
  { subst i4. cbn. by rewrite H3e. }
  clear Hout. clearbody i4.
  destruct (rc =? 0).
  2:{ cbn [fst snd]. rewrite ?H5a, ?H5b, ?H5c, ?H5d, ?H5e, ?H5f, ?H5g,
        ?Hcount, ?H3a, ?H3b, ?H3c, ?H3d, ?H4. split_and!; done. }
  pose proof (servo_update_cases clock_ctrl freq_correction shm i5 time
                (tod_offset_from_master shm)) as Hservo.
  cbv zeta in Hservo.
  destruct (shm_servo_update _ _ _ _ _ _) as [[shm' i6] evs].
  cbn [fst snd] in Hservo.
  destruct Hservo as (S1 & S2 & S3 & S4 & S5 & _ & S7 & S8 & _).
  cbn [fst snd state ctrl_flags clock counters alarms
       consecutive_good_periods set_clustering_score].
  rewrite ?S1, ?S2, ?S3, ?S4, ?S5, ?S7, ?S8, ?H5a, ?H5b, ?H5c, ?H5d, ?H5e,
    ?H5f, ?H5g, ?Hcount, ?H3a, ?H3b, ?H3c, ?H3d, ?H4.
  split_and!; try done.
  - intros _. split_and!; try done.
    rewrite !app_assoc. by rewrite last_snoc.
  - rewrite !app_assoc. intros [_ [=]]%app_eq_nil.
Qed.

(** What [shm_on_shm_event] adds to the slave case. *)
Lemma slave_event_recorded (clock_ctrl : sfptpd_clock_ctrl)
    (freq_correction : Q) (time_now : sfptpd_timespec) (shm : shm_module_t)
    (i : sfptpd_shm_instance) (seq_num : Z) (time : sfptpd_timespec) :
  state i = SYNC_MODULE_STATE_SLAVE ->
  let s := shm_on_shm_event_slave clock_ctrl freq_correction shm i seq_num
             time in
  exists i',
    shm_on_shm_event clock_ctrl freq_correction time_now shm i seq_num time
    = Some (s.1.1, i', s.2) /\
    state i' = state s.1.2 /\ ctrl_flags i' = ctrl_flags s.1.2 /\
    alarms i' = alarms s.1.2 /\ counters i' = counters s.1.2 /\
    consecutive_good_periods i' = consecutive_good_periods s.1.2 /\
    clock i' = clock s.1.2 /\
    shm_seq_num i' = seq_num /\ last_shm_time i' = time_now /\
    shm_timestamp i'
    = (if flag_set (ctrl_flags s.1.2) SYNC_MODULE_TIMESTAMP_PROCESSING
       then time else shm_timestamp s.1.2).
Proof.
  intros Hst s. unfold shm_on_shm_event. rewrite Hst.
  cbn [mbind option_bind]. fold s. destruct s as [[shm' i1] evs].
  cbn [fst snd ctrl_flags set_shm_seq_num set_last_shm_time].
  eexists. split; [reflexivity|].
  destruct (flag_set (ctrl_flags i1) SYNC_MODULE_TIMESTAMP_PROCESSING);
    cbn; split_and!; done.
Qed.

(** The three handlers and the three states. *)
Lemma handlers_stay_in_three_states
    (clock_ctrl : sfptpd_clock_ctrl) (freq_correction : Q)
    (time_now : sfptpd_timespec) (shm : shm_module_t)
    (i : sfptpd_shm_instance) (seq_num : Z) (time : sfptpd_timespec) :
  let three := [SYNC_MODULE_STATE_LISTENING; SYNC_MODULE_STATE_SLAVE;
                SYNC_MODULE_STATE_FAULTY] in
  let ev := shm_on_shm_event clock_ctrl freq_correction time_now shm i
              seq_num time in
  (is_Some (shm_on_no_shm_event time_now i) <-> state i ∈ three) /\
  (is_Some (shm_on_shm_error i) <-> state i ∈ three) /\
  (is_Some ev <-> state i ∈ three) /\
  (forall i', shm_on_no_shm_event time_now i = Some i' ->
     (state i' = state i \/ state i' = SYNC_MODULE_STATE_LISTENING) /\
     (state i = SYNC_MODULE_STATE_FAULTY ->
      state i' = SYNC_MODULE_STATE_LISTENING)) /\
  (forall i', shm_on_shm_error i = Some i' ->
     state i' = SYNC_MODULE_STATE_FAULTY) /\
  (forall r, ev = Some r -> state r.1.2 = SYNC_MODULE_STATE_SLAVE).
Proof.
  intros three ev.
  assert (Hthree : state i ∈ three <->
            state i = SYNC_MODULE_STATE_LISTENING \/
            state i = SYNC_MODULE_STATE_SLAVE \/
            state i = SYNC_MODULE_STATE_FAULTY).
  { subst three. rewrite !elem_of_cons, elem_of_nil. tauto. }
  assert (Hev : forall r, ev = Some r ->
            state r.1.2 = SYNC_MODULE_STATE_SLAVE /\ state i ∈ three).
  { intros r Hr. subst ev. destruct (state i) eqn:Hst;
      try (unfold shm_on_shm_event in Hr; rewrite Hst in Hr; done).
    - unfold shm_on_shm_event in Hr. rewrite Hst in Hr. cbn in Hr.
      destruct (flag_set _ _); injection Hr as <-; cbn;
        (split; [done|]); apply Hthree; auto.
    - destruct (slave_event_recorded clock_ctrl freq_correction time_now shm
                  i seq_num time Hst) as (i' & Hi' & Hs' & _).
      rewrite Hi' in Hr. injection Hr as <-. cbn [fst snd]. rewrite Hs'.
      destruct (slave_event_facts clock_ctrl freq_correction shm i seq_num
                  time) as (-> & _).
      split; [done|]. apply Hthree; auto.
    - unfold shm_on_shm_event in Hr. rewrite Hst in Hr. cbn in Hr.
      destruct (flag_set _ _); injection Hr as <-; cbn;
        (split; [done|]); apply Hthree; auto. }
  split_and!.
  - rewrite Hthree. unfold shm_on_no_shm_event.
    destruct (state i); split; intros H;
      try (by destruct H as [? [=]]); try (destruct H as [|[|]]; done);
      auto; repeat case_match; by eexists.
  - rewrite Hthree. unfold shm_on_shm_error.
    destruct (state i); split; intros H;
      try (by destruct H as [? [=]]); try (destruct H as [|[|]]; done);
      auto; by eexists.
  - split.
    + intros [r Hr]. by apply Hev in Hr as [_ ?].
    + intros H. apply Hthree in H. subst ev. unfold shm_on_shm_event.
      destruct (state i); try (destruct H as [|[|]]; done);
        cbn [mbind option_bind]; repeat case_match; by eexists.
  - intros i'. unfold shm_on_no_shm_event.
    destruct (state i) eqn:Hst; try done;
      repeat case_match; intros [= <-]; cbn; rewrite ?Hst; split; auto; done.
  - intros i'. unfold shm_on_shm_error.
    destruct (state i) eqn:Hst; try done; intros [= <-]; cbn; by rewrite ?Hst.
  - intros r Hr. by apply Hev in Hr as [? _].
Qed.

(** X19.  The state machine has three states.  The three handlers of a
    poll (no event, error, event) return exactly in the states
    LISTENING, SLAVE and FAULTY, in any other state their
    [assert(false)] fails, and they lead to these states only: without
    an event the state stays or becomes LISTENING (it becomes LISTENING
    from FAULTY), an error leads to FAULTY, an event leads to SLAVE. *)
Theorem state_machine_has_three_states
    (clock_ctrl : sfptpd_clock_ctrl) (freq_correction : Q)
    (time_now : sfptpd_timespec) (shm : shm_module_t)
    (i : sfptpd_shm_instance) (seq_num : Z) (time : sfptpd_timespec) :
  let three := [SYNC_MODULE_STATE_LISTENING; SYNC_MODULE_STATE_SLAVE;
                SYNC_MODULE_STATE_FAULTY] in
  let ev := shm_on_shm_event clock_ctrl freq_correction time_now shm i
              seq_num time in
  (is_Some (shm_on_no_shm_event time_now i) <-> state i ∈ three) /\
  (is_Some (shm_on_shm_error i) <-> state i ∈ three) /\
  (is_Some ev <-> state i ∈ three) /\
  (forall i', shm_on_no_shm_event time_now i = Some i' ->
     (state i' = state i \/ state i' = SYNC_MODULE_STATE_LISTENING) /\
     (state i = SYNC_MODULE_STATE_FAULTY ->
      state i' = SYNC_MODULE_STATE_LISTENING)) /\
  (forall i', shm_on_shm_error i = Some i' ->
     state i' = SYNC_MODULE_STATE_FAULTY) /\
  (forall r, ev = Some r -> state r.1.2 = SYNC_MODULE_STATE_SLAVE).
Proof.
  exact (handlers_stay_in_three_states clock_ctrl freq_correction time_now
           shm i seq_num time).
Qed.

(** X20.  A control request sets the flags under its mask and no other,
    and repeating it changes nothing: after [shm_on_control] the flags
    agree with the request on the bits of the mask and with the old flags
    on the others, and a second, identical request leaves the instance
    as the first left it (no second filter or timestamp reset). *)
Theorem control_is_masked_and_idempotent
    (i : sfptpd_shm_instance) (mask flags : Z) :
  let i' := shm_on_control i mask flags in
  Z.land (ctrl_flags i') mask = Z.land flags mask /\
  Z.land (ctrl_flags i') (Z.lnot mask) = Z.land (ctrl_flags i) (Z.lnot mask) /\
  shm_on_control i' mask flags = i'.
Proof.
  cbv zeta.
  destruct (masked_update_twice (ctrl_flags i) mask flags)
    as (Htwice & Hin & Hout).
  assert (Hflags : ctrl_flags (shm_on_control i mask flags)
                   = Z.lor (Z.land (ctrl_flags i) (Z.lnot mask))
                       (Z.land flags mask)).
  { unfold shm_on_control. by repeat case_match. }
  split_and!; [by rewrite Hflags..|].
  set (c' := Z.lor (Z.land (ctrl_flags i) (Z.lnot mask)) (Z.land flags mask))
    in *.
  assert (Heta : set_ctrl_flags c' (shm_on_control i mask flags)
                 = shm_on_control i mask flags).
  { unfold shm_on_control. cbv zeta. fold c'. by repeat case_match. }
  set (i' := shm_on_control i mask flags) in *. clearbody i'.
  unfold shm_on_control. rewrite Hflags, Htwice.
  destruct (Z.land c' SYNC_MODULE_CLOCK_CTRL =? 0); cbn [negb andb];
    rewrite ?andb_false_r, ?Hflags;
    destruct (Z.land c' SYNC_MODULE_TIMESTAMP_PROCESSING =? 0);
    cbn [negb andb]; rewrite ?andb_false_r; done.
Qed.

(** X21.  The sequence-number alarm follows the last event.  After an
    event in the slave state the SEQ_NUM_ERROR alarm is raised exactly
    when the event's number is neither [UINT32_MAX] (the mark of a source
    without sequence numbers) nor the successor, modulo [2^32], of the
    number recorded before; the error counter goes up by one in that case
    and only then; the NO_SIGNAL alarm is clear; and the number and the
    arrival time of the event are recorded.  (The alarm bits are
    distinct.) *)
Theorem sequence_number_alarm_follows_the_event
    (clock_ctrl : sfptpd_clock_ctrl) (freq_correction : Q)
    (time_now : sfptpd_timespec) (shm : shm_module_t)
    (i : sfptpd_shm_instance) (seq_num : Z) (time : sfptpd_timespec) :
  let seq_bad := negb (seq_num =? UINT32_MAX) &&
                 negb (seq_num =? to_uint32 (shm_seq_num i + 1)) in
  state i = SYNC_MODULE_STATE_SLAVE ->
  SYNC_MODULE_ALARM_SHM_SEQ_NUM_ERROR <> 0 ->
  Z.land SYNC_MODULE_ALARM_SHM_BAD_SIGNAL SYNC_MODULE_ALARM_SHM_SEQ_NUM_ERROR
  = 0 ->
  Z.land SYNC_MODULE_ALARM_SHM_BAD_SIGNAL SYNC_MODULE_ALARM_SHM_NO_SIGNAL = 0 ->
  Z.land SYNC_MODULE_ALARM_SHM_SEQ_NUM_ERROR SYNC_MODULE_ALARM_SHM_NO_SIGNAL
  = 0 ->
  exists shm' i' evs,
    shm_on_shm_event clock_ctrl freq_correction time_now shm i seq_num time
    = Some (shm', i', evs) /\
    shm_seq_num i' = seq_num /\ last_shm_time i' = time_now /\
    SYNC_MODULE_ALARM_TEST (alarms i') SYNC_MODULE_ALARM_SHM_SEQ_NUM_ERROR
    = seq_bad /\
    seq_num_errors (counters i')
    = (if seq_bad then to_uint32 (seq_num_errors (counters i) + 1)
       else seq_num_errors (counters i)) /\
    SYNC_MODULE_ALARM_TEST (alarms i') SYNC_MODULE_ALARM_SHM_NO_SIGNAL = false.
Proof.
  intros seq_bad Hst Hbit Hbs Hbn Hsn.
  destruct (slave_event_recorded clock_ctrl freq_correction time_now shm i
              seq_num time Hst)
    as (i' & Hev & _ & _ & Hal & Hcnt & _ & _ & Hseq & Hlast & _).
  destruct (slave_event_facts clock_ctrl freq_correction shm i seq_num time)
    as (_ & _ & _ & Herr & Halarm & _).
  fold seq_bad in Herr, Halarm.
  do 3 eexists. split; [exact Hev|].
  rewrite Hcnt, Hal, Herr. split_and!; try done.
  - unfold SYNC_MODULE_ALARM_TEST. rewrite Halarm.
    unfold SYNC_MODULE_ALARM_SET, SYNC_MODULE_ALARM_CLEAR.
    assert (Hbase : negb (Z.land
              (if seq_bad
               then Z.lor (Z.ldiff (alarms i) SYNC_MODULE_ALARM_SHM_NO_SIGNAL)
                      SYNC_MODULE_ALARM_SHM_SEQ_NUM_ERROR
               else Z.ldiff (Z.ldiff (alarms i) SYNC_MODULE_ALARM_SHM_NO_SIGNAL)
                      SYNC_MODULE_ALARM_SHM_SEQ_NUM_ERROR)
              SYNC_MODULE_ALARM_SHM_SEQ_NUM_ERROR =? 0) = seq_bad).
    { destruct seq_bad.
      - rewrite land_lor_same.
        by destruct (Z.eqb_spec SYNC_MODULE_ALARM_SHM_SEQ_NUM_ERROR 0).
      - by rewrite land_ldiff_same. }
    clear Herr. set (a2 := if seq_bad then Z.lor _ _ else _) in *.
    clearbody a2.
    repeat case_match;
      rewrite ?land_lor_disjoint, ?land_ldiff_disjoint by done;
      exact Hbase.
  - unfold SYNC_MODULE_ALARM_TEST. rewrite Halarm.
    unfold SYNC_MODULE_ALARM_SET, SYNC_MODULE_ALARM_CLEAR.
    assert (Hno : Z.land
              (if seq_bad
               then Z.lor (Z.ldiff (alarms i) SYNC_MODULE_ALARM_SHM_NO_SIGNAL)
                      SYNC_MODULE_ALARM_SHM_SEQ_NUM_ERROR
               else Z.ldiff (Z.ldiff (alarms i) SYNC_MODULE_ALARM_SHM_NO_SIGNAL)
                      SYNC_MODULE_ALARM_SHM_SEQ_NUM_ERROR)
              SYNC_MODULE_ALARM_SHM_NO_SIGNAL = 0).
    { destruct seq_bad;
        rewrite ?land_lor_disjoint, ?land_ldiff_disjoint by done;
        apply land_ldiff_same. }
    clear Herr. set (a2 := if seq_bad then Z.lor _ _ else _) in *.
    clearbody a2.
    repeat case_match;
      rewrite ?land_lor_disjoint, ?land_ldiff_disjoint by done;
      by rewrite Hno.
Qed.

(** X24.  The servo waits for three good periods.  An event raises the
    count of consecutive good periods by one at most; and if the event
    has the servo run (it produces requests to the clock or the engine),
    then the instance was in the slave state with timestamp processing
    enabled and no step pending, the count after the event is at least
    [SHM_REQUIRED_GOOD_PERIODS = 3], so it was at least 2 before, and the
    last request is the statistics update. *)
Theorem servo_waits_for_three_good_periods
    (clock_ctrl : sfptpd_clock_ctrl) (freq_correction : Q)
    (time_now : sfptpd_timespec) (shm shm' : shm_module_t)
    (i i' : sfptpd_shm_instance) (seq_num : Z) (time : sfptpd_timespec)
    (evs : list event) :
  0 <= consecutive_good_periods i ->
  shm_on_shm_event clock_ctrl freq_correction time_now shm i seq_num time
  = Some (shm', i', evs) ->
  consecutive_good_periods i' <= consecutive_good_periods i + 1 /\
  (evs <> [] ->
   state i = SYNC_MODULE_STATE_SLAVE /\
   flag_set (ctrl_flags i) SYNC_MODULE_TIMESTAMP_PROCESSING = true /\
   step_occurred i = false /\
   SHM_REQUIRED_GOOD_PERIODS <= consecutive_good_periods i' /\
   2 <= consecutive_good_periods i /\
   last evs = Some SEND_RT_STATS_UPDATE).
Proof.
  intros Hpos Hev.
  destruct (decide (state i = SYNC_MODULE_STATE_SLAVE)) as [Hst|Hst].
  - destruct (slave_event_recorded clock_ctrl freq_correction time_now shm i
                seq_num time Hst)
      as (i1 & Hev1 & _ & _ & _ & _ & Hcg & _).
    rewrite Hev1 in Hev. injection Hev as <- <- <-.
    destruct (slave_event_facts clock_ctrl freq_correction shm i seq_num time)
      as (_ & _ & _ & _ & _ & Hcount & _ & Hrun & _).
    rewrite Hcg. clear Hcg Hev1.
    set (s := shm_on_shm_event_slave _ _ _ _ _ _) in *.
    assert (Hle : consecutive_good_periods s.1.2
                  <= consecutive_good_periods i + 1).
    { rewrite Hcount. repeat case_match; try lia.
      unfold to_uint64. apply Z.mod_le; lia. }
    split; [done|]. intros Hne. destruct (Hrun Hne) as (Hproc & Hge & Hlast).
    apply andb_prop in Hproc as [Hts Hstep].
    unfold SHM_REQUIRED_GOOD_PERIODS in *.
    destruct (Z.geb_spec (consecutive_good_periods s.1.2) 3); [|done].
    split_and!; try done; try lia.
    by destruct (step_occurred i).
  - unfold shm_on_shm_event in Hev.
    destruct (state i); try done; cbn in Hev;
      destruct (flag_set _ _); injection Hev as <- <- <-; cbn;
      (split; [lia|done]).
Qed.

(** X25.  A bad period.  In the slave state, with timestamp processing
    enabled, no step pending and a previous timestamp to measure from,
    an event whose period the notch filter rejects raises the
    BAD_SIGNAL alarm, counts one bad-signal error, puts the count of
    consecutive good periods back to 0 and does not run the servo: no
    request goes out and the time-of-day record is untouched.  The
    timestamp of the event is recorded all the same. *)
Theorem bad_period_raises_the_alarm
    (clock_ctrl : sfptpd_clock_ctrl) (freq_correction : Q)
    (time_now : sfptpd_timespec) (shm : shm_module_t)
    (i : sfptpd_shm_instance) (seq_num : Z) (time : sfptpd_timespec) :
  state i = SYNC_MODULE_STATE_SLAVE ->
  Z.land (ctrl_flags i) SYNC_MODULE_TIMESTAMP_PROCESSING <> 0 ->
  step_occurred i = false ->
  sec (shm_timestamp i) <> 0 ->
  sfptpd_notch_filter_update (notch_filter i)
    (sfptpd_time_timespec_to_float_ns
       (sfptpd_time_subtract time (shm_timestamp i))) <> 0 ->
  SYNC_MODULE_ALARM_SHM_BAD_SIGNAL <> 0 ->
  exists i',
    shm_on_shm_event clock_ctrl freq_correction time_now shm i seq_num time
    = Some (shm, i', []) /\
    consecutive_good_periods i' = 0 /\
    SYNC_MODULE_ALARM_TEST (alarms i') SYNC_MODULE_ALARM_SHM_BAD_SIGNAL
    = true /\
    bad_signal_errors (counters i')
    = to_uint32 (bad_signal_errors (counters i) + 1) /\
    shm_timestamp i' = time.
Proof.
  intros Hst Hts Hstep Hvalid Hbad Hbit.
  destruct (slave_event_recorded clock_ctrl freq_correction time_now shm i
              seq_num time Hst)
    as (i' & Hev & _ & Hfl & Hal & Hcnt & Hcg & _ & _ & _ & Hstamp).
  destruct (slave_event_facts clock_ctrl freq_correction shm i seq_num time)
    as (_ & Hflags & _ & _ & Halarm & Hcount & Hbs & Hrun & Hshm).
  set (s := shm_on_shm_event_slave _ _ _ _ _ _) in *.
  apply Z.eqb_neq in Hts, Hvalid, Hbad.
  rewrite Hts, Hstep, Hvalid, Hbad in Halarm, Hcount, Hbs. cbn in Halarm, Hcount, Hbs.
  assert (Hnone : s.2 = []).
  { destruct s.2 eqn:E; [done|].
    destruct Hrun as (_ & Hge & _); [done|]. by rewrite Hcount in Hge. }
  exists i'. rewrite Hev, Hnone, (Hshm Hnone). split; [done|].
  rewrite Hcg, Hal, Hcnt, Hcount, Hbs, Halarm, Hstamp, Hflags.
  split_and!; try done.
  - unfold SYNC_MODULE_ALARM_TEST, SYNC_MODULE_ALARM_SET.
    rewrite land_lor_same.
    by destruct (Z.eqb_spec SYNC_MODULE_ALARM_SHM_BAD_SIGNAL 0).
  - unfold flag_set. by rewrite Hts.
Qed.

End Servo.

Lemma servo_without_clock_control_commands_nothing_witness :
  (shm_servo_update (bits := plain_bits) (ext := plain_collaborators)
     SFPTPD_CLOCK_CTRL_SLEW_AND_STEP (inject_Z 7) plain_shm
     (plain_instance SYNC_MODULE_STATE_SLAVE 0 false 2 (inject_Z 0))
     (event_time 3500) {| sec := 2; nsec := 0; nsec_frac := 0 |}).2 = [].
Proof.
  refine (proj1 (servo_without_clock_control_commands_nothing
                   (bits := plain_bits) (ext := plain_collaborators)
                   SFPTPD_CLOCK_CTRL_SLEW_AND_STEP (inject_Z 7) plain_shm
                   (plain_instance SYNC_MODULE_STATE_SLAVE 0 false 2
                      (inject_Z 0))
                   (event_time 3500)
                   {| sec := 2; nsec := 0; nsec_frac := 0 |} _)).
  reflexivity.
Defined.


Lemma step_at_startup_steps_once_witness :
  servo_active
    (shm_servo_update (bits := plain_bits) (ext := plain_collaborators)
       SFPTPD_CLOCK_CTRL_STEP_AT_STARTUP (inject_Z 7) plain_shm
       (plain_instance SYNC_MODULE_STATE_SLAVE 0 false 6 (inject_Z 0))
       (event_time 3500) {| sec := 2; nsec := 0; nsec_frac := 0 |}).1.2
  = true.
Proof.
  refine (proj1 (step_at_startup_steps_once
                   (bits := plain_bits) (ext := plain_collaborators)
                   (inject_Z 7) (inject_Z 7) plain_shm
                   (plain_instance SYNC_MODULE_STATE_SLAVE 0 false 6
                      (inject_Z 0))
                   (event_time 3500)
                   {| sec := 2; nsec := 0; nsec_frac := 0 |}
                   (event_time 3500)
                   {| sec := 2; nsec := 0; nsec_frac := 0 |}
                   3%positive sfptpd_time_null _)).
  reflexivity.
Defined.

Lemma sequence_number_alarm_follows_the_event_witness :
  exists shm' i' evs,
    shm_on_shm_event (bits := plain_bits) (ext := plain_collaborators)
      SFPTPD_CLOCK_CTRL_SLEW_AND_STEP (inject_Z 0) (event_time 0) plain_shm
      (plain_instance SYNC_MODULE_STATE_SLAVE 0 false 6 (inject_Z 0))
      19 {| sec := 100; nsec := 3500; nsec_frac := 0 |}
    = Some (shm', i', evs) /\
    SYNC_MODULE_ALARM_TEST (alarms i')
      (SYNC_MODULE_ALARM_SHM_SEQ_NUM_ERROR (SyncModuleBits := plain_bits))
    = true.
Proof.
  destruct (sequence_number_alarm_follows_the_event
              (bits := plain_bits) (ext := plain_collaborators)
              SFPTPD_CLOCK_CTRL_SLEW_AND_STEP (inject_Z 0) (event_time 0)
              plain_shm
              (plain_instance SYNC_MODULE_STATE_SLAVE 0 false 6 (inject_Z 0))
              19 {| sec := 100; nsec := 3500; nsec_frac := 0 |}
              eq_refl ltac:(discriminate) eq_refl eq_refl eq_refl)
    as (shm' & i' & evs & H1 & _ & _ & H2 & _).
  exists shm', i', evs. split; [exact H1 | exact H2].
Defined.

Lemma servo_waits_for_three_good_periods_witness :
  exists shm' i' evs,
    shm_on_shm_event (bits := plain_bits) (ext := plain_collaborators)
      SFPTPD_CLOCK_CTRL_SLEW_AND_STEP (inject_Z 0) (event_time 0) plain_shm
      (plain_instance SYNC_MODULE_STATE_SLAVE 0 false 6 (inject_Z 0))
      18 {| sec := 100; nsec := 3500; nsec_frac := 0 |}
    = Some (shm', i', evs) /\
    consecutive_good_periods i' <= 5 + 1.
Proof.
  destruct (slave_event_recorded
              (bits := plain_bits) (ext := plain_collaborators)
              SFPTPD_CLOCK_CTRL_SLEW_AND_STEP (inject_Z 0) (event_time 0)
              plain_shm
              (plain_instance SYNC_MODULE_STATE_SLAVE 0 false 6 (inject_Z 0))
              18 {| sec := 100; nsec := 3500; nsec_frac := 0 |} eq_refl)
    as (i' & E & _).
  eexists _, i', _. split; [exact E|].
  refine (proj1 (servo_waits_for_three_good_periods
                   (bits := plain_bits) (ext := plain_collaborators)
                   SFPTPD_CLOCK_CTRL_SLEW_AND_STEP (inject_Z 0) (event_time 0)
                   plain_shm _
                   (plain_instance SYNC_MODULE_STATE_SLAVE 0 false 6
                      (inject_Z 0))
                   i' 18 {| sec := 100; nsec := 3500; nsec_frac := 0 |}
                   _ _ E)).
  discriminate.
Defined.

Lemma bad_period_raises_the_alarm_witness :
  exists i',
    shm_on_shm_event (bits := plain_bits) (ext := plain_collaborators)
      SFPTPD_CLOCK_CTRL_SLEW_AND_STEP (inject_Z 0) (event_time 0) plain_shm
      (plain_instance SYNC_MODULE_STATE_SLAVE 0 false 6 (inject_Z 0))
      18 {| sec := 100; nsec := 500003500; nsec_frac := 0 |}
    = Some (plain_shm, i', []) /\
    consecutive_good_periods i' = 0.
Proof.
  destruct (bad_period_raises_the_alarm
              (bits := plain_bits) (ext := plain_collaborators)
              SFPTPD_CLOCK_CTRL_SLEW_AND_STEP (inject_Z 0) (event_time 0)
              plain_shm
              (plain_instance SYNC_MODULE_STATE_SLAVE 0 false 6 (inject_Z 0))
              18 {| sec := 100; nsec := 500003500; nsec_frac := 0 |}
              eq_refl ltac:(discriminate) eq_refl ltac:(discriminate)
              ltac:(vm_compute; discriminate) ltac:(discriminate))
    as (i' & H1 & H2 & _).
  exists i'. split; [exact H1 | exact H2].
Defined.

(** ** Draining the events *)

Lemma drain_loop_spec (polls : Z -> drain_poll) (fuel : nat) (i rc : Z) :
  0 <= i ->
  (Z.to_nat (max_drain - i) < fuel)%nat ->
  let r := drain_loop fuel i rc polls in
  i <= r.2 /\ (i <= max_drain -> r.2 <= max_drain) /\
  (r.2 = i -> r.1 = rc /\ (rc <> EAGAIN \/ max_drain <= i)) /\
  (i < r.2 ->
   rc = EAGAIN /\ r.1 = drain_step (polls (r.2 - 1)) /\
   forall j, i <= j < r.2 - 1 -> drain_step (polls j) = EAGAIN) /\
  (r.2 < max_drain -> r.1 <> EAGAIN).
Proof.
  revert i rc. induction fuel as [|fuel IH]; intros i rc Hi Hfuel; [lia|].
  cbn [drain_loop]. unfold max_drain in *.
  destruct (Z.eqb_spec rc EAGAIN) as [->|Hrc]; cbn [andb];
    [destruct (Z.ltb_spec i 1000) as [Hlt|Hge]|].
  - specialize (IH (i + 1) (drain_step (polls i)) ltac:(lia) ltac:(lia)).
    cbv zeta in IH. destruct (drain_loop _ _ _ _) as [rc' i'].
    cbn [fst snd] in *. destruct IH as (H1 & H2 & H3 & H4 & H5).
    split_and!; try lia; try done.
    intros _. split; [done|].
    destruct (decide (i' = i + 1)) as [->|Hne].
    + destruct (H3 eq_refl) as [-> _]. split.
      * f_equal. f_equal. lia.
      * intros j Hj. lia.
    + destruct H4 as (Hstep & -> & Hall); [lia|]. split; [done|].
      intros j Hj. destruct (decide (j = i)) as [->|]; [done|].
      apply Hall. lia.
  - cbn [fst snd]. split_and!; try lia; try done.
    all: try (split; [done|]; lia).
  - cbn [fst snd]. split_and!; try lia; try done.
    all: try (split; [done|]; by left).
Qed.

(** What a round that leaves [EAGAIN] saw, and what one that leaves 0
    saw. *)
Lemma drain_step_again (p : drain_poll) :
  drain_step p = EAGAIN <->
  swallows p = true \/ p = POLL_READABLE EAGAIN \/ p = POLL_FAILED EAGAIN.
Proof.
  destruct p as [e|rc|]; cbn [drain_step swallows].
  - split; [intros ->; auto | intros [?|[?|?]]; simplify_eq; done].
  - destruct (Z.eqb_spec rc 0) as [->|Hne].
    + split; [auto | done].
    + split; [intros ->; auto | intros [?|[?|?]]; simplify_eq; done].
  - split; [done | intros [?|[?|?]]; simplify_eq].
Qed.

Lemma drain_step_zero (p : drain_poll) :
  drain_step p = 0 -> swallows p = false.
Proof.
  destruct p as [e|rc|]; cbn [drain_step swallows]; try done.
  destruct (Z.eqb_spec rc 0); [done | done].
Qed.

Lemma events_swallowed_le polls n :
  0 <= events_swallowed polls n <= Z.of_nat n.
Proof.
  induction n as [|n IH]; cbn [events_swallowed]; [lia|].
  destruct (swallows _); lia.
Qed.

Lemma events_swallowed_all polls n :
  (forall j, 0 <= j < Z.of_nat n -> swallows (polls j) = true) ->
  events_swallowed polls n = Z.of_nat n.
Proof.
  induction n as [|n IH]; intros H; cbn [events_swallowed]; [done|].
  rewrite IH by (intros j Hj; apply H; lia).
  rewrite (H (Z.of_nat n)) by lia. lia.
Qed.

(** X22.  Draining the events of a descriptor.  The loop polls at least
    once and at most [max_drain = 1000] times; it returns what the last
    round left in [rc]; every round before it left [EAGAIN], that is, it
    read an event and swallowed it, or the read or [poll] itself gave
    [EAGAIN]; and it stops early only with a code other than [EAGAIN].
    So when all 1000 rounds leave [EAGAIN], as when each swallows an
    event, the function returns [EAGAIN] and logs it as an error; the
    warning that it gave up is logged only when the 1000th round is the
    first to leave 0.  When it returns 0 the last round has read no
    event, so the number of rounds [i] it logs as swallowed exceeds the
    events read: these are [i - 1] at most, and exactly [i - 1] when
    every earlier round read one. *)
Theorem drain_polls_a_thousand_times_at_most (polls : Z -> drain_poll) :
  let r := shm_drain_events polls in
  let rc := r.1.1 in
  let i := r.1.2 in
  let events := events_swallowed polls (Z.to_nat i) in
  1 <= i <= max_drain /\
  rc = drain_step (polls (i - 1)) /\
  (forall j, 0 <= j < i - 1 ->
     swallows (polls j) = true \/ polls j = POLL_READABLE EAGAIN \/
     polls j = POLL_FAILED EAGAIN) /\
  (i < max_drain -> rc <> EAGAIN) /\
  r.2 = (if rc =? 0
         then if i =? max_drain then LOG_GAVE_UP else LOG_SWALLOWED i
         else LOG_ERROR rc) /\
  ((forall j, 0 <= j < max_drain -> drain_step (polls j) = EAGAIN) ->
   rc = EAGAIN /\ i = max_drain /\ r.2 = LOG_ERROR EAGAIN) /\
  ((forall j, 0 <= j < max_drain -> swallows (polls j) = true) ->
   rc = EAGAIN /\ events = max_drain) /\
  (rc = 0 ->
   swallows (polls (i - 1)) = false /\ events <= i - 1 /\
   ((forall j, 0 <= j < i - 1 -> swallows (polls j) = true) ->
    events = i - 1)).
Proof.
  cbv zeta. unfold shm_drain_events.
  pose proof (drain_loop_spec polls (S (Z.to_nat max_drain)) 0 EAGAIN
                ltac:(lia) ltac:(unfold max_drain; lia)) as H.
  cbv zeta in H. destruct (drain_loop _ _ _ _) as [rc i].
  cbn [fst snd] in *. destruct H as (H1 & H2 & H3 & H4 & H5).
  unfold max_drain in *.
  assert (Hi : 1 <= i).
  { destruct (decide (i = 0)) as [->|]; [|lia].
    destruct (H3 eq_refl) as [_ [?|?]]; [done | lia]. }
  destruct H4 as (_ & Hrc & Hall); [lia|].
  assert (Hlog : (if negb (rc =? 0) then LOG_ERROR rc
                  else if i =? 1000 then LOG_GAVE_UP
                  else if negb (i =? 0) then LOG_SWALLOWED i
                  else LOG_NOTHING)
                 = (if rc =? 0
                    then if i =? 1000 then LOG_GAVE_UP else LOG_SWALLOWED i
                    else LOG_ERROR rc)).
  { destruct (rc =? 0); cbn [negb]; [|done].
    destruct (i =? 1000); [done|].
    by destruct (Z.eqb_spec i 0); [lia|]. }
  assert (Hfull : (forall j, 0 <= j < 1000 -> drain_step (polls j) = EAGAIN) ->
                  rc = EAGAIN /\ i = 1000).
  { intros Hevents.
    assert (Hrc' : rc = EAGAIN) by (rewrite Hrc; apply Hevents; lia).
    split; [done|].
    destruct (decide (i < 1000)); [|lia]. by destruct H5. }
  assert (Hsplit : Z.to_nat i = S (Z.to_nat (i - 1))) by lia.
  split_and!; try done; try lia.
  - intros j Hj. apply drain_step_again. by apply Hall.
  - intros Hevents. destruct (Hfull Hevents) as [Hrc' Hi'].
    split_and!; try done. rewrite Hlog, Hrc'. done.
  - intros Hevents.
    destruct Hfull as [Hrc' Hi'].
    { intros j Hj. apply drain_step_again. left. by apply Hevents. }
    split; [done|]. rewrite Hi'.
    rewrite events_swallowed_all; [lia|].
    intros j Hj. apply Hevents. lia.
  - intros Hz. rewrite Hz in Hrc. symmetry in Hrc.
    apply drain_step_zero in Hrc.
    assert (Hev : events_swallowed polls (Z.to_nat i)
                  = events_swallowed polls (Z.to_nat (i - 1))).
    { rewrite Hsplit. cbn [events_swallowed].
      replace (Z.of_nat (Z.to_nat (i - 1))) with (i - 1) by lia.
      rewrite Hrc. lia. }
    rewrite Hev. split_and!; [done | |].
    + pose proof (events_swallowed_le polls (Z.to_nat (i - 1))). lia.
    + intros Hevents. rewrite events_swallowed_all; [lia|].
      intros j Hj. apply Hevents. lia.
Qed.

(** ** The poll *)

Section Poll.

Context {bits : SyncModuleBits} {ext : Collaborators} {tod_ops : TimeOfDayOps}.

(** X23.  A step request and the event after it.  [shm_on_step_clock]
    steps the clock by the negated offset, puts the frequency back to the
    saved correction and tells the time-of-day module; it marks a step
    as pending but, unlike a step the servo decides on, counts no clock
    step and does not mark the servo active.  The next event of
    a slave that processes timestamps then runs no filter and sends
    nothing: it clears the mark, leaves the count of good periods as it
    is, and records its own timestamp, from which the event after it
    measures its period. *)
Theorem step_request_is_followed_by_a_silent_event
    (clock_ctrl : sfptpd_clock_ctrl) (freq_correction freq_correction' : Q)
    (time_now : sfptpd_timespec) (shm : shm_module_t)
    (i : sfptpd_shm_instance) (offset : sfptpd_timespec) (seq_num : Z)
    (time : sfptpd_timespec) :
  let r1 := shm_on_step_clock freq_correction shm i offset in
  state i = SYNC_MODULE_STATE_SLAVE ->
  Z.land (ctrl_flags i) SYNC_MODULE_TIMESTAMP_PROCESSING <> 0 ->
  r1.2 = [CLOCK_ADJUST_TIME (clock i)
            (sfptpd_time_subtract sfptpd_time_null offset);
          CLOCK_ADJUST_FREQUENCY (clock i) freq_correction;
          SYNC_MODULE_STEP_CLOCK sfptpd_time_null] /\
  step_occurred r1.1.2 = true /\
  counters r1.1.2 = counters i /\
  servo_active r1.1.2 = servo_active i /\
  tod_offset_from_master r1.1.1 = sfptpd_time_null /\
  exists i2,
    shm_on_shm_event clock_ctrl freq_correction' time_now r1.1.1 r1.1.2
      seq_num time
    = Some (r1.1.1, i2, []) /\
    step_occurred i2 = false /\
    shm_timestamp i2 = time /\
    consecutive_good_periods i2 = consecutive_good_periods i /\
    fir_filter i2 = fir_filter r1.1.2 /\
    pid_filter i2 = pid_filter r1.1.2 /\
    servo_active i2 = servo_active i.
Proof.
  intros r1 Hst Hts.
  assert (H1 : r1.2 = [CLOCK_ADJUST_TIME (clock i)
                         (sfptpd_time_subtract sfptpd_time_null offset);
                       CLOCK_ADJUST_FREQUENCY (clock i) freq_correction;
                       SYNC_MODULE_STEP_CLOCK sfptpd_time_null] /\
               step_occurred r1.1.2 = true /\
               counters r1.1.2 = counters i /\
               servo_active r1.1.2 = servo_active i /\
               tod_offset_from_master r1.1.1 = sfptpd_time_null /\
               state r1.1.2 = state i /\
               ctrl_flags r1.1.2 = ctrl_flags i /\
               consecutive_good_periods r1.1.2 = consecutive_good_periods i).
  { subst r1. unfold shm_on_step_clock, shm_servo_step_clock, shm_servo_reset.
    cbn. split_and!; done. }
  destruct H1 as (Hevs & Hstep & Hcnt & Hact & Htod & Hst1 & Hfl1 & Hcg1).
  split_and!; try done.
  destruct r1 as [[shm1 i1] evs1]. cbn [fst snd] in *.
  clear Hevs evs1.
  unfold shm_on_shm_event. rewrite Hst1, Hst. cbn [mbind option_bind].
  unfold shm_on_shm_event_slave.
  set (i2 := if negb (seq_num =? UINT32_MAX) && _ then _ else _).
  assert (H2 : ctrl_flags i2 = ctrl_flags i /\ step_occurred i2 = true /\
               consecutive_good_periods i2 = consecutive_good_periods i /\
               fir_filter i2 = fir_filter i1 /\ pid_filter i2 = pid_filter i1 /\
               servo_active i2 = servo_active i).
  { subst i2. destruct (negb _ && negb _); cbn; split_and!; congruence. }
  destruct H2 as (Hfl2 & Hstep2 & Hcg2 & Hfir2 & Hpid2 & Hact2).
  clearbody i2. apply Z.eqb_neq in Hts.
  rewrite Hfl2, Hts, Hstep2.
  cbn [ctrl_flags set_shm_timestamp set_step_occurred set_shm_seq_num
       set_last_shm_time].
  unfold flag_set. rewrite Hfl2, Hts. cbn [negb].
  eexists. split; [reflexivity|]. cbn. split_and!; done.
Qed.

(** The time-of-day poll changes nothing of the instance but its alarms. *)
Lemma time_of_day_poll_frame (env : tod_env) (tod : shm_time_of_day)
    (i : sfptpd_shm_instance) :
  let r := shm_time_of_day_poll env tod i in
  r.1.2 = set_alarms (alarms r.1.2) i.
Proof.
  assert (Hid : set_alarms (alarms i) i = i) by (by destruct i).
  cbv zeta. unfold shm_time_of_day_poll.
  repeat case_match; cbn [fst snd alarms set_alarms]; done.
Qed.

(** X26.  The time-of-day poll.  Until the time of the next poll has
    passed it changes nothing and does not read the feed.  When it has,
    the poll leaves the NO_TIME_OF_DAY alarm raised exactly when the
    state it holds of the time-of-day module is neither SLAVE nor
    SELECTION, touches no other alarm bit and no other field of the
    instance, and, if the module was known already, puts the next poll
    one second after the time it was due. *)
Theorem time_of_day_poll_sets_the_alarm
    (env : tod_env) (tod : shm_time_of_day) (i : sfptpd_shm_instance) :
  let r := shm_time_of_day_poll env tod i in
  let time_left :=
    sfptpd_time_subtract (next_poll_time tod) (tod_time_now env) in
  let has_time :=
    bool_decide (tod_state (status r.1.1) = SYNC_MODULE_STATE_SLAVE) ||
    bool_decide (tod_state (status r.1.1) = SYNC_MODULE_STATE_SELECTION) in
  SYNC_MODULE_ALARM_NO_TIME_OF_DAY <> 0 ->
  (0 <= sec time_left -> r = (tod, i, false)) /\
  (sec time_left < 0 ->
   SYNC_MODULE_ALARM_TEST (alarms r.1.2) SYNC_MODULE_ALARM_NO_TIME_OF_DAY
   = negb has_time /\
   (forall b, Z.land SYNC_MODULE_ALARM_NO_TIME_OF_DAY b = 0 ->
              Z.land (alarms r.1.2) b = Z.land (alarms i) b) /\
   r.1.2 = set_alarms (alarms r.1.2) i /\
   (source_module tod = true ->
    source_module r.1.1 = true /\
    next_poll_time r.1.1
    = {| sec := sec (next_poll_time tod) + 1;
         nsec := nsec (next_poll_time tod);
         nsec_frac := nsec_frac (next_poll_time tod) |}) /\
   (r.2 = true -> source_module r.1.1 = true)).
Proof.
  intros r time_left has_time Hbit.
  pose proof (time_of_day_poll_frame env tod i) as Hframe.
  cbv zeta in Hframe. fold r in Hframe.
  subst r has_time. unfold shm_time_of_day_poll in *.
  fold time_left. fold time_left in Hframe.
  destruct (Z.geb_spec (sec time_left) 0) as [Hge|Hlt].
  { split; [done | lia]. }
  split; [lia|]. intros _.
  set (tod1 := if negb (source_module _) then _ else _) in *.
  assert (Hknown : source_module tod = true ->
            tod1 = {| source_module := true;
                      next_poll_time :=
                        {| sec := sec (next_poll_time tod) + 1;
                           nsec := nsec (next_poll_time tod);
                           nsec_frac := nsec_frac (next_poll_time tod) |};
                      status := status tod |}).
  { intros Hm. subst tod1. cbn [source_module]. by rewrite Hm. }
  clearbody tod1.
  set (p := if source_module tod1 then _ else _) in *.
  assert (Hp : source_module p.1 = source_module tod1 /\
               next_poll_time p.1 = next_poll_time tod1 /\
               (p.2 = true -> source_module tod1 = true)).
  { subst p. destruct (source_module tod1) eqn:Hm; [|done].
    destruct (tod_get_status env (status tod1)) as [rc st].
    destruct (_ && _); [|done]. by destruct (tod_compare env). }
  clearbody p. destruct p as [tod2 fr]. cbn [fst snd] in *.
  destruct Hp as (Hm2 & Hn2 & Hfr).
  set (has := bool_decide _ || bool_decide _) in *.
  split_and!.
  - unfold SYNC_MODULE_ALARM_TEST, SYNC_MODULE_ALARM_SET,
      SYNC_MODULE_ALARM_CLEAR.
    destruct has; cbn [negb alarms set_alarms].
    + by rewrite land_ldiff_same.
    + destruct (Z.eqb_spec (Z.land (alarms i)
                              SYNC_MODULE_ALARM_NO_TIME_OF_DAY) 0) as [E|E];
        cbn [negb alarms set_alarms].
      * rewrite land_lor_same.
        by destruct (Z.eqb_spec SYNC_MODULE_ALARM_NO_TIME_OF_DAY 0).
      * by destruct (Z.eqb_spec (Z.land (alarms i)
                                   SYNC_MODULE_ALARM_NO_TIME_OF_DAY) 0).
  - intros b Hb.
    unfold SYNC_MODULE_ALARM_TEST, SYNC_MODULE_ALARM_SET,
      SYNC_MODULE_ALARM_CLEAR.
    destruct has; cbn [negb alarms set_alarms].
    + by apply land_ldiff_disjoint.
    + destruct (negb _); cbn [alarms set_alarms]; [|done].
      by apply land_lor_disjoint.
  - exact Hframe.
  - intros Hm. rewrite Hm2, Hn2, (Hknown Hm). done.
  - intros ->. rewrite Hm2. by apply Hfr.
Qed.

Lemma convergence_update_frame (rc : Z) (t : sfptpd_timespec)
    (i : sfptpd_shm_instance) :
  let i' := shm_convergence_update rc t i in
  state i' = state i /\ prev_state i' = prev_state i /\
  alarms i' = alarms i /\ prev_alarms i' = prev_alarms i /\
  consecutive_good_periods i' = consecutive_good_periods i /\
  clustering_score i' = clustering_score i /\
  (state i <> SYNC_MODULE_STATE_SLAVE -> synchronized i' = false).
Proof.
  cbv zeta. unfold shm_convergence_update.
  destruct (decide (state i = SYNC_MODULE_STATE_SLAVE)) as [Hs|Hs].
  - rewrite (bool_decide_eq_true_2 _ Hs).
    repeat case_match; cbn; split_and!; done.
  - rewrite (bool_decide_eq_false_2 _ Hs), orb_true_r. cbn.
    split_and!; done.
Qed.

(** A poll, from what its handler returns. *)
Lemma do_poll_after_handler (clock_ctrl : sfptpd_clock_ctrl)
    (freq_correction : Q) (env : poll_env) (st : poll_state) :
  let i := instance_of st in
  let shm := status (time_of_day_of st) in
  let h :=
    if get_rc env =? EAGAIN then
      i ← shm_on_no_shm_event (monotonic_now env) i; Some (shm, i, [])
    else if negb (get_rc env =? 0) then
      i ← shm_on_shm_error i; Some (shm, i, [])
    else
      shm_on_shm_event clock_ctrl freq_correction (monotonic_now env) shm i
        (get_seq_num env) (get_time env) in
  match h with
  | Some (shm1, i1, evs) =>
      exists st' out,
        shm_do_poll clock_ctrl freq_correction env st = Some (st', out) /\
        poll_events out = evs /\ poll_rc out = get_rc env /\
        state (instance_of st') = state i1 /\
        consecutive_good_periods (instance_of st')
        = consecutive_good_periods i1 /\
        clustering_score (instance_of st') = clustering_score i1 /\
        prev_state (instance_of st') = state i1 /\
        prev_alarms (instance_of st') = alarms (instance_of st') /\
        prev_clustering_score st' = clustering_score i1 /\
        counters (instance_of st')
        = {| clock_steps := 0; seq_num_errors := 0;
             bad_signal_errors := 0; outliers := 0 |} /\
        (state i1 <> SYNC_MODULE_STATE_SLAVE ->
         synchronized (instance_of st') = false) /\
        poll_state_changed out
        = (if negb (bool_decide (state i1 = prev_state i1)) ||
              (bool_decide (state i1 = SYNC_MODULE_STATE_SLAVE) &&
               negb (Bool.eqb (alarms (instance_of st') =? 0)
                       (prev_alarms i1 =? 0))) ||
              negb (clustering_score i1 =? prev_clustering_score st)
           then Some (state i1, alarms (instance_of st'), clustering_score i1)
           else None)
  | None => shm_do_poll clock_ctrl freq_correction env st = None
  end.
Proof.
  cbv zeta. unfold shm_do_poll.
  destruct (if get_rc env =? EAGAIN then _ else _) as [[[shm1 i1] evs]|];
    cbn [mbind option_bind]; [|done].
  pose proof (time_of_day_poll_frame (time_of_day_env env)
                {| source_module := source_module (time_of_day_of st);
                   next_poll_time := next_poll_time (time_of_day_of st);
                   status := shm1 |} i1) as Htod.
  cbv zeta in Htod.
  destruct (shm_time_of_day_poll _ _ _) as [[tod' i2] fr].
  cbn [fst snd] in Htod.
  pose proof (convergence_update_frame (convergence_rc env)
                (convergence_time env) i2) as Hconv.
  cbv zeta in Hconv.
  set (i3 := shm_convergence_update _ _ i2) in *.
  destruct Hconv as (C1 & C2 & C3 & C4 & C5 & C6 & C7).
  assert (T : state i2 = state i1 /\ prev_state i2 = prev_state i1 /\
              prev_alarms i2 = prev_alarms i1 /\
              consecutive_good_periods i2 = consecutive_good_periods i1 /\
              clustering_score i2 = clustering_score i1).
  { rewrite Htod. cbn. done. }
  destruct T as (T1 & T2 & T3 & T4 & T5).
  clearbody i3. unfold shm_stats_update. cbv zeta.
  do 2 eexists. split; [reflexivity|].
  cbn [poll_events poll_rc instance_of prev_clustering_score
       poll_state_changed state consecutive_good_periods clustering_score
       prev_state prev_alarms alarms counters synchronized
       set_prev_state set_prev_alarms set_counters].
  rewrite ?C1, ?C2, ?C3, ?C4, ?C5, ?C6, ?T1, ?T2, ?T3, ?T4, ?T5.
  split_and!; try done.
  - intros Hne. apply C7. by rewrite T1.
  - destruct (clustering_score i1 =? prev_clustering_score st);
      cbn [negb]; by rewrite ?orb_true_r, ?orb_false_r.
Qed.

(** X27.  A return to LISTENING is not reported.  When a poll finds no
    event and the instance is FAULTY, or is a slave whose last event is
    at least [shm_timeout_interval] old, the poll resets the state
    machine to LISTENING and marks the instance unsynchronized, but,
    the clustering score being what it was, gives the engine no
    state-changed notification: the reset has set the previous state to
    LISTENING too.  The poll sends no request and returns [EAGAIN]. *)
Theorem return_to_listening_is_not_reported
    (clock_ctrl : sfptpd_clock_ctrl) (freq_correction : Q)
    (env : poll_env) (st : poll_state) :
  let i := instance_of st in
  get_rc env = EAGAIN ->
  state i = SYNC_MODULE_STATE_FAULTY \/
  (state i = SYNC_MODULE_STATE_SLAVE /\
   sfptpd_time_is_greater_or_equal
     (sfptpd_time_subtract (monotonic_now env) (last_shm_time i))
     shm_timeout_interval = true) ->
  clustering_score i = prev_clustering_score st ->
  exists st' out,
    shm_do_poll clock_ctrl freq_correction env st = Some (st', out) /\
    state (instance_of st') = SYNC_MODULE_STATE_LISTENING /\
    synchronized (instance_of st') = false /\
    poll_state_changed out = None /\
    poll_events out = [] /\
    poll_rc out = EAGAIN.
Proof.
  intros i Hrc Hcase Hscore.
  pose proof (do_poll_after_handler clock_ctrl freq_correction env st) as H.
  cbv zeta in H. fold i in H. rewrite Hrc, Z.eqb_refl in H.
  assert (Hno : shm_on_no_shm_event (monotonic_now env) i
                = Some (shm_state_machine_reset i)).
  { unfold shm_on_no_shm_event.
    destruct Hcase as [->|[-> ->]]; done. }
  rewrite Hno in H. cbn [mbind option_bind] in H.
  destruct H as (st' & out & Hpoll & Hevs & Hrc' & Hst & _ & _ & _ & _ & _ &
                 _ & Hsync & Hchg).
  exists st', out. split_and!; try done.
  - apply Hsync. done.
  - rewrite Hchg. cbn. rewrite Hscore, Z.eqb_refl. done.
Qed.

(** The handlers and the events in a row. *)
Lemma no_event_in_a_row (time_now : sfptpd_timespec)
    (i i1 : sfptpd_shm_instance) :
  0 <= consecutive_good_periods i ->
  (state i <> SYNC_MODULE_STATE_SLAVE -> consecutive_good_periods i = 0) ->
  shm_on_no_shm_event time_now i = Some i1 ->
  0 <= consecutive_good_periods i1 /\
  (state i1 <> SYNC_MODULE_STATE_SLAVE -> consecutive_good_periods i1 = 0) /\
  events_in_a_row i1 <= events_in_a_row i + 1.
Proof.
  intros Hpos Hzero. unfold shm_on_no_shm_event, events_in_a_row.
  destruct (state i) eqn:Hst; try done.
  - intros [= <-]. rewrite Hst. repeat case_bool_decide; try done.
    all: try (split_and!; (done || lia || auto)).
  - destruct (sfptpd_time_is_greater_or_equal _ shm_timeout_interval).
    + intros [= <-]. cbn. repeat case_bool_decide; try done.
      all: try (split_and!; (done || lia || auto)).
    + destruct (_ && _); intros [= <-]; cbn; rewrite ?Hst;
        repeat case_bool_decide; try done;
        try (split_and!; (done || lia || auto)).
  - intros [= <-]. cbn. repeat case_bool_decide; try done.
    all: try (split_and!; (done || lia || auto)).
Qed.

Lemma error_in_a_row (i i1 : sfptpd_shm_instance) :
  0 <= consecutive_good_periods i ->
  (state i <> SYNC_MODULE_STATE_SLAVE -> consecutive_good_periods i = 0) ->
  shm_on_shm_error i = Some i1 ->
  0 <= consecutive_good_periods i1 /\
  (state i1 <> SYNC_MODULE_STATE_SLAVE -> consecutive_good_periods i1 = 0) /\
  events_in_a_row i1 <= events_in_a_row i + 1.
Proof.
  intros Hpos Hzero. unfold shm_on_shm_error, events_in_a_row.
  destruct (state i) eqn:Hst; try done; intros [= <-]; cbn; rewrite ?Hst;
    repeat case_bool_decide; try done;
    try (split_and!; (done || lia || auto)).
Qed.

Lemma event_in_a_row (clock_ctrl : sfptpd_clock_ctrl) (freq_correction : Q)
    (time_now : sfptpd_timespec) (shm shm1 : shm_module_t)
    (i i1 : sfptpd_shm_instance) (seq_num : Z) (time : sfptpd_timespec)
    (evs : list event) :
  0 <= consecutive_good_periods i ->
  (state i <> SYNC_MODULE_STATE_SLAVE -> consecutive_good_periods i = 0) ->
  shm_on_shm_event clock_ctrl freq_correction time_now shm i seq_num time
  = Some (shm1, i1, evs) ->
  0 <= consecutive_good_periods i1 /\
  (state i1 <> SYNC_MODULE_STATE_SLAVE -> consecutive_good_periods i1 = 0) /\
  events_in_a_row i1 <= events_in_a_row i + 1 /\
  (evs <> [] -> 4 <= events_in_a_row i1).
Proof.
  intros Hpos Hzero Hev. unfold events_in_a_row.
  destruct (decide (state i = SYNC_MODULE_STATE_SLAVE)) as [Hst|Hst].
  - destruct (slave_event_recorded clock_ctrl freq_correction time_now shm i
                seq_num time Hst)
      as (i1' & Hev' & Hs1 & _ & _ & _ & Hc1 & _).
    rewrite Hev' in Hev. injection Hev as <- <- <-.
    destruct (slave_event_facts clock_ctrl freq_correction shm i seq_num time)
      as (Hs2 & _ & _ & _ & _ & Hcount & _ & Hrun & _).
    set (s := shm_on_shm_event_slave _ _ _ _ _ _) in *.
    rewrite Hs1, Hs2, Hc1, Hst.
    rewrite !bool_decide_eq_true_2 by done.
    assert (Hb : 0 <= consecutive_good_periods s.1.2
                 <= consecutive_good_periods i + 1).
    { rewrite Hcount. repeat case_match; try lia.
      unfold to_uint64. split; [apply Z.mod_pos_bound; lia|].
      apply Z.mod_le; lia. }
    split_and!; try done; try lia.
    intros Hne. destruct (Hrun Hne) as (_ & Hge & _).
    unfold SHM_REQUIRED_GOOD_PERIODS in Hge.
    destruct (Z.geb_spec (consecutive_good_periods s.1.2) 3); [lia|done].
  - assert (Hz : consecutive_good_periods i = 0) by (by apply Hzero).
    unfold shm_on_shm_event in Hev.
    destruct (state i) eqn:Hsi; try done; cbn in Hev;
      destruct (flag_set _ _); injection Hev as <- <- <-; cbn; rewrite ?Hz;
      repeat case_bool_decide; try done;
      try (split_and!; (done || lia || auto)).
Qed.

(** One poll and the events in a row. *)
Lemma do_poll_events_in_a_row (clock_ctrl : sfptpd_clock_ctrl)
    (freq_correction : Q) (env : poll_env) (st st' : poll_state)
    (out : poll_output) :
  0 <= consecutive_good_periods (instance_of st) ->
  (state (instance_of st) <> SYNC_MODULE_STATE_SLAVE ->
   consecutive_good_periods (instance_of st) = 0) ->
  shm_do_poll clock_ctrl freq_correction env st = Some (st', out) ->
  0 <= consecutive_good_periods (instance_of st') /\
  (state (instance_of st') <> SYNC_MODULE_STATE_SLAVE ->
   consecutive_good_periods (instance_of st') = 0) /\
  events_in_a_row (instance_of st') <= events_in_a_row (instance_of st) + 1 /\
  (poll_events out <> [] -> 4 <= events_in_a_row (instance_of st')).
Proof.
  intros Hpos Hzero Hpoll.
  pose proof (do_poll_after_handler clock_ctrl freq_correction env st) as H.
  cbv zeta in H.
  destruct (if get_rc env =? EAGAIN then _ else _)
    as [[[shm1 i1] evs]|] eqn:Hh; [|congruence].
  destruct H as (st1 & out1 & Hpoll1 & Hevs & _ & Hst & Hcg & _).
  rewrite Hpoll1 in Hpoll. injection Hpoll as <- <-.
  assert (Hi1 : 0 <= consecutive_good_periods i1 /\
                (state i1 <> SYNC_MODULE_STATE_SLAVE ->
                 consecutive_good_periods i1 = 0) /\
                events_in_a_row i1 <= events_in_a_row (instance_of st) + 1 /\
                (evs <> [] -> 4 <= events_in_a_row i1)).
  { destruct (get_rc env =? EAGAIN); [|destruct (negb (get_rc env =? 0))].
    - destruct (shm_on_no_shm_event _ _) as [i2|] eqn:Hno; [|done].
      cbn in Hh. injection Hh as <- <- <-.
      destruct (no_event_in_a_row _ _ _ Hpos Hzero Hno) as (? & ? & ?).
      split_and!; done.
    - destruct (shm_on_shm_error _) as [i2|] eqn:Herr; [|done].
      cbn in Hh. injection Hh as <- <- <-.
      destruct (error_in_a_row _ _ Hpos Hzero Herr) as (? & ? & ?).
      split_and!; done.
    - by eapply event_in_a_row. }
  destruct Hi1 as (H1 & H2 & H3 & H4).
  unfold events_in_a_row in *. rewrite Hst, Hcg, Hevs.
  split_and!; done.
Qed.

Lemma polls_are_silent (clock_ctrl : sfptpd_clock_ctrl) (freq_correction : Q)
    (envs : list poll_env) :
  forall (st st' : poll_state) (outs : list poll_output),
    0 <= consecutive_good_periods (instance_of st) ->
    (state (instance_of st) <> SYNC_MODULE_STATE_SLAVE ->
     consecutive_good_periods (instance_of st) = 0) ->
    events_in_a_row (instance_of st) + Z.of_nat (length envs) <= 3 ->
    shm_polls clock_ctrl freq_correction envs st = Some (st', outs) ->
    Forall (fun out => poll_events out = []) outs.
Proof.
  induction envs as [|env envs IH]; intros st st' outs Hpos Hzero Hlen Hrun.
  - injection Hrun as <- <-. constructor.
  - cbn [shm_polls] in Hrun.
    destruct (shm_do_poll _ _ env st) as [[st1 out]|] eqn:Hpoll; [|done].
    cbn [mbind option_bind] in Hrun.
    destruct (shm_polls _ _ envs st1) as [[st2 outs']|] eqn:Hrest; [|done].
    cbn in Hrun. injection Hrun as <- <-.
    destruct (do_poll_events_in_a_row _ _ _ _ _ _ Hpos Hzero Hpoll)
      as (Hpos1 & Hzero1 & Hle & Hevs).
    cbn [length] in Hlen. constructor.
    + destruct (poll_events out) eqn:E; [done|].
      assert (4 <= events_in_a_row (instance_of st1)) by (by apply Hevs).
      lia.
    + eapply IH; [exact Hpos1 | exact Hzero1 | lia | exact Hrest].
Qed.

(** X28.  The servo is silent for three polls.  From an instance that is
    not a slave and has counted no good period (as the state-machine
    reset leaves it), the first three polls send no request to the clock
    or the engine, whatever they find: the fourth event in a row is the
    first the servo can act on. *)
Theorem servo_is_silent_for_three_polls
    (clock_ctrl : sfptpd_clock_ctrl) (freq_correction : Q)
    (envs : list poll_env) (st st' : poll_state) (outs : list poll_output) :
  state (instance_of st) <> SYNC_MODULE_STATE_SLAVE ->
  consecutive_good_periods (instance_of st) = 0 ->
  (length envs <= 3)%nat ->
  shm_polls clock_ctrl freq_correction envs st = Some (st', outs) ->
  Forall (fun out => poll_events out = []) outs.
Proof.
  intros Hst Hzero Hlen Hrun.
  apply (polls_are_silent clock_ctrl freq_correction envs st st' outs);
    [lia | done | | exact Hrun].
  unfold events_in_a_row. rewrite bool_decide_eq_false_2 by done. lia.
Qed.

(** A poll of an instance in one of the three states returns, and leaves
    it in one of them. *)
Lemma do_poll_defined (clock_ctrl : sfptpd_clock_ctrl) (freq_correction : Q)
    (env : poll_env) (st : poll_state) :
  let three := [SYNC_MODULE_STATE_LISTENING; SYNC_MODULE_STATE_SLAVE;
                SYNC_MODULE_STATE_FAULTY] in
  state (instance_of st) ∈ three ->
  exists st' out,
    shm_do_poll clock_ctrl freq_correction env st = Some (st', out) /\
    state (instance_of st') ∈ three /\
    prev_state (instance_of st') = state (instance_of st') /\
    prev_alarms (instance_of st') = alarms (instance_of st') /\
    prev_clustering_score st' = clustering_score (instance_of st') /\
    counters (instance_of st')
    = {| clock_steps := 0; seq_num_errors := 0;
         bad_signal_errors := 0; outliers := 0 |} /\
    poll_rc out = get_rc env.
Proof.
  intros three Hin.
  pose proof (do_poll_after_handler clock_ctrl freq_correction env st) as H.
  cbv zeta in H.
  destruct (handlers_stay_in_three_states clock_ctrl freq_correction
              (monotonic_now env) (status (time_of_day_of st))
              (instance_of st) (get_seq_num env) (get_time env))
    as (Hno & Herr & Hev & Hno' & Herr' & Hev').
  fold three in Hno, Herr, Hev.
  assert (Hthree : forall x, x = SYNC_MODULE_STATE_LISTENING \/
                             x = SYNC_MODULE_STATE_SLAVE \/
                             x = SYNC_MODULE_STATE_FAULTY -> x ∈ three).
  { intros x. subst three. rewrite !elem_of_cons, elem_of_nil. tauto. }
  assert (Hh : exists shm1 i1 evs,
            (if get_rc env =? EAGAIN
             then i ← shm_on_no_shm_event (monotonic_now env) (instance_of st);
                  Some (status (time_of_day_of st), i, [])
             else if negb (get_rc env =? 0)
             then i ← shm_on_shm_error (instance_of st);
                  Some (status (time_of_day_of st), i, [])
             else shm_on_shm_event clock_ctrl freq_correction
                    (monotonic_now env) (status (time_of_day_of st))
                    (instance_of st) (get_seq_num env) (get_time env))
            = Some (shm1, i1, evs) /\ state i1 ∈ three).
  { destruct (get_rc env =? EAGAIN); [|destruct (negb (get_rc env =? 0))].
    - destruct (proj2 Hno Hin) as [i1 Hi1]. rewrite Hi1.
      do 3 eexists. split; [reflexivity|].
      destruct (Hno' i1 Hi1) as [[->| ->] _]; [done|]. apply Hthree. auto.
    - destruct (proj2 Herr Hin) as [i1 Hi1]. rewrite Hi1.
      do 3 eexists. split; [reflexivity|].
      rewrite (Herr' i1 Hi1). apply Hthree. auto.
    - destruct (proj2 Hev Hin) as [[[shm1 i1] evs] Hr]. rewrite Hr.
      do 3 eexists. split; [reflexivity|].
      pose proof (Hev' _ Hr) as Hs. cbn [fst snd] in Hs. rewrite Hs.
      apply Hthree. auto. }
  destruct Hh as (shm1 & i1 & evs & Hh & Hin1). rewrite Hh in H.
  destruct H as (st' & out & Hpoll & _ & Hrc & Hst & _ & Hcs & Hprev & Hal &
                 Hsc & Hcnt & _).
  exists st', out. rewrite Hst, Hprev, Hcs. by split_and!.
Qed.

Lemma polls_defined (clock_ctrl : sfptpd_clock_ctrl) (freq_correction : Q)
    (envs : list poll_env) :
  let three := [SYNC_MODULE_STATE_LISTENING; SYNC_MODULE_STATE_SLAVE;
                SYNC_MODULE_STATE_FAULTY] in
  forall st : poll_state,
    state (instance_of st) ∈ three ->
    exists st' outs,
      shm_polls clock_ctrl freq_correction envs st = Some (st', outs) /\
      length outs = length envs /\
      poll_rc <$> outs = get_rc <$> envs /\
      state (instance_of st') ∈ three /\
      (envs <> [] ->
       prev_state (instance_of st') = state (instance_of st') /\
       prev_alarms (instance_of st') = alarms (instance_of st') /\
       prev_clustering_score st' = clustering_score (instance_of st') /\
       counters (instance_of st')
       = {| clock_steps := 0; seq_num_errors := 0;
            bad_signal_errors := 0; outliers := 0 |}).
Proof.
  intros three. induction envs as [|env envs IH]; intros st Hin.
  - exists st, []. by split_and!.
  - destruct (do_poll_defined clock_ctrl freq_correction env st Hin)
      as (st1 & out & Hpoll & Hin1 & Hp1 & Hp2 & Hp3 & Hp4 & Hrc).
    destruct (IH st1 Hin1) as (st2 & outs & Hrun & Hlen & Hrcs & Hin2 & Hlast).
    exists st2, (out :: outs). cbn [shm_polls]. rewrite Hpoll.
    cbn [mbind option_bind]. rewrite Hrun. cbn [mbind option_bind].
    split_and!; try done.
    + cbn. by rewrite Hlen.
    + cbn. by rewrite Hrc, Hrcs.
    + intros _. destruct envs as [|env' envs]; [|by apply Hlast].
      cbn in Hrun. injection Hrun as <- <-. done.
Qed.

(** X29.  The polls run to completion.  From an instance in the state
    LISTENING, SLAVE or FAULTY, any number of polls, whatever they
    read, return (no [assert] of a handler fails), one output for each
    poll with the return code read, and leave the instance in one of
    the three states; after the last of them the snapshot of the
    previous state, alarms and clustering score equals the current
    ones and the four error counters are zero. *)
Theorem polls_run_to_completion
    (clock_ctrl : sfptpd_clock_ctrl) (freq_correction : Q)
    (envs : list poll_env) (st : poll_state) :
  let three := [SYNC_MODULE_STATE_LISTENING; SYNC_MODULE_STATE_SLAVE;
                SYNC_MODULE_STATE_FAULTY] in
  state (instance_of st) ∈ three ->
  exists st' outs,
    shm_polls clock_ctrl freq_correction envs st = Some (st', outs) /\
    length outs = length envs /\
    poll_rc <$> outs = get_rc <$> envs /\
    state (instance_of st') ∈ three /\
    (envs <> [] ->
     prev_state (instance_of st') = state (instance_of st') /\
     prev_alarms (instance_of st') = alarms (instance_of st') /\
     prev_clustering_score st' = clustering_score (instance_of st') /\
     counters (instance_of st')
     = {| clock_steps := 0; seq_num_errors := 0;
          bad_signal_errors := 0; outliers := 0 |}).
Proof.
  exact (polls_defined clock_ctrl freq_correction envs st).
Qed.

End Poll.

Lemma step_request_is_followed_by_a_silent_event_witness :
  step_occurred
    (shm_on_step_clock (ext := plain_collaborators) (inject_Z 7) plain_shm
       (plain_instance SYNC_MODULE_STATE_SLAVE 0 false 6 (inject_Z 0))
       (event_time 250)).1.2 = true.
Proof.
  refine (proj1 (proj2 (step_request_is_followed_by_a_silent_event
            (bits := plain_bits) (ext := plain_collaborators)
            SFPTPD_CLOCK_CTRL_SLEW_AND_STEP (inject_Z 7) (inject_Z 7)
            (event_time 0) plain_shm
            (plain_instance SYNC_MODULE_STATE_SLAVE 0 false 6 (inject_Z 0))
            (event_time 250) 18 (event_time 3500) eq_refl _))).
  discriminate.
Defined.

Lemma time_of_day_poll_sets_the_alarm_witness :
  SYNC_MODULE_ALARM_TEST
    (alarms (shm_time_of_day_poll (bits := plain_bits)
               (ext := plain_collaborators) (tod_ops := plain_tod_ops)
               plain_tod_env plain_time_of_day
               (plain_instance SYNC_MODULE_STATE_SLAVE 4 false 6
                  (inject_Z 0))).1.2)
    (SYNC_MODULE_ALARM_NO_TIME_OF_DAY (SyncModuleBits := plain_bits))
  = false.
Proof.
  refine (proj1 (proj2 (time_of_day_poll_sets_the_alarm
            (bits := plain_bits) (ext := plain_collaborators)
            (tod_ops := plain_tod_ops) plain_tod_env plain_time_of_day
            (plain_instance SYNC_MODULE_STATE_SLAVE 4 false 6 (inject_Z 0))
            _) _)).
  - discriminate.
  - reflexivity.
Defined.

Lemma return_to_listening_is_not_reported_witness :
  exists st' out,
    shm_do_poll (bits := plain_bits) (ext := plain_collaborators)
      (tod_ops := plain_tod_ops) SFPTPD_CLOCK_CTRL_SLEW_AND_STEP (inject_Z 0)
      (plain_poll_env EAGAIN) (plain_poll_state SYNC_MODULE_STATE_FAULTY)
    = Some (st', out) /\
    state (instance_of st') = SYNC_MODULE_STATE_LISTENING /\
    poll_state_changed out = None.
Proof.
  destruct (return_to_listening_is_not_reported
              (bits := plain_bits) (ext := plain_collaborators)
              (tod_ops := plain_tod_ops) SFPTPD_CLOCK_CTRL_SLEW_AND_STEP
              (inject_Z 0) (plain_poll_env EAGAIN)
              (plain_poll_state SYNC_MODULE_STATE_FAULTY)
              eq_refl (or_introl eq_refl) eq_refl)
    as (st' & out & H1 & H2 & _ & H3 & _).
  exists st', out. split; [exact H1 | split; [exact H2 | exact H3]].
Defined.

Lemma servo_is_silent_for_three_polls_witness :
  exists st' outs,
    shm_polls (bits := plain_bits) (ext := plain_collaborators)
      (tod_ops := plain_tod_ops) SFPTPD_CLOCK_CTRL_SLEW_AND_STEP (inject_Z 0)
      [plain_poll_env 0; plain_poll_env 0; plain_poll_env 0]
      {| instance_of :=
           shm_state_machine_reset
             (plain_instance SYNC_MODULE_STATE_SLAVE 0 false 6 (inject_Z 0));
         prev_clustering_score := 1;
         time_of_day_of := plain_time_of_day |}
    = Some (st', outs) /\
    Forall (fun out => poll_events out = []) outs.
Proof.
  destruct (polls_defined (bits := plain_bits) (ext := plain_collaborators)
              (tod_ops := plain_tod_ops) SFPTPD_CLOCK_CTRL_SLEW_AND_STEP
              (inject_Z 0)
              [plain_poll_env 0; plain_poll_env 0; plain_poll_env 0]
              {| instance_of :=
                   shm_state_machine_reset
                     (plain_instance SYNC_MODULE_STATE_SLAVE 0 false 6
                        (inject_Z 0));
                 prev_clustering_score := 1;
                 time_of_day_of := plain_time_of_day |})
    as (st' & outs & Hrun & _).
  { apply list_elem_of_here. }
  exists st', outs. split; [exact Hrun|].
  refine (servo_is_silent_for_three_polls _ _ _ _ _ _ _ _ _ Hrun).
  - discriminate.
  - reflexivity.
  - cbn. lia.
Defined.

Lemma polls_run_to_completion_witness :
  exists st' outs,
    shm_polls (bits := plain_bits) (ext := plain_collaborators)
      (tod_ops := plain_tod_ops) SFPTPD_CLOCK_CTRL_SLEW_AND_STEP (inject_Z 0)
      [plain_poll_env 0; plain_poll_env 5; plain_poll_env EAGAIN]
      (plain_poll_state SYNC_MODULE_STATE_SLAVE)
    = Some (st', outs) /\
    poll_rc <$> outs = [0; 5; EAGAIN].
Proof.
  destruct (polls_run_to_completion (bits := plain_bits)
              (ext := plain_collaborators) (tod_ops := plain_tod_ops)
              SFPTPD_CLOCK_CTRL_SLEW_AND_STEP (inject_Z 0)
              [plain_poll_env 0; plain_poll_env 5; plain_poll_env EAGAIN]
              (plain_poll_state SYNC_MODULE_STATE_SLAVE))
    as (st' & outs & Hrun & _ & Hrc & _).
  { apply list_elem_of_further, list_elem_of_here. }
  exists st', outs. split; [exact Hrun | exact Hrc].
Defined.

End ShmExtra.
